(** * Vulkan2D: descriptor controller and renderer frame state machine

    A shallow embedding of [VK2D/DescriptorControl.c] and of the
    user-visible half of [Renderer.c], with the lemmas that settle the
    statements of the design document about them.

    The C code talks to two things it does not own: the host allocator
    ([calloc], [realloc]) and the Vulkan driver.  Both are modelled as
    explicit components of a [World] value threaded through every
    function; every driver call is appended to a chronological trace so
    that "how many calls, on what, in which order" is a property of the
    returned world. *)

From Stdlib Require Import ZArith List Lia Bool String.
From stdpp Require Import base tactics option list.
Import ListNotations.
Local Open Scope Z_scope.

(** ** Machine integers and handles *)

(** [uint32_t] arithmetic: every result is reduced modulo [2^32]. *)
Definition UINT32_MOD : Z := 2 ^ 32.
Definition wrap32 (z : Z) : Z := z mod UINT32_MOD.

(** Vulkan handles are opaque; [VK_NULL_HANDLE] is the zero handle. *)
Abbreviation handle := nat (only parsing).
Definition VK_NULL_HANDLE : handle := 0%nat.
Definition is_null (h : handle) : bool := Nat.eqb h VK_NULL_HANDLE.

(** The result codes the two files look at. *)
Inductive VkResult :=
| VK_SUCCESS
| VK_SUBOPTIMAL_KHR
| VK_ERROR_OUT_OF_DATE_KHR
| VK_ERROR_OUT_OF_POOL_MEMORY
| VK_ERROR_OUT_OF_HOST_MEMORY
| VK_ERROR_OUT_OF_DEVICE_MEMORY
| VK_ERROR_FRAGMENTED_POOL
| VK_ERROR_DEVICE_LOST
| VK_ERROR_SURFACE_LOST_KHR.

Definition VkResult_eqb (a b : VkResult) : bool :=
  match a, b with
  | VK_SUCCESS, VK_SUCCESS
  | VK_SUBOPTIMAL_KHR, VK_SUBOPTIMAL_KHR
  | VK_ERROR_OUT_OF_DATE_KHR, VK_ERROR_OUT_OF_DATE_KHR
  | VK_ERROR_OUT_OF_POOL_MEMORY, VK_ERROR_OUT_OF_POOL_MEMORY
  | VK_ERROR_OUT_OF_HOST_MEMORY, VK_ERROR_OUT_OF_HOST_MEMORY
  | VK_ERROR_OUT_OF_DEVICE_MEMORY, VK_ERROR_OUT_OF_DEVICE_MEMORY
  | VK_ERROR_FRAGMENTED_POOL, VK_ERROR_FRAGMENTED_POOL
  | VK_ERROR_DEVICE_LOST, VK_ERROR_DEVICE_LOST
  | VK_ERROR_SURFACE_LOST_KHR, VK_ERROR_SURFACE_LOST_KHR => true
  | _, _ => false
  end.

(** ** Outcomes of C code

    [Fault] is C undefined behaviour (a store or load outside an array, the
    use of a handle that was never written); [OutOfFuel] is a loop that
    has not finished within the iterations granted. *)
Inductive Outcome (A : Type) :=
| Ok (a : A)
| Fault
| OutOfFuel.
Arguments Ok {A} a.
Arguments Fault {A}.
Arguments OutOfFuel {A}.

Definition obind {A B} (m : Outcome A) (k : A -> Outcome B) : Outcome B :=
  match m with
  | Ok a => k a
  | Fault => Fault
  | OutOfFuel => OutOfFuel
  end.

Declare Scope outcome_scope.
Delimit Scope outcome_scope with outcome.
Notation "'letOk' ' p := m 'in' k" := (obind m (fun p => k))
  (at level 10, p strict pattern, m at level 100, k at level 200) : outcome_scope.
Local Open Scope outcome_scope.

Module DescriptorControl.

(** ** The driver's side of descriptor pools *)

Inductive VkDescriptorType :=
| VK_DESCRIPTOR_TYPE_UNIFORM_BUFFER
| VK_DESCRIPTOR_TYPE_SAMPLED_IMAGE
| VK_DESCRIPTOR_TYPE_STORAGE_BUFFER.

Record VkDescriptorPoolSize := mkPoolSize {
  descriptorCount : Z;
  type : VkDescriptorType
}.

Record VkDescriptorPoolCreateInfo := mkPoolCreateInfo {
  pPoolSizes : list VkDescriptorPoolSize;
  maxSets : Z
}.

(** A pool object inside the driver: how it was created and the sets
    carved from it that are still alive. *)
Record PoolObj := mkPoolObj {
  poolInfo : VkDescriptorPoolCreateInfo;
  poolLive : list handle
}.

(** What the code asks of its environment, in the order it asks. *)
Inductive Call :=
| CallCreateDescriptorPool (info : VkDescriptorPoolCreateInfo) (res : VkResult) (pool : handle)
| CallAllocateDescriptorSets (pool : handle) (res : VkResult) (set : handle)
| CallResetDescriptorPool (pool : handle)
| CallLogError (res : VkResult)
| CallLogNullPointer.

(** The environment.  The pool with handle [h] is [devPools !! (h-1)];
    set handles are issued from a counter, so a handle is never issued
    twice.  [devMemory] is what the device can still give out, one unit
    per pool and one per set; [hostMemory] is what the host allocator can
    still give out, one unit per array slot or structure. *)
Record World := mkWorld {
  devPools : list PoolObj;
  devNextSet : nat;
  devMemory : nat;
  hostMemory : nat;
  trace : list Call
}.

Definition emit (c : Call) (w : World) : World :=
  mkWorld (devPools w) (devNextSet w) (devMemory w) (hostMemory w) (trace w ++ [c]).

Definition lookup_pool (w : World) (h : handle) : option PoolObj :=
  if is_null h then None else devPools w !! Nat.pred h.

Definition pool_full (po : PoolObj) : bool :=
  maxSets (poolInfo po) <=? Z.of_nat (length (poolLive po)).

(** [vkCreateDescriptorPool]: a device with memory left creates the pool
    and writes its handle; otherwise nothing is written. *)
Definition vkCreateDescriptorPool (w : World) (info : VkDescriptorPoolCreateInfo)
  : World * VkResult * handle :=
  match devMemory w with
  | O => (emit (CallCreateDescriptorPool info VK_ERROR_OUT_OF_DEVICE_MEMORY VK_NULL_HANDLE) w,
          VK_ERROR_OUT_OF_DEVICE_MEMORY, VK_NULL_HANDLE)
  | S m =>
      let h := S (length (devPools w)) in
      (mkWorld (devPools w ++ [mkPoolObj info []]) (devNextSet w) m (hostMemory w)
               (trace w ++ [CallCreateDescriptorPool info VK_SUCCESS h]),
       VK_SUCCESS, h)
  end.

(** [vkAllocateDescriptorSets] for one set.  [None] when the handle names
    no pool (invalid usage).  A pool that already holds [maxSets] sets
    answers [VK_ERROR_OUT_OF_POOL_MEMORY]; a device without memory answers
    [VK_ERROR_OUT_OF_DEVICE_MEMORY]; on every failure the returned set is
    [VK_NULL_HANDLE]. *)
Definition vkAllocateDescriptorSets (w : World) (pool : handle)
  : option (World * VkResult * handle) :=
  match lookup_pool w pool with
  | None => None
  | Some po =>
      if pool_full po then
        Some (emit (CallAllocateDescriptorSets pool VK_ERROR_OUT_OF_POOL_MEMORY VK_NULL_HANDLE) w,
              VK_ERROR_OUT_OF_POOL_MEMORY, VK_NULL_HANDLE)
      else
        match devMemory w with
        | O => Some (emit (CallAllocateDescriptorSets pool VK_ERROR_OUT_OF_DEVICE_MEMORY VK_NULL_HANDLE) w,
                     VK_ERROR_OUT_OF_DEVICE_MEMORY, VK_NULL_HANDLE)
        | S m =>
            let s := S (devNextSet w) in
            Some (mkWorld (<[Nat.pred pool := mkPoolObj (poolInfo po) (poolLive po ++ [s])]> (devPools w))
                          s m (hostMemory w)
                          (trace w ++ [CallAllocateDescriptorSets pool VK_SUCCESS s]),
                  VK_SUCCESS, s)
        end
  end.

(** [vkResetDescriptorPool]: every set of the pool goes back to the
    device.  [None] when the handle names no pool. *)
Definition vkResetDescriptorPool (w : World) (pool : handle) : option World :=
  match lookup_pool w pool with
  | None => None
  | Some po =>
      Some (mkWorld (<[Nat.pred pool := mkPoolObj (poolInfo po) []]> (devPools w))
                    (devNextSet w)
                    (devMemory w + length (poolLive po))%nat
                    (hostMemory w)
                    (trace w ++ [CallResetDescriptorPool pool]))
  end.

(** A set is valid while some pool of the device still holds it. *)
Definition set_valid (w : World) (s : handle) : Prop :=
  s <> VK_NULL_HANDLE /\ exists po, po ∈ devPools w /\ s ∈ poolLive po.

(** [realloc] of an array of pool handles to [n] slots.  Slots that were
    never written hold [None].  Returns [None] for a null result. *)
Definition realloc (w : World) (arr : list (option handle)) (n : Z)
  : World * option (list (option handle)) :=
  let old := length arr in
  let new := Z.to_nat n in
  if (n <=? 0) then (w, None)
  else if (new - old <=? hostMemory w)%nat then
    (mkWorld (devPools w) (devNextSet w) (devMemory w)
             (hostMemory w - (new - old))%nat (trace w),
     Some (take new arr ++ replicate (new - old) None))
  else (w, None).

(** Modelled from the spec: [vk2dErrorCheck] of [Validation.h], which is
    not among the sources; a result other than success is logged, and
    nothing else happens. *)
Definition vk2dErrorCheck (w : World) (res : VkResult) : World :=
  if VkResult_eqb res VK_SUCCESS then w else emit (CallLogError res) w.

(** Modelled from the spec: [vk2dPointerCheck] of [Validation.h], which is
    not among the sources; a null pointer is logged and reported as
    [false]. *)
Definition vk2dPointerCheck {A} (w : World) (p : option A) : World * bool :=
  match p with
  | Some _ => (w, true)
  | None => (emit CallLogNullPointer w, false)
  end.

(** Modelled from the spec: [vk2dInitDescriptorPoolCreateInfo] of
    [Initializers.h], which is not among the sources; it fills the
    structure with the first [count] sizes and the maximum number of
    sets. *)
Definition vk2dInitDescriptorPoolCreateInfo
  (sizes : list VkDescriptorPoolSize) (count : nat) (maxSets : Z)
  : VkDescriptorPoolCreateInfo :=
  mkPoolCreateInfo (take count sizes) maxSets.

(** ** The controller *)

Record VK2DDescCon := mkDescCon {
  dev : handle;
  layout : handle;
  buffer : Z;
  sampler : Z;
  storageBuffer : Z;
  pools : list (option handle);
  poolListSize : Z;
  poolsInUse : Z
}.

Definition set_pools (l : list (option handle)) (dc : VK2DDescCon) : VK2DDescCon :=
  mkDescCon (dev dc) (layout dc) (buffer dc) (sampler dc) (storageBuffer dc)
            l (poolListSize dc) (poolsInUse dc).
Definition set_poolListSize (n : Z) (dc : VK2DDescCon) : VK2DDescCon :=
  mkDescCon (dev dc) (layout dc) (buffer dc) (sampler dc) (storageBuffer dc)
            (pools dc) n (poolsInUse dc).
Definition set_poolsInUse (n : Z) (dc : VK2DDescCon) : VK2DDescCon :=
  mkDescCon (dev dc) (layout dc) (buffer dc) (sampler dc) (storageBuffer dc)
            (pools dc) (poolListSize dc) n.

(** [descCon->pools[i]] as an rvalue: the slot must lie inside the array
    and must have been written. *)
Definition read_pool (dc : VK2DDescCon) (i : Z) : option handle :=
  if (0 <=? i) then mjoin (pools dc !! Z.to_nat i) else None.

(** *** Vocabulary of the statements *)

(** The three ways [vkAllocateDescriptorSets] answers. *)
Inductive alloc_case (w : World) (pool : handle) : World -> VkResult -> handle -> Prop :=
| alloc_exhausted po :
    lookup_pool w pool = Some po -> pool_full po = true ->
    alloc_case w pool
      (emit (CallAllocateDescriptorSets pool VK_ERROR_OUT_OF_POOL_MEMORY VK_NULL_HANDLE) w)
      VK_ERROR_OUT_OF_POOL_MEMORY VK_NULL_HANDLE
| alloc_refused po :
    lookup_pool w pool = Some po -> pool_full po = false -> devMemory w = O ->
    alloc_case w pool
      (emit (CallAllocateDescriptorSets pool VK_ERROR_OUT_OF_DEVICE_MEMORY VK_NULL_HANDLE) w)
      VK_ERROR_OUT_OF_DEVICE_MEMORY VK_NULL_HANDLE
| alloc_served po m :
    lookup_pool w pool = Some po -> pool_full po = false -> devMemory w = S m ->
    alloc_case w pool
      (mkWorld (<[Nat.pred pool := mkPoolObj (poolInfo po) (poolLive po ++ [S (devNextSet w)])]>
                  (devPools w))
               (S (devNextSet w)) m (hostMemory w)
               (trace w ++ [CallAllocateDescriptorSets pool VK_SUCCESS (S (devNextSet w))]))
      VK_SUCCESS (S (devNextSet w)).


(** The world with more calls on its trace and nothing else changed. *)
Definition add_trace (w : World) (evs : list Call) : World :=
  mkWorld (devPools w) (devNextSet w) (devMemory w) (hostMemory w) (trace w ++ evs).

(** One refused allocation per pool of [hs], in order. *)
Definition oom_events (hs : list handle) : list Call :=
  map (fun h => CallAllocateDescriptorSets h VK_ERROR_OUT_OF_POOL_MEMORY VK_NULL_HANDLE) hs.

(** The call is a pool creation. *)
Definition is_create (c : Call) : bool :=
  match c with CallCreateDescriptorPool _ _ _ => true | _ => false end.

(** The call is an allocation from pool [h0], or the log entry that
    follows a failed one. *)
Definition served_by (h0 : handle) (c : Call) : bool :=
  match c with
  | CallAllocateDescriptorSets p _ _ => Nat.eqb p h0
  | CallLogError _ => true
  | _ => false
  end.

(** The pool exists and cannot give another set. *)
Definition exhausted (w : World) (h : handle) : Prop :=
  exists po, lookup_pool w h = Some po /\ pool_full po = true.

Section WithConstants.

(** The three constants of [Constants.h], which is not among the sources. *)
Variable VK2D_DEFAULT_ARRAY_EXTENSION : Z.
Variable VK2D_DEFAULT_DESCRIPTOR_POOL_ALLOCATION : Z.
Variable VK2D_NO_LOCATION : Z.

(** The [sizes] array and its fill count [i] as [_vk2dDescConAppendList]
    builds them. *)
Definition pool_sizes (dc : VK2DDescCon) : list VkDescriptorPoolSize :=
  (if buffer dc =? VK2D_NO_LOCATION then []
   else [mkPoolSize VK2D_DEFAULT_DESCRIPTOR_POOL_ALLOCATION VK_DESCRIPTOR_TYPE_UNIFORM_BUFFER])
  ++ (if sampler dc =? VK2D_NO_LOCATION then []
      else [mkPoolSize VK2D_DEFAULT_DESCRIPTOR_POOL_ALLOCATION VK_DESCRIPTOR_TYPE_SAMPLED_IMAGE])
  ++ (if storageBuffer dc =? VK2D_NO_LOCATION then []
      else [mkPoolSize VK2D_DEFAULT_DESCRIPTOR_POOL_ALLOCATION VK_DESCRIPTOR_TYPE_STORAGE_BUFFER]).

Definition pool_create_info (dc : VK2DDescCon) : VkDescriptorPoolCreateInfo :=
  vk2dInitDescriptorPoolCreateInfo (pool_sizes dc) (length (pool_sizes dc))
                                   VK2D_DEFAULT_DESCRIPTOR_POOL_ALLOCATION.

(** [sizes] is an array of two: the stores of [_vk2dDescConAppendList]
    stay inside it when at most two of the three locations are enabled. *)
Definition sizes_fit (dc : VK2DDescCon) : bool :=
  (length (pool_sizes dc) <=? 2)%nat.

(** [_vk2dDescConAppendList].  When the list is full it is extended; a
    failed extension is logged and skipped.  The pool sizes are then
    stored into [sizes]: a third store is outside the array, a [Fault].
    The new pool is created into [pools[poolsInUse]] whatever happened
    before: a store outside the array is a [Fault].  A failed creation is
    logged and leaves the slot unwritten; the count is incremented all the
    same. *)
Definition _vk2dDescConAppendList (dc : VK2DDescCon) (w : World)
  : Outcome (VK2DDescCon * World) :=
  let '(dc1, w1) :=
    if poolListSize dc =? poolsInUse dc then
      let '(w', newList) :=
        realloc w (pools dc) (wrap32 (poolListSize dc + VK2D_DEFAULT_ARRAY_EXTENSION)) in
      let '(w'', ok) := vk2dPointerCheck w' newList in
      match newList with
      | Some l =>
          (set_pools l (set_poolListSize
             (wrap32 (poolListSize dc + VK2D_DEFAULT_ARRAY_EXTENSION)) dc), w'')
      | None => (dc, w'')
      end
    else (dc, w) in
  if negb (sizes_fit dc1) then Fault else
  let createInfo := pool_create_info dc1 in
  if (0 <=? poolsInUse dc1) && (poolsInUse dc1 <? Z.of_nat (length (pools dc1))) then
    let '(w2, res, h) := vkCreateDescriptorPool w1 createInfo in
    let slots :=
      match res with
      | VK_SUCCESS => <[Z.to_nat (poolsInUse dc1) := Some h]> (pools dc1)
      | _ => pools dc1
      end in
    let w3 := vk2dErrorCheck w2 res in
    Ok (set_poolsInUse (wrap32 (poolsInUse dc1 + 1)) (set_pools slots dc1), w3)
  else Fault.

(** The [while] loop of [_vk2dDescConGetAvailableSet], entered with the
    current [set] and index [i]. *)
Fixpoint getAvailableSet_loop (fuel : nat) (dc : VK2DDescCon) (w : World)
  (set : handle) (i : Z) : Outcome (handle * VK2DDescCon * World) :=
  if negb (is_null set) then Ok (set, dc, w)
  else
    match fuel with
    | O => OutOfFuel
    | S fuel' =>
        match read_pool dc i with
        | None => Fault
        | Some pool =>
            match vkAllocateDescriptorSets w pool with
            | None => Fault
            | Some (w1, res, set1) =>
                let set2 :=
                  if VkResult_eqb res VK_ERROR_OUT_OF_POOL_MEMORY
                  then VK_NULL_HANDLE else set1 in
                if negb (VkResult_eqb res VK_ERROR_OUT_OF_POOL_MEMORY)
                   && negb (VkResult_eqb res VK_SUCCESS)
                then Ok (set2, dc, vk2dErrorCheck w1 res)
                else
                  let i1 := wrap32 (i + 1) in
                  letOk '(dc2, w2) :=
                    (if (i1 =? poolsInUse dc) && is_null set2
                     then _vk2dDescConAppendList dc w1
                     else Ok (dc, w1)) in
                  getAvailableSet_loop fuel' dc2 w2 set2 i1
            end
        end
    end.

Definition _vk2dDescConGetAvailableSet (fuel : nat) (dc : VK2DDescCon) (w : World)
  : Outcome (handle * VK2DDescCon * World) :=
  getAvailableSet_loop fuel dc w VK_NULL_HANDLE 0.

Definition vk2dDescConGetSet (fuel : nat) (dc : VK2DDescCon) (w : World)
  : Outcome (handle * VK2DDescCon * World) :=
  _vk2dDescConGetAvailableSet fuel dc w.

(** [vk2dDescConCreate]: [None] is the null controller of a failed
    [calloc]. *)
Definition vk2dDescConCreate (w : World) (dev layout : handle)
  (buffer sampler storageBuffer : Z) : Outcome (option VK2DDescCon * World) :=
  match hostMemory w with
  | O =>
      let '(w1, _) := vk2dPointerCheck w (@None unit) in
      Ok (None, w1)
  | S m =>
      let w1 := mkWorld (devPools w) (devNextSet w) (devMemory w) m (trace w) in
      let out := mkDescCon dev layout buffer sampler storageBuffer [] 0 0 in
      letOk '(out', w2) := _vk2dDescConAppendList out w1 in
      Ok (Some out', w2)
  end.

(** The [for] loop of [vk2dDescConReset] from index [i]; [n] is the
    number of iterations left, [poolsInUse - i]. *)
Fixpoint reset_loop (n : nat) (dc : VK2DDescCon) (w : World) (i : Z) : Outcome World :=
  match n with
  | O => Ok w
  | S n' =>
      match read_pool dc i with
      | None => Fault
      | Some pool =>
          match vkResetDescriptorPool w pool with
          | None => Fault
          | Some w1 => reset_loop n' dc w1 (i + 1)
          end
      end
  end.

Definition vk2dDescConReset (dc : VK2DDescCon) (w : World) : Outcome World :=
  reset_loop (Z.to_nat (poolsInUse dc)) dc w 0.

(** *** The allocation algorithm in the words of the design document

    "Scan backing pools in creation order; attempt allocation; if the
    allocator reports pool exhausted, advance to the next pool; if all
    existing pools are exhausted, append a new backing pool (same sizing
    policy) and retry." *)

Inductive Scan :=
| ScanServed (w : World) (res : VkResult) (set : handle)
| ScanExhausted (w : World)
| ScanInvalid.

Fixpoint spec_scan (w : World) (slots : list (option handle)) : Scan :=
  match slots with
  | [] => ScanExhausted w
  | None :: _ => ScanInvalid
  | Some pool :: rest =>
      match vkAllocateDescriptorSets w pool with
      | None => ScanInvalid
      | Some (w1, res, s) =>
          if VkResult_eqb res VK_ERROR_OUT_OF_POOL_MEMORY
          then spec_scan w1 rest
          else ScanServed w1 res s
      end
  end.

Definition in_use (dc : VK2DDescCon) : list (option handle) :=
  take (Z.to_nat (poolsInUse dc)) (pools dc).

Definition spec_getSet (dc : VK2DDescCon) (w : World)
  : Outcome (handle * VK2DDescCon * World) :=
  match spec_scan w (in_use dc) with
  | ScanInvalid => Fault
  | ScanServed w1 res s => Ok (s, dc, vk2dErrorCheck w1 res)
  | ScanExhausted w1 =>
      letOk '(dc2, w2) := _vk2dDescConAppendList dc w1 in
      match spec_scan w2 [pools dc2 !!! Z.to_nat (poolsInUse dc)] with
      | ScanServed w3 res s => Ok (s, dc2, vk2dErrorCheck w3 res)
      | ScanExhausted _ => OutOfFuel
      | ScanInvalid => Fault
      end
  end.

(** Iterations that are always enough for one call. *)
Definition enough_fuel (dc : VK2DDescCon) : nat := S (S (Z.to_nat (poolsInUse dc))).

(** [n] consecutive calls of [vk2dDescConGetSet], collecting the sets. *)
Fixpoint getSets (n : nat) (dc : VK2DDescCon) (w : World)
  : Outcome (list handle * VK2DDescCon * World) :=
  match n with
  | O => Ok ([], dc, w)
  | S n' =>
      letOk '(s, dc1, w1) := vk2dDescConGetSet (enough_fuel dc) dc w in
      letOk '(l, dc2, w2) := getSets n' dc1 w1 in
      Ok (s :: l, dc2, w2)
  end.

(** One frame's use of a controller: a reset, then [n] sets. *)
Definition cycle (n : nat) (dc : VK2DDescCon) (w : World)
  : Outcome (list handle * VK2DDescCon * World) :=
  letOk 'w1 := vk2dDescConReset dc w in
  getSets n dc w1.

Fixpoint cycles (ns : list nat) (dc : VK2DDescCon) (w : World)
  : Outcome (VK2DDescCon * World) :=
  match ns with
  | [] => Ok (dc, w)
  | n :: rest =>
      letOk '(_, dc1, w1) := cycle n dc w in
      cycles rest dc1 w1
  end.

(** *** Invariants *)

Definition live_total (w : World) : nat :=
  sum_list (map (fun po => length (poolLive po)) (devPools w)).

(** Everything the device has handed out or can still hand out: pools,
    live sets and free units.  No driver call changes it. *)
Definition device_budget (w : World) : Z :=
  Z.of_nat (length (devPools w)) + Z.of_nat (devMemory w) + Z.of_nat (live_total w).

(** What holds of a controller after any run that did not fault.  The
    last pool in use may be one whose creation the device refused. *)
Record inv (dc : VK2DDescCon) (w : World) : Prop := mkInv {
  inv_pos : 1 <= poolsInUse dc;
  inv_le : poolsInUse dc <= poolListSize dc;
  inv_u32 : poolListSize dc < UINT32_MOD;
  inv_len : Z.of_nat (length (pools dc)) = poolListSize dc;
  inv_written : forall (k : nat) (h : handle),
      pools dc !! k = Some (Some h) ->
      (k < h <= length (devPools w))%nat /\ Z.of_nat k < poolsInUse dc;
  inv_prefix : forall k : nat,
      Z.of_nat k + 1 < poolsInUse dc -> exists h : handle, pools dc !! k = Some (Some h);
  inv_budget : device_budget w + VK2D_DEFAULT_ARRAY_EXTENSION + 2 < UINT32_MOD
}.

(** A pool of the controller's sizing policy. *)
Definition pool_ready (w : World) (h : handle) : Prop :=
  exists po, lookup_pool w h = Some po
             /\ maxSets (poolInfo po) = VK2D_DEFAULT_DESCRIPTOR_POOL_ALLOCATION.

(** Every pool in use exists on the device, and the pool sizes of the
    controller fit their array. *)
Record wf (dc : VK2DDescCon) (w : World) : Prop := mkWf {
  wf_inv : inv dc w;
  wf_slots : forall k : nat,
      Z.of_nat k < poolsInUse dc ->
      exists h : handle, pools dc !! k = Some (Some h) /\ pool_ready w h;
  wf_kinds : sizes_fit dc = true
}.

(** The states a controller goes through: created on a device that
    cannot hold [2^32] objects, then used by any sequence of [getSet]
    and [reset] that returns. *)
Inductive reachable : VK2DDescCon -> World -> Prop :=
| reach_create (w : World) (d l : handle) (b s sb : Z) (dc : VK2DDescCon) (w' : World) :
    device_budget w + VK2D_DEFAULT_ARRAY_EXTENSION + 2 < UINT32_MOD ->
    vk2dDescConCreate w d l b s sb = Ok (Some dc, w') ->
    reachable dc w'
| reach_getSet (fuel : nat) (dc : VK2DDescCon) (w : World)
               (s : handle) (dc' : VK2DDescCon) (w' : World) :
    reachable dc w ->
    vk2dDescConGetSet fuel dc w = Ok (s, dc', w') ->
    reachable dc' w'
| reach_reset (dc : VK2DDescCon) (w w' : World) :
    reachable dc w ->
    vk2dDescConReset dc w = Ok w' ->
    reachable dc w'.

End WithConstants.

(** A small build, to run the definitions on: the list grows by two
    slots, a pool holds two sets, and the device and the host have twenty
    units each.  [descCon] and [ready] are the controller and the world
    that [vk2dDescConCreate] returns. *)
Module Example.

Definition world : World := mkWorld [] 0 20 20 [].

Definition descCon : VK2DDescCon :=
  Eval vm_compute in
    match vk2dDescConCreate 2 2 (-1) world 1%nat 7%nat 0 1 (-1) with
    | Ok (Some dc, _) => dc
    | _ => mkDescCon 0%nat 0%nat 0 0 0 [] 0 0
    end.

Definition ready : World :=
  Eval vm_compute in
    match vk2dDescConCreate 2 2 (-1) world 1%nat 7%nat 0 1 (-1) with
    | Ok (_, w) => w
    | _ => world
    end.

(** The host has no memory left for the list. *)
Definition starved : World := mkWorld [] 0 20 1 [].

(** A device that has nothing left to give. *)
Definition exhausted_device : World := mkWorld [] 0 0 20 [].

End Example.

End DescriptorControl.

Module Renderer.

(** ** What the build supplies

    The floating-point types and the constants of [Constants.h] and
    [Structs.h] are not among the sources.  The functions below treat them
    as given: floating-point values are opaque and only moved around or
    combined by the operations listed here. *)
Class Parameters := {
  float : Type;
  double : Type;
  float_of_u32 : Z -> float;
  float_zero : float;
  float_one : float;
  double_of_u64 : Z -> double;
  double_zero : double;
  double_one : double;
  double_1000 : double;
  double_add : double -> double -> double;
  double_sub : double -> double -> double;
  double_mul : double -> double -> double;
  double_div : double -> double -> double;
  double_ge : double -> double -> bool;
  (** the fields of [VK2DCameraSpec] other than its on-screen rectangle *)
  CameraView : Type;
  camera_view_zero : CameraView;
  VK2D_MAX_FRAMES_IN_FLIGHT : Z;
  VK2D_DEFAULT_CAMERA : Z;
  VK2D_INVALID_CAMERA : Z;
  VK2D_TARGET_SCREEN : nat;
  cs_Normal : Z;
  bm_None : Z
}.

Definition UINT32_MAX : Z := UINT32_MOD - 1.
Definition VK_PRESENT_MODE_FIFO_KHR : Z := 2.

Inductive VkImageLayout :=
| VK_IMAGE_LAYOUT_COLOR_ATTACHMENT_OPTIMAL
| VK_IMAGE_LAYOUT_SHADER_READ_ONLY_OPTIMAL.

(** The subsystems [_vk2dRendererResetSwapchain] and [vk2dRendererQuit]
    tear down and build. *)
Inductive Subsystem :=
| Synchronization | Sampler | DescriptorPool | UniformBuffers | FrameBuffer
| Pipelines | RenderPass | DepthStencilImage | ColourResources | Swapchain
| TargetsList | Units | DescriptorSetLayout | WindowSurface | Debug.

(** A texture pointer is an address; two textures with the same contents
    at different addresses are different targets. *)
Definition VK2DTexture := nat.

Section WithParameters.
Context {P : Parameters}.

Definition vec4 : Type := float * float * float * float.

Record VkExtent2D := mkExtent { extentWidth : Z; extentHeight : Z }.

Record VkViewport := mkViewport {
  viewportX : float; viewportY : float;
  viewportWidth : float; viewportHeight : float;
  minDepth : float; maxDepth : float
}.

Record VK2DRendererConfig := mkConfig {
  msaa : Z;
  screenMode : Z;
  filterMode : Z
}.

Record VK2DCameraSpec := mkCameraSpec {
  cameraView : CameraView;
  xOnScreen : float;
  yOnScreen : float;
  wOnScreen : float;
  hOnScreen : float
}.

(** A camera slot.  [ubos !! i] is the specification last written into
    the uniform buffer object of swapchain image [i], if any. *)
Record VK2DCamera := mkCamera {
  state : Z;
  spec : VK2DCameraSpec;
  ubos : list (option VK2DCameraSpec);
  uboSets : list handle
}.

Record VK2DPhysicalDevice := mkPhysicalDevice {
  pdDev : handle;
  (** what [vk2dPhysicalDeviceGetMSAA] answers for this device *)
  pdMaxMSAA : Z
}.

Record VK2DLogicalDevice := mkLogicalDevice {
  ldDev : handle;
  ldQueue : handle
}.

Record VK2DImage := mkImage {
  imgImg : handle;
  imgView : handle;
  imgWidth : Z;
  imgHeight : Z
}.

(** What a texture pointer points to. *)
Record VK2DTextureObj := mkTexture {
  texImg : VK2DImage;
  texFbo : handle;
  texUboSet : handle
}.

(** What the renderer asks of the driver, the window system and the log,
    in the order it asks. *)
Inductive Event :=
| EvLogMessage (msg : string)
| EvLogError (res : VkResult)
| EvQueueWaitIdle (queue : handle)
| EvDeviceWaitIdle (device : handle)
| EvPumpEvents
| EvWaitForFences (fence : handle)
| EvAcquireNextImage (swapchain semaphore : handle) (res : VkResult)
| EvResetBoundPointers
| EvFlushUBOBuffer (frame : Z) (camera : Z)
| EvResetCommandBuffer (cb : handle)
| EvBeginCommandBuffer (cb : handle)
| EvCmdBeginRenderPass (cb pass framebuffer : handle) (width height : Z) (clear : option vec4)
| EvCmdEndRenderPass (cb : handle)
| EvEndCommandBuffer (cb : handle)
| EvResetFences (fence : handle)
| EvQueueSubmit (queue cb wait signal fence : handle)
| EvQueuePresent (queue swapchain : handle) (image : Z) (wait : handle)
| EvTransitionImageLayout (image : handle) (old new : VkImageLayout)
| EvDestroy (s : Subsystem)
| EvDestroyPipelines (preserveCustomPipes : bool)
| EvCreate (s : Subsystem)
| EvDestroyAllocator
| EvFreeDevices.

Record VK2DRenderer := mkRenderer {
  pd : VK2DPhysicalDevice;
  ld : VK2DLogicalDevice;
  config : VK2DRendererConfig;
  newConfig : VK2DRendererConfig;
  resetSwapchain : bool;
  presentModes : list Z;
  surfaceCapabilities : VkExtent2D;
  surfaceWidth : Z;
  surfaceHeight : Z;
  swapchain : handle;
  swapchainImages : list handle;
  swapchainImageCount : Z;
  framebuffers : list handle;
  renderPass : handle;
  midFrameSwapRenderPass : handle;
  externalTargetRenderPass : handle;
  commandBuffer : list handle;
  imageAvailableSemaphores : list handle;
  renderFinishedSemaphores : list handle;
  inFlightFences : list handle;
  imagesInFlight : list handle;
  currentFrame : Z;
  scImageIndex : Z;
  procedStartFrame : bool;
  targetFrameBuffer : handle;
  targetRenderPass : handle;
  targetSubPass : Z;
  targetImage : handle;
  targetUBOSet : handle;
  target : VK2DTexture;
  cameras : list VK2DCamera;
  defaultCameraSpec : VK2DCameraSpec;
  cameraLocked : Z;
  colourBlend : vec4;
  blendMode : Z;
  viewport : VkViewport;
  enableTextureCameraUBO : bool;
  previousTime : double;
  accumulatedTime : double;
  amountOfFrames : double;
  frameTimeAverage : double
}.

(** Field updates, one per field the functions below assign. *)
Definition set_config (v : VK2DRendererConfig) (r : VK2DRenderer) : VK2DRenderer :=
  mkRenderer
    (pd r) (ld r) v (newConfig r) (resetSwapchain r) (presentModes r)
    (surfaceCapabilities r) (surfaceWidth r) (surfaceHeight r) (swapchain r)
    (swapchainImages r) (swapchainImageCount r) (framebuffers r) (renderPass r)
    (midFrameSwapRenderPass r) (externalTargetRenderPass r) (commandBuffer r)
    (imageAvailableSemaphores r) (renderFinishedSemaphores r) (inFlightFences r)
    (imagesInFlight r) (currentFrame r) (scImageIndex r) (procedStartFrame r)
    (targetFrameBuffer r) (targetRenderPass r) (targetSubPass r) (targetImage r)
    (targetUBOSet r) (target r) (cameras r) (defaultCameraSpec r) (cameraLocked r)
    (colourBlend r) (blendMode r) (viewport r) (enableTextureCameraUBO r) (previousTime
    r) (accumulatedTime r) (amountOfFrames r) (frameTimeAverage r).
Definition set_newConfig (v : VK2DRendererConfig) (r : VK2DRenderer) : VK2DRenderer :=
  mkRenderer
    (pd r) (ld r) (config r) v (resetSwapchain r) (presentModes r) (surfaceCapabilities
    r) (surfaceWidth r) (surfaceHeight r) (swapchain r) (swapchainImages r)
    (swapchainImageCount r) (framebuffers r) (renderPass r) (midFrameSwapRenderPass r)
    (externalTargetRenderPass r) (commandBuffer r) (imageAvailableSemaphores r)
    (renderFinishedSemaphores r) (inFlightFences r) (imagesInFlight r) (currentFrame r)
    (scImageIndex r) (procedStartFrame r) (targetFrameBuffer r) (targetRenderPass r)
    (targetSubPass r) (targetImage r) (targetUBOSet r) (target r) (cameras r)
    (defaultCameraSpec r) (cameraLocked r) (colourBlend r) (blendMode r) (viewport r)
    (enableTextureCameraUBO r) (previousTime r) (accumulatedTime r) (amountOfFrames r)
    (frameTimeAverage r).
Definition set_resetSwapchain (v : bool) (r : VK2DRenderer) : VK2DRenderer :=
  mkRenderer
    (pd r) (ld r) (config r) (newConfig r) v (presentModes r) (surfaceCapabilities r)
    (surfaceWidth r) (surfaceHeight r) (swapchain r) (swapchainImages r)
    (swapchainImageCount r) (framebuffers r) (renderPass r) (midFrameSwapRenderPass r)
    (externalTargetRenderPass r) (commandBuffer r) (imageAvailableSemaphores r)
    (renderFinishedSemaphores r) (inFlightFences r) (imagesInFlight r) (currentFrame r)
    (scImageIndex r) (procedStartFrame r) (targetFrameBuffer r) (targetRenderPass r)
    (targetSubPass r) (targetImage r) (targetUBOSet r) (target r) (cameras r)
    (defaultCameraSpec r) (cameraLocked r) (colourBlend r) (blendMode r) (viewport r)
    (enableTextureCameraUBO r) (previousTime r) (accumulatedTime r) (amountOfFrames r)
    (frameTimeAverage r).
Definition set_surfaceWidth (v : Z) (r : VK2DRenderer) : VK2DRenderer :=
  mkRenderer
    (pd r) (ld r) (config r) (newConfig r) (resetSwapchain r) (presentModes r)
    (surfaceCapabilities r) v (surfaceHeight r) (swapchain r) (swapchainImages r)
    (swapchainImageCount r) (framebuffers r) (renderPass r) (midFrameSwapRenderPass r)
    (externalTargetRenderPass r) (commandBuffer r) (imageAvailableSemaphores r)
    (renderFinishedSemaphores r) (inFlightFences r) (imagesInFlight r) (currentFrame r)
    (scImageIndex r) (procedStartFrame r) (targetFrameBuffer r) (targetRenderPass r)
    (targetSubPass r) (targetImage r) (targetUBOSet r) (target r) (cameras r)
    (defaultCameraSpec r) (cameraLocked r) (colourBlend r) (blendMode r) (viewport r)
    (enableTextureCameraUBO r) (previousTime r) (accumulatedTime r) (amountOfFrames r)
    (frameTimeAverage r).
Definition set_surfaceHeight (v : Z) (r : VK2DRenderer) : VK2DRenderer :=
  mkRenderer
    (pd r) (ld r) (config r) (newConfig r) (resetSwapchain r) (presentModes r)
    (surfaceCapabilities r) (surfaceWidth r) v (swapchain r) (swapchainImages r)
    (swapchainImageCount r) (framebuffers r) (renderPass r) (midFrameSwapRenderPass r)
    (externalTargetRenderPass r) (commandBuffer r) (imageAvailableSemaphores r)
    (renderFinishedSemaphores r) (inFlightFences r) (imagesInFlight r) (currentFrame r)
    (scImageIndex r) (procedStartFrame r) (targetFrameBuffer r) (targetRenderPass r)
    (targetSubPass r) (targetImage r) (targetUBOSet r) (target r) (cameras r)
    (defaultCameraSpec r) (cameraLocked r) (colourBlend r) (blendMode r) (viewport r)
    (enableTextureCameraUBO r) (previousTime r) (accumulatedTime r) (amountOfFrames r)
    (frameTimeAverage r).
Definition set_swapchain (v : handle) (r : VK2DRenderer) : VK2DRenderer :=
  mkRenderer
    (pd r) (ld r) (config r) (newConfig r) (resetSwapchain r) (presentModes r)
    (surfaceCapabilities r) (surfaceWidth r) (surfaceHeight r) v (swapchainImages r)
    (swapchainImageCount r) (framebuffers r) (renderPass r) (midFrameSwapRenderPass r)
    (externalTargetRenderPass r) (commandBuffer r) (imageAvailableSemaphores r)
    (renderFinishedSemaphores r) (inFlightFences r) (imagesInFlight r) (currentFrame r)
    (scImageIndex r) (procedStartFrame r) (targetFrameBuffer r) (targetRenderPass r)
    (targetSubPass r) (targetImage r) (targetUBOSet r) (target r) (cameras r)
    (defaultCameraSpec r) (cameraLocked r) (colourBlend r) (blendMode r) (viewport r)
    (enableTextureCameraUBO r) (previousTime r) (accumulatedTime r) (amountOfFrames r)
    (frameTimeAverage r).
Definition set_swapchainImages (v : list handle) (r : VK2DRenderer) : VK2DRenderer :=
  mkRenderer
    (pd r) (ld r) (config r) (newConfig r) (resetSwapchain r) (presentModes r)
    (surfaceCapabilities r) (surfaceWidth r) (surfaceHeight r) (swapchain r) v
    (swapchainImageCount r) (framebuffers r) (renderPass r) (midFrameSwapRenderPass r)
    (externalTargetRenderPass r) (commandBuffer r) (imageAvailableSemaphores r)
    (renderFinishedSemaphores r) (inFlightFences r) (imagesInFlight r) (currentFrame r)
    (scImageIndex r) (procedStartFrame r) (targetFrameBuffer r) (targetRenderPass r)
    (targetSubPass r) (targetImage r) (targetUBOSet r) (target r) (cameras r)
    (defaultCameraSpec r) (cameraLocked r) (colourBlend r) (blendMode r) (viewport r)
    (enableTextureCameraUBO r) (previousTime r) (accumulatedTime r) (amountOfFrames r)
    (frameTimeAverage r).
Definition set_swapchainImageCount (v : Z) (r : VK2DRenderer) : VK2DRenderer :=
  mkRenderer
    (pd r) (ld r) (config r) (newConfig r) (resetSwapchain r) (presentModes r)
    (surfaceCapabilities r) (surfaceWidth r) (surfaceHeight r) (swapchain r)
    (swapchainImages r) v (framebuffers r) (renderPass r) (midFrameSwapRenderPass r)
    (externalTargetRenderPass r) (commandBuffer r) (imageAvailableSemaphores r)
    (renderFinishedSemaphores r) (inFlightFences r) (imagesInFlight r) (currentFrame r)
    (scImageIndex r) (procedStartFrame r) (targetFrameBuffer r) (targetRenderPass r)
    (targetSubPass r) (targetImage r) (targetUBOSet r) (target r) (cameras r)
    (defaultCameraSpec r) (cameraLocked r) (colourBlend r) (blendMode r) (viewport r)
    (enableTextureCameraUBO r) (previousTime r) (accumulatedTime r) (amountOfFrames r)
    (frameTimeAverage r).
Definition set_framebuffers (v : list handle) (r : VK2DRenderer) : VK2DRenderer :=
  mkRenderer
    (pd r) (ld r) (config r) (newConfig r) (resetSwapchain r) (presentModes r)
    (surfaceCapabilities r) (surfaceWidth r) (surfaceHeight r) (swapchain r)
    (swapchainImages r) (swapchainImageCount r) v (renderPass r)
    (midFrameSwapRenderPass r) (externalTargetRenderPass r) (commandBuffer r)
    (imageAvailableSemaphores r) (renderFinishedSemaphores r) (inFlightFences r)
    (imagesInFlight r) (currentFrame r) (scImageIndex r) (procedStartFrame r)
    (targetFrameBuffer r) (targetRenderPass r) (targetSubPass r) (targetImage r)
    (targetUBOSet r) (target r) (cameras r) (defaultCameraSpec r) (cameraLocked r)
    (colourBlend r) (blendMode r) (viewport r) (enableTextureCameraUBO r) (previousTime
    r) (accumulatedTime r) (amountOfFrames r) (frameTimeAverage r).
Definition set_renderPass (v : handle) (r : VK2DRenderer) : VK2DRenderer :=
  mkRenderer
    (pd r) (ld r) (config r) (newConfig r) (resetSwapchain r) (presentModes r)
    (surfaceCapabilities r) (surfaceWidth r) (surfaceHeight r) (swapchain r)
    (swapchainImages r) (swapchainImageCount r) (framebuffers r) v
    (midFrameSwapRenderPass r) (externalTargetRenderPass r) (commandBuffer r)
    (imageAvailableSemaphores r) (renderFinishedSemaphores r) (inFlightFences r)
    (imagesInFlight r) (currentFrame r) (scImageIndex r) (procedStartFrame r)
    (targetFrameBuffer r) (targetRenderPass r) (targetSubPass r) (targetImage r)
    (targetUBOSet r) (target r) (cameras r) (defaultCameraSpec r) (cameraLocked r)
    (colourBlend r) (blendMode r) (viewport r) (enableTextureCameraUBO r) (previousTime
    r) (accumulatedTime r) (amountOfFrames r) (frameTimeAverage r).
Definition set_midFrameSwapRenderPass (v : handle) (r : VK2DRenderer) : VK2DRenderer :=
  mkRenderer
    (pd r) (ld r) (config r) (newConfig r) (resetSwapchain r) (presentModes r)
    (surfaceCapabilities r) (surfaceWidth r) (surfaceHeight r) (swapchain r)
    (swapchainImages r) (swapchainImageCount r) (framebuffers r) (renderPass r) v
    (externalTargetRenderPass r) (commandBuffer r) (imageAvailableSemaphores r)
    (renderFinishedSemaphores r) (inFlightFences r) (imagesInFlight r) (currentFrame r)
    (scImageIndex r) (procedStartFrame r) (targetFrameBuffer r) (targetRenderPass r)
    (targetSubPass r) (targetImage r) (targetUBOSet r) (target r) (cameras r)
    (defaultCameraSpec r) (cameraLocked r) (colourBlend r) (blendMode r) (viewport r)
    (enableTextureCameraUBO r) (previousTime r) (accumulatedTime r) (amountOfFrames r)
    (frameTimeAverage r).
Definition set_externalTargetRenderPass (v : handle) (r : VK2DRenderer) : VK2DRenderer :=
  mkRenderer
    (pd r) (ld r) (config r) (newConfig r) (resetSwapchain r) (presentModes r)
    (surfaceCapabilities r) (surfaceWidth r) (surfaceHeight r) (swapchain r)
    (swapchainImages r) (swapchainImageCount r) (framebuffers r) (renderPass r)
    (midFrameSwapRenderPass r) v (commandBuffer r) (imageAvailableSemaphores r)
    (renderFinishedSemaphores r) (inFlightFences r) (imagesInFlight r) (currentFrame r)
    (scImageIndex r) (procedStartFrame r) (targetFrameBuffer r) (targetRenderPass r)
    (targetSubPass r) (targetImage r) (targetUBOSet r) (target r) (cameras r)
    (defaultCameraSpec r) (cameraLocked r) (colourBlend r) (blendMode r) (viewport r)
    (enableTextureCameraUBO r) (previousTime r) (accumulatedTime r) (amountOfFrames r)
    (frameTimeAverage r).
Definition set_commandBuffer (v : list handle) (r : VK2DRenderer) : VK2DRenderer :=
  mkRenderer
    (pd r) (ld r) (config r) (newConfig r) (resetSwapchain r) (presentModes r)
    (surfaceCapabilities r) (surfaceWidth r) (surfaceHeight r) (swapchain r)
    (swapchainImages r) (swapchainImageCount r) (framebuffers r) (renderPass r)
    (midFrameSwapRenderPass r) (externalTargetRenderPass r) v (imageAvailableSemaphores
    r) (renderFinishedSemaphores r) (inFlightFences r) (imagesInFlight r) (currentFrame
    r) (scImageIndex r) (procedStartFrame r) (targetFrameBuffer r) (targetRenderPass r)
    (targetSubPass r) (targetImage r) (targetUBOSet r) (target r) (cameras r)
    (defaultCameraSpec r) (cameraLocked r) (colourBlend r) (blendMode r) (viewport r)
    (enableTextureCameraUBO r) (previousTime r) (accumulatedTime r) (amountOfFrames r)
    (frameTimeAverage r).
Definition set_imageAvailableSemaphores (v : list handle) (r : VK2DRenderer) : VK2DRenderer :=
  mkRenderer
    (pd r) (ld r) (config r) (newConfig r) (resetSwapchain r) (presentModes r)
    (surfaceCapabilities r) (surfaceWidth r) (surfaceHeight r) (swapchain r)
    (swapchainImages r) (swapchainImageCount r) (framebuffers r) (renderPass r)
    (midFrameSwapRenderPass r) (externalTargetRenderPass r) (commandBuffer r) v
    (renderFinishedSemaphores r) (inFlightFences r) (imagesInFlight r) (currentFrame r)
    (scImageIndex r) (procedStartFrame r) (targetFrameBuffer r) (targetRenderPass r)
    (targetSubPass r) (targetImage r) (targetUBOSet r) (target r) (cameras r)
    (defaultCameraSpec r) (cameraLocked r) (colourBlend r) (blendMode r) (viewport r)
    (enableTextureCameraUBO r) (previousTime r) (accumulatedTime r) (amountOfFrames r)
    (frameTimeAverage r).
Definition set_renderFinishedSemaphores (v : list handle) (r : VK2DRenderer) : VK2DRenderer :=
  mkRenderer
    (pd r) (ld r) (config r) (newConfig r) (resetSwapchain r) (presentModes r)
    (surfaceCapabilities r) (surfaceWidth r) (surfaceHeight r) (swapchain r)
    (swapchainImages r) (swapchainImageCount r) (framebuffers r) (renderPass r)
    (midFrameSwapRenderPass r) (externalTargetRenderPass r) (commandBuffer r)
    (imageAvailableSemaphores r) v (inFlightFences r) (imagesInFlight r) (currentFrame
    r) (scImageIndex r) (procedStartFrame r) (targetFrameBuffer r) (targetRenderPass r)
    (targetSubPass r) (targetImage r) (targetUBOSet r) (target r) (cameras r)
    (defaultCameraSpec r) (cameraLocked r) (colourBlend r) (blendMode r) (viewport r)
    (enableTextureCameraUBO r) (previousTime r) (accumulatedTime r) (amountOfFrames r)
    (frameTimeAverage r).
Definition set_inFlightFences (v : list handle) (r : VK2DRenderer) : VK2DRenderer :=
  mkRenderer
    (pd r) (ld r) (config r) (newConfig r) (resetSwapchain r) (presentModes r)
    (surfaceCapabilities r) (surfaceWidth r) (surfaceHeight r) (swapchain r)
    (swapchainImages r) (swapchainImageCount r) (framebuffers r) (renderPass r)
    (midFrameSwapRenderPass r) (externalTargetRenderPass r) (commandBuffer r)
    (imageAvailableSemaphores r) (renderFinishedSemaphores r) v (imagesInFlight r)
    (currentFrame r) (scImageIndex r) (procedStartFrame r) (targetFrameBuffer r)
    (targetRenderPass r) (targetSubPass r) (targetImage r) (targetUBOSet r) (target r)
    (cameras r) (defaultCameraSpec r) (cameraLocked r) (colourBlend r) (blendMode r)
    (viewport r) (enableTextureCameraUBO r) (previousTime r) (accumulatedTime r)
    (amountOfFrames r) (frameTimeAverage r).
Definition set_imagesInFlight (v : list handle) (r : VK2DRenderer) : VK2DRenderer :=
  mkRenderer
    (pd r) (ld r) (config r) (newConfig r) (resetSwapchain r) (presentModes r)
    (surfaceCapabilities r) (surfaceWidth r) (surfaceHeight r) (swapchain r)
    (swapchainImages r) (swapchainImageCount r) (framebuffers r) (renderPass r)
    (midFrameSwapRenderPass r) (externalTargetRenderPass r) (commandBuffer r)
    (imageAvailableSemaphores r) (renderFinishedSemaphores r) (inFlightFences r) v
    (currentFrame r) (scImageIndex r) (procedStartFrame r) (targetFrameBuffer r)
    (targetRenderPass r) (targetSubPass r) (targetImage r) (targetUBOSet r) (target r)
    (cameras r) (defaultCameraSpec r) (cameraLocked r) (colourBlend r) (blendMode r)
    (viewport r) (enableTextureCameraUBO r) (previousTime r) (accumulatedTime r)
    (amountOfFrames r) (frameTimeAverage r).
Definition set_currentFrame (v : Z) (r : VK2DRenderer) : VK2DRenderer :=
  mkRenderer
    (pd r) (ld r) (config r) (newConfig r) (resetSwapchain r) (presentModes r)
    (surfaceCapabilities r) (surfaceWidth r) (surfaceHeight r) (swapchain r)
    (swapchainImages r) (swapchainImageCount r) (framebuffers r) (renderPass r)
    (midFrameSwapRenderPass r) (externalTargetRenderPass r) (commandBuffer r)
    (imageAvailableSemaphores r) (renderFinishedSemaphores r) (inFlightFences r)
    (imagesInFlight r) v (scImageIndex r) (procedStartFrame r) (targetFrameBuffer r)
    (targetRenderPass r) (targetSubPass r) (targetImage r) (targetUBOSet r) (target r)
    (cameras r) (defaultCameraSpec r) (cameraLocked r) (colourBlend r) (blendMode r)
    (viewport r) (enableTextureCameraUBO r) (previousTime r) (accumulatedTime r)
    (amountOfFrames r) (frameTimeAverage r).
Definition set_scImageIndex (v : Z) (r : VK2DRenderer) : VK2DRenderer :=
  mkRenderer
    (pd r) (ld r) (config r) (newConfig r) (resetSwapchain r) (presentModes r)
    (surfaceCapabilities r) (surfaceWidth r) (surfaceHeight r) (swapchain r)
    (swapchainImages r) (swapchainImageCount r) (framebuffers r) (renderPass r)
    (midFrameSwapRenderPass r) (externalTargetRenderPass r) (commandBuffer r)
    (imageAvailableSemaphores r) (renderFinishedSemaphores r) (inFlightFences r)
    (imagesInFlight r) (currentFrame r) v (procedStartFrame r) (targetFrameBuffer r)
    (targetRenderPass r) (targetSubPass r) (targetImage r) (targetUBOSet r) (target r)
    (cameras r) (defaultCameraSpec r) (cameraLocked r) (colourBlend r) (blendMode r)
    (viewport r) (enableTextureCameraUBO r) (previousTime r) (accumulatedTime r)
    (amountOfFrames r) (frameTimeAverage r).
Definition set_procedStartFrame (v : bool) (r : VK2DRenderer) : VK2DRenderer :=
  mkRenderer
    (pd r) (ld r) (config r) (newConfig r) (resetSwapchain r) (presentModes r)
    (surfaceCapabilities r) (surfaceWidth r) (surfaceHeight r) (swapchain r)
    (swapchainImages r) (swapchainImageCount r) (framebuffers r) (renderPass r)
    (midFrameSwapRenderPass r) (externalTargetRenderPass r) (commandBuffer r)
    (imageAvailableSemaphores r) (renderFinishedSemaphores r) (inFlightFences r)
    (imagesInFlight r) (currentFrame r) (scImageIndex r) v (targetFrameBuffer r)
    (targetRenderPass r) (targetSubPass r) (targetImage r) (targetUBOSet r) (target r)
    (cameras r) (defaultCameraSpec r) (cameraLocked r) (colourBlend r) (blendMode r)
    (viewport r) (enableTextureCameraUBO r) (previousTime r) (accumulatedTime r)
    (amountOfFrames r) (frameTimeAverage r).
Definition set_targetFrameBuffer (v : handle) (r : VK2DRenderer) : VK2DRenderer :=
  mkRenderer
    (pd r) (ld r) (config r) (newConfig r) (resetSwapchain r) (presentModes r)
    (surfaceCapabilities r) (surfaceWidth r) (surfaceHeight r) (swapchain r)
    (swapchainImages r) (swapchainImageCount r) (framebuffers r) (renderPass r)
    (midFrameSwapRenderPass r) (externalTargetRenderPass r) (commandBuffer r)
    (imageAvailableSemaphores r) (renderFinishedSemaphores r) (inFlightFences r)
    (imagesInFlight r) (currentFrame r) (scImageIndex r) (procedStartFrame r) v
    (targetRenderPass r) (targetSubPass r) (targetImage r) (targetUBOSet r) (target r)
    (cameras r) (defaultCameraSpec r) (cameraLocked r) (colourBlend r) (blendMode r)
    (viewport r) (enableTextureCameraUBO r) (previousTime r) (accumulatedTime r)
    (amountOfFrames r) (frameTimeAverage r).
Definition set_targetRenderPass (v : handle) (r : VK2DRenderer) : VK2DRenderer :=
  mkRenderer
    (pd r) (ld r) (config r) (newConfig r) (resetSwapchain r) (presentModes r)
    (surfaceCapabilities r) (surfaceWidth r) (surfaceHeight r) (swapchain r)
    (swapchainImages r) (swapchainImageCount r) (framebuffers r) (renderPass r)
    (midFrameSwapRenderPass r) (externalTargetRenderPass r) (commandBuffer r)
    (imageAvailableSemaphores r) (renderFinishedSemaphores r) (inFlightFences r)
    (imagesInFlight r) (currentFrame r) (scImageIndex r) (procedStartFrame r)
    (targetFrameBuffer r) v (targetSubPass r) (targetImage r) (targetUBOSet r) (target
    r) (cameras r) (defaultCameraSpec r) (cameraLocked r) (colourBlend r) (blendMode r)
    (viewport r) (enableTextureCameraUBO r) (previousTime r) (accumulatedTime r)
    (amountOfFrames r) (frameTimeAverage r).
Definition set_targetSubPass (v : Z) (r : VK2DRenderer) : VK2DRenderer :=
  mkRenderer
    (pd r) (ld r) (config r) (newConfig r) (resetSwapchain r) (presentModes r)
    (surfaceCapabilities r) (surfaceWidth r) (surfaceHeight r) (swapchain r)
    (swapchainImages r) (swapchainImageCount r) (framebuffers r) (renderPass r)
    (midFrameSwapRenderPass r) (externalTargetRenderPass r) (commandBuffer r)
    (imageAvailableSemaphores r) (renderFinishedSemaphores r) (inFlightFences r)
    (imagesInFlight r) (currentFrame r) (scImageIndex r) (procedStartFrame r)
    (targetFrameBuffer r) (targetRenderPass r) v (targetImage r) (targetUBOSet r)
    (target r) (cameras r) (defaultCameraSpec r) (cameraLocked r) (colourBlend r)
    (blendMode r) (viewport r) (enableTextureCameraUBO r) (previousTime r)
    (accumulatedTime r) (amountOfFrames r) (frameTimeAverage r).
Definition set_targetImage (v : handle) (r : VK2DRenderer) : VK2DRenderer :=
  mkRenderer
    (pd r) (ld r) (config r) (newConfig r) (resetSwapchain r) (presentModes r)
    (surfaceCapabilities r) (surfaceWidth r) (surfaceHeight r) (swapchain r)
    (swapchainImages r) (swapchainImageCount r) (framebuffers r) (renderPass r)
    (midFrameSwapRenderPass r) (externalTargetRenderPass r) (commandBuffer r)
    (imageAvailableSemaphores r) (renderFinishedSemaphores r) (inFlightFences r)
    (imagesInFlight r) (currentFrame r) (scImageIndex r) (procedStartFrame r)
    (targetFrameBuffer r) (targetRenderPass r) (targetSubPass r) v (targetUBOSet r)
    (target r) (cameras r) (defaultCameraSpec r) (cameraLocked r) (colourBlend r)
    (blendMode r) (viewport r) (enableTextureCameraUBO r) (previousTime r)
    (accumulatedTime r) (amountOfFrames r) (frameTimeAverage r).
Definition set_targetUBOSet (v : handle) (r : VK2DRenderer) : VK2DRenderer :=
  mkRenderer
    (pd r) (ld r) (config r) (newConfig r) (resetSwapchain r) (presentModes r)
    (surfaceCapabilities r) (surfaceWidth r) (surfaceHeight r) (swapchain r)
    (swapchainImages r) (swapchainImageCount r) (framebuffers r) (renderPass r)
    (midFrameSwapRenderPass r) (externalTargetRenderPass r) (commandBuffer r)
    (imageAvailableSemaphores r) (renderFinishedSemaphores r) (inFlightFences r)
    (imagesInFlight r) (currentFrame r) (scImageIndex r) (procedStartFrame r)
    (targetFrameBuffer r) (targetRenderPass r) (targetSubPass r) (targetImage r) v
    (target r) (cameras r) (defaultCameraSpec r) (cameraLocked r) (colourBlend r)
    (blendMode r) (viewport r) (enableTextureCameraUBO r) (previousTime r)
    (accumulatedTime r) (amountOfFrames r) (frameTimeAverage r).
Definition set_target (v : VK2DTexture) (r : VK2DRenderer) : VK2DRenderer :=
  mkRenderer
    (pd r) (ld r) (config r) (newConfig r) (resetSwapchain r) (presentModes r)
    (surfaceCapabilities r) (surfaceWidth r) (surfaceHeight r) (swapchain r)
    (swapchainImages r) (swapchainImageCount r) (framebuffers r) (renderPass r)
    (midFrameSwapRenderPass r) (externalTargetRenderPass r) (commandBuffer r)
    (imageAvailableSemaphores r) (renderFinishedSemaphores r) (inFlightFences r)
    (imagesInFlight r) (currentFrame r) (scImageIndex r) (procedStartFrame r)
    (targetFrameBuffer r) (targetRenderPass r) (targetSubPass r) (targetImage r)
    (targetUBOSet r) v (cameras r) (defaultCameraSpec r) (cameraLocked r) (colourBlend
    r) (blendMode r) (viewport r) (enableTextureCameraUBO r) (previousTime r)
    (accumulatedTime r) (amountOfFrames r) (frameTimeAverage r).
Definition set_cameras (v : list VK2DCamera) (r : VK2DRenderer) : VK2DRenderer :=
  mkRenderer
    (pd r) (ld r) (config r) (newConfig r) (resetSwapchain r) (presentModes r)
    (surfaceCapabilities r) (surfaceWidth r) (surfaceHeight r) (swapchain r)
    (swapchainImages r) (swapchainImageCount r) (framebuffers r) (renderPass r)
    (midFrameSwapRenderPass r) (externalTargetRenderPass r) (commandBuffer r)
    (imageAvailableSemaphores r) (renderFinishedSemaphores r) (inFlightFences r)
    (imagesInFlight r) (currentFrame r) (scImageIndex r) (procedStartFrame r)
    (targetFrameBuffer r) (targetRenderPass r) (targetSubPass r) (targetImage r)
    (targetUBOSet r) (target r) v (defaultCameraSpec r) (cameraLocked r) (colourBlend
    r) (blendMode r) (viewport r) (enableTextureCameraUBO r) (previousTime r)
    (accumulatedTime r) (amountOfFrames r) (frameTimeAverage r).
Definition set_cameraLocked (v : Z) (r : VK2DRenderer) : VK2DRenderer :=
  mkRenderer
    (pd r) (ld r) (config r) (newConfig r) (resetSwapchain r) (presentModes r)
    (surfaceCapabilities r) (surfaceWidth r) (surfaceHeight r) (swapchain r)
    (swapchainImages r) (swapchainImageCount r) (framebuffers r) (renderPass r)
    (midFrameSwapRenderPass r) (externalTargetRenderPass r) (commandBuffer r)
    (imageAvailableSemaphores r) (renderFinishedSemaphores r) (inFlightFences r)
    (imagesInFlight r) (currentFrame r) (scImageIndex r) (procedStartFrame r)
    (targetFrameBuffer r) (targetRenderPass r) (targetSubPass r) (targetImage r)
    (targetUBOSet r) (target r) (cameras r) (defaultCameraSpec r) v (colourBlend r)
    (blendMode r) (viewport r) (enableTextureCameraUBO r) (previousTime r)
    (accumulatedTime r) (amountOfFrames r) (frameTimeAverage r).
Definition set_colourBlend (v : vec4) (r : VK2DRenderer) : VK2DRenderer :=
  mkRenderer
    (pd r) (ld r) (config r) (newConfig r) (resetSwapchain r) (presentModes r)
    (surfaceCapabilities r) (surfaceWidth r) (surfaceHeight r) (swapchain r)
    (swapchainImages r) (swapchainImageCount r) (framebuffers r) (renderPass r)
    (midFrameSwapRenderPass r) (externalTargetRenderPass r) (commandBuffer r)
    (imageAvailableSemaphores r) (renderFinishedSemaphores r) (inFlightFences r)
    (imagesInFlight r) (currentFrame r) (scImageIndex r) (procedStartFrame r)
    (targetFrameBuffer r) (targetRenderPass r) (targetSubPass r) (targetImage r)
    (targetUBOSet r) (target r) (cameras r) (defaultCameraSpec r) (cameraLocked r) v
    (blendMode r) (viewport r) (enableTextureCameraUBO r) (previousTime r)
    (accumulatedTime r) (amountOfFrames r) (frameTimeAverage r).
Definition set_blendMode (v : Z) (r : VK2DRenderer) : VK2DRenderer :=
  mkRenderer
    (pd r) (ld r) (config r) (newConfig r) (resetSwapchain r) (presentModes r)
    (surfaceCapabilities r) (surfaceWidth r) (surfaceHeight r) (swapchain r)
    (swapchainImages r) (swapchainImageCount r) (framebuffers r) (renderPass r)
    (midFrameSwapRenderPass r) (externalTargetRenderPass r) (commandBuffer r)
    (imageAvailableSemaphores r) (renderFinishedSemaphores r) (inFlightFences r)
    (imagesInFlight r) (currentFrame r) (scImageIndex r) (procedStartFrame r)
    (targetFrameBuffer r) (targetRenderPass r) (targetSubPass r) (targetImage r)
    (targetUBOSet r) (target r) (cameras r) (defaultCameraSpec r) (cameraLocked r)
    (colourBlend r) v (viewport r) (enableTextureCameraUBO r) (previousTime r)
    (accumulatedTime r) (amountOfFrames r) (frameTimeAverage r).
Definition set_viewport (v : VkViewport) (r : VK2DRenderer) : VK2DRenderer :=
  mkRenderer
    (pd r) (ld r) (config r) (newConfig r) (resetSwapchain r) (presentModes r)
    (surfaceCapabilities r) (surfaceWidth r) (surfaceHeight r) (swapchain r)
    (swapchainImages r) (swapchainImageCount r) (framebuffers r) (renderPass r)
    (midFrameSwapRenderPass r) (externalTargetRenderPass r) (commandBuffer r)
    (imageAvailableSemaphores r) (renderFinishedSemaphores r) (inFlightFences r)
    (imagesInFlight r) (currentFrame r) (scImageIndex r) (procedStartFrame r)
    (targetFrameBuffer r) (targetRenderPass r) (targetSubPass r) (targetImage r)
    (targetUBOSet r) (target r) (cameras r) (defaultCameraSpec r) (cameraLocked r)
    (colourBlend r) (blendMode r) v (enableTextureCameraUBO r) (previousTime r)
    (accumulatedTime r) (amountOfFrames r) (frameTimeAverage r).
Definition set_enableTextureCameraUBO (v : bool) (r : VK2DRenderer) : VK2DRenderer :=
  mkRenderer
    (pd r) (ld r) (config r) (newConfig r) (resetSwapchain r) (presentModes r)
    (surfaceCapabilities r) (surfaceWidth r) (surfaceHeight r) (swapchain r)
    (swapchainImages r) (swapchainImageCount r) (framebuffers r) (renderPass r)
    (midFrameSwapRenderPass r) (externalTargetRenderPass r) (commandBuffer r)
    (imageAvailableSemaphores r) (renderFinishedSemaphores r) (inFlightFences r)
    (imagesInFlight r) (currentFrame r) (scImageIndex r) (procedStartFrame r)
    (targetFrameBuffer r) (targetRenderPass r) (targetSubPass r) (targetImage r)
    (targetUBOSet r) (target r) (cameras r) (defaultCameraSpec r) (cameraLocked r)
    (colourBlend r) (blendMode r) (viewport r) v (previousTime r) (accumulatedTime r)
    (amountOfFrames r) (frameTimeAverage r).
Definition set_previousTime (v : double) (r : VK2DRenderer) : VK2DRenderer :=
  mkRenderer
    (pd r) (ld r) (config r) (newConfig r) (resetSwapchain r) (presentModes r)
    (surfaceCapabilities r) (surfaceWidth r) (surfaceHeight r) (swapchain r)
    (swapchainImages r) (swapchainImageCount r) (framebuffers r) (renderPass r)
    (midFrameSwapRenderPass r) (externalTargetRenderPass r) (commandBuffer r)
    (imageAvailableSemaphores r) (renderFinishedSemaphores r) (inFlightFences r)
    (imagesInFlight r) (currentFrame r) (scImageIndex r) (procedStartFrame r)
    (targetFrameBuffer r) (targetRenderPass r) (targetSubPass r) (targetImage r)
    (targetUBOSet r) (target r) (cameras r) (defaultCameraSpec r) (cameraLocked r)
    (colourBlend r) (blendMode r) (viewport r) (enableTextureCameraUBO r) v
    (accumulatedTime r) (amountOfFrames r) (frameTimeAverage r).
Definition set_accumulatedTime (v : double) (r : VK2DRenderer) : VK2DRenderer :=
  mkRenderer
    (pd r) (ld r) (config r) (newConfig r) (resetSwapchain r) (presentModes r)
    (surfaceCapabilities r) (surfaceWidth r) (surfaceHeight r) (swapchain r)
    (swapchainImages r) (swapchainImageCount r) (framebuffers r) (renderPass r)
    (midFrameSwapRenderPass r) (externalTargetRenderPass r) (commandBuffer r)
    (imageAvailableSemaphores r) (renderFinishedSemaphores r) (inFlightFences r)
    (imagesInFlight r) (currentFrame r) (scImageIndex r) (procedStartFrame r)
    (targetFrameBuffer r) (targetRenderPass r) (targetSubPass r) (targetImage r)
    (targetUBOSet r) (target r) (cameras r) (defaultCameraSpec r) (cameraLocked r)
    (colourBlend r) (blendMode r) (viewport r) (enableTextureCameraUBO r) (previousTime
    r) v (amountOfFrames r) (frameTimeAverage r).
Definition set_amountOfFrames (v : double) (r : VK2DRenderer) : VK2DRenderer :=
  mkRenderer
    (pd r) (ld r) (config r) (newConfig r) (resetSwapchain r) (presentModes r)
    (surfaceCapabilities r) (surfaceWidth r) (surfaceHeight r) (swapchain r)
    (swapchainImages r) (swapchainImageCount r) (framebuffers r) (renderPass r)
    (midFrameSwapRenderPass r) (externalTargetRenderPass r) (commandBuffer r)
    (imageAvailableSemaphores r) (renderFinishedSemaphores r) (inFlightFences r)
    (imagesInFlight r) (currentFrame r) (scImageIndex r) (procedStartFrame r)
    (targetFrameBuffer r) (targetRenderPass r) (targetSubPass r) (targetImage r)
    (targetUBOSet r) (target r) (cameras r) (defaultCameraSpec r) (cameraLocked r)
    (colourBlend r) (blendMode r) (viewport r) (enableTextureCameraUBO r) (previousTime
    r) (accumulatedTime r) v (frameTimeAverage r).
Definition set_frameTimeAverage (v : double) (r : VK2DRenderer) : VK2DRenderer :=
  mkRenderer
    (pd r) (ld r) (config r) (newConfig r) (resetSwapchain r) (presentModes r)
    (surfaceCapabilities r) (surfaceWidth r) (surfaceHeight r) (swapchain r)
    (swapchainImages r) (swapchainImageCount r) (framebuffers r) (renderPass r)
    (midFrameSwapRenderPass r) (externalTargetRenderPass r) (commandBuffer r)
    (imageAvailableSemaphores r) (renderFinishedSemaphores r) (inFlightFences r)
    (imagesInFlight r) (currentFrame r) (scImageIndex r) (procedStartFrame r)
    (targetFrameBuffer r) (targetRenderPass r) (targetSubPass r) (targetImage r)
    (targetUBOSet r) (target r) (cameras r) (defaultCameraSpec r) (cameraLocked r)
    (colourBlend r) (blendMode r) (viewport r) (enableTextureCameraUBO r) (previousTime
    r) (accumulatedTime r) (amountOfFrames r) v.

(** The process: the singleton pointer, the textures the caller holds,
    and everything asked of the environment so far. *)
Record Global := mkGlobal {
  gRenderer : option VK2DRenderer;
  gTextures : VK2DTexture -> option VK2DTextureObj;
  gTrace : list Event
}.

Definition emit (evs : list Event) (g : Global) : Global :=
  mkGlobal (gRenderer g) (gTextures g) (gTrace g ++ evs).

Definition set_gRenderer (r : option VK2DRenderer) (g : Global) : Global :=
  mkGlobal r (gTextures g) (gTrace g).

(** The [else] branch every guarded entry point shares. *)
Definition not_initialized (g : Global) : Global :=
  emit [EvLogMessage "Renderer is not initialized"] g.

(** Modelled from the spec: [vk2dErrorCheck] of [Validation.h], which is
    not among the sources; a result other than success is logged. *)
Definition vk2dErrorCheck (res : VkResult) : list Event :=
  if VkResult_eqb res VK_SUCCESS then [] else [EvLogError res].

(** [a[i]] as an rvalue; an index outside the array is a [Fault]. *)
Definition rd {A} (a : list A) (i : Z) : Outcome A :=
  if 0 <=? i then
    match a !! Z.to_nat i with
    | Some x => Ok x
    | None => Fault
    end
  else Fault.

(** [a[i] = x]; an index outside the array is a [Fault]. *)
Definition wr {A} (a : list A) (i : Z) (x : A) : Outcome (list A) :=
  if (0 <=? i) && (i <? Z.of_nat (length a)) then Ok (<[Z.to_nat i := x]> a) else Fault.

(** [target->...]; a pointer to no texture is a [Fault]. *)
Definition deref (g : Global) (t : VK2DTexture) : Outcome VK2DTextureObj :=
  match gTextures g t with
  | Some o => Ok o
  | None => Fault
  end.

(** *** The entry points that only read or write a field *)

Definition vk2dRendererWait (g : Global) : Global :=
  match gRenderer g with
  | Some r => emit [EvQueueWaitIdle (ldQueue (ld r))] g
  | None => not_initialized g
  end.

Definition vk2dRendererGetPointer (g : Global) : option VK2DRenderer :=
  gRenderer g.

Definition vk2dRendererResetSwapchain (g : Global) : Global :=
  match gRenderer g with
  | Some r => set_gRenderer (Some (set_resetSwapchain true r)) g
  | None => not_initialized g
  end.

Definition vk2dRendererGetConfig (g : Global) : Global * VK2DRendererConfig :=
  match gRenderer g with
  | Some r => (g, config r)
  | None => (not_initialized g, mkConfig 0 0 0)
  end.

Definition vk2dRendererSetConfig (config : VK2DRendererConfig) (g : Global) : Global :=
  match gRenderer g with
  | Some r =>
      let r1 := set_newConfig config r in
      let maxMSAA := pdMaxMSAA (pd r1) in
      let r2 :=
        set_newConfig
          (mkConfig (if maxMSAA >=? msaa config then msaa config else maxMSAA)
                    (screenMode (newConfig r1)) (filterMode (newConfig r1))) r1 in
      vk2dRendererResetSwapchain (set_gRenderer (Some r2) g)
  | None => not_initialized g
  end.

Definition vk2dRendererGetDevice (g : Global) : Global * option VK2DLogicalDevice :=
  match gRenderer g with
  | Some r => (g, Some (ld r))
  | None => (not_initialized g, None)
  end.

Definition vk2dRendererSetColourMod (colourMod : vec4) (g : Global) : Global :=
  match gRenderer g with
  | Some r => set_gRenderer (Some (set_colourBlend colourMod r)) g
  | None => not_initialized g
  end.

(** [None] when [dst] is left as the caller had it. *)
Definition vk2dRendererGetColourMod (g : Global) : Global * option vec4 :=
  match gRenderer g with
  | Some r => (g, Some (colourBlend r))
  | None => (not_initialized g, None)
  end.

Definition vk2dRendererSetBlendMode (blendMode : Z) (g : Global) : Global :=
  match gRenderer g with
  | Some r => set_gRenderer (Some (set_blendMode blendMode r)) g
  | None => not_initialized g
  end.

Definition vk2dRendererGetBlendMode (g : Global) : Global * Z :=
  match gRenderer g with
  | Some r => (g, blendMode r)
  | None => (not_initialized g, bm_None)
  end.

(** [gRenderer->cameras[VK2D_DEFAULT_CAMERA].spec = camera], then the
    four stores into its on-screen rectangle. *)
Definition vk2dRendererSetCamera (camera : VK2DCameraSpec) (g : Global) : Outcome Global :=
  match gRenderer g with
  | Some r =>
      letOk 'cam := rd (cameras r) VK2D_DEFAULT_CAMERA in
      let s0 := camera in
      let s1 := mkCameraSpec (cameraView s0) (xOnScreen s0) (yOnScreen s0)
                             (float_of_u32 (surfaceWidth r)) (hOnScreen s0) in
      let s2 := mkCameraSpec (cameraView s1) (xOnScreen s1) (yOnScreen s1)
                             (wOnScreen s1) (float_of_u32 (surfaceHeight r)) in
      let s3 := mkCameraSpec (cameraView s2) float_zero (yOnScreen s2)
                             (wOnScreen s2) (hOnScreen s2) in
      let s4 := mkCameraSpec (cameraView s3) (xOnScreen s3) float_zero
                             (wOnScreen s3) (hOnScreen s3) in
      letOk 'cams := wr (cameras r) VK2D_DEFAULT_CAMERA
                        (mkCamera (state cam) s4 (ubos cam) (uboSets cam)) in
      Ok (set_gRenderer (Some (set_cameras cams r)) g)
  | None => Ok (not_initialized g)
  end.

Definition vk2dRendererGetCamera (g : Global) : Global * VK2DCameraSpec :=
  match gRenderer g with
  | Some r => (g, defaultCameraSpec r)
  | None =>
      (not_initialized g,
       mkCameraSpec camera_view_zero float_zero float_zero float_zero float_zero)
  end.

Definition vk2dRendererSetViewport (x y w h : float) (g : Global) : Global :=
  match gRenderer g with
  | Some r =>
      let v := viewport r in
      set_gRenderer
        (Some (set_viewport (mkViewport x y w h (minDepth v) (maxDepth v)) r)) g
  | None => not_initialized g
  end.

(** [None] when the four destinations are left as the caller had them. *)
Definition vk2dRendererGetViewport (g : Global)
  : Global * option (float * float * float * float) :=
  match gRenderer g with
  | Some r =>
      let v := viewport r in
      (g, Some (viewportX v, viewportY v, viewportWidth v, viewportHeight v))
  | None => (not_initialized g, None)
  end.

Definition vk2dRendererSetTextureCamera (useCameraOnTextures : bool) (g : Global) : Global :=
  match gRenderer g with
  | Some r => set_gRenderer (Some (set_enableTextureCameraUBO useCameraOnTextures r)) g
  | None => not_initialized g
  end.

Definition vk2dRendererLockCameras (cam : Z) (g : Global) : Global :=
  match gRenderer g with
  | Some r => set_gRenderer (Some (set_cameraLocked cam r)) g
  | None => not_initialized g
  end.

Definition vk2dRendererUnlockCameras (g : Global) : Global :=
  match gRenderer g with
  | Some r => set_gRenderer (Some (set_cameraLocked VK2D_INVALID_CAMERA r)) g
  | None => not_initialized g
  end.

Definition vk2dRendererGetAverageFrameTime (g : Global) : Global * double :=
  match gRenderer g with
  | Some r => (g, frameTimeAverage r)
  | None => (not_initialized g, double_zero)
  end.

(** *** The swapchain rebuild

    [_vk2dRendererResetSwapchain] as the earlier revision of [Renderer.c]
    has it.  Each [_vk2dRendererDestroy...] and [_vk2dRendererCreate...]
    helper is one event; the objects the driver hands back are taken from
    [RebuildEnv]. *)
Record RebuildEnv := mkRebuildEnv {
  (** how often the window still reported itself minimized *)
  reMinimizedPolls : nat;
  (** what [SDL_Vulkan_GetDrawableSize] answers *)
  reDrawableWidth : Z;
  reDrawableHeight : Z;
  reSwapchain : handle;
  reImageCount : nat;
  reImage : nat -> handle;
  reRenderPass : handle;
  reExternalTargetRenderPass : handle;
  reMidFrameSwapRenderPass : handle;
  reFramebuffer : nat -> handle;
  reCommandBuffer : nat -> handle;
  reImageAvailable : nat -> handle;
  reRenderFinished : nat -> handle;
  reInFlight : nat -> handle
}.

(** [_vk2dRendererGetPresentMode]: the preferred mode if the surface
    lists it, FIFO otherwise. *)
Definition _vk2dRendererGetPresentMode (r : VK2DRenderer) (mode : Z) : Z :=
  if existsb (Z.eqb mode) (presentModes r) then mode else VK_PRESENT_MODE_FIFO_KHR.

Definition _vk2dRendererGetSurfaceSize (env : RebuildEnv) (r : VK2DRenderer) : VK2DRenderer :=
  if (extentWidth (surfaceCapabilities r) =? UINT32_MAX)
     || (extentHeight (surfaceCapabilities r) =? UINT32_MAX)
  then set_surfaceHeight (reDrawableHeight env) (set_surfaceWidth (reDrawableWidth env) r)
  else set_surfaceHeight (extentHeight (surfaceCapabilities r))
         (set_surfaceWidth (extentWidth (surfaceCapabilities r)) r).

Definition per_index (n : nat) (f : nat -> handle) : list handle := map f (seq 0 n).

Definition _vk2dRendererCreateSwapchain (env : RebuildEnv) (r : VK2DRenderer) : VK2DRenderer :=
  let r1 :=
    set_config (mkConfig (msaa (config r))
                         (_vk2dRendererGetPresentMode r (screenMode (config r)))
                         (filterMode (config r))) r in
  set_swapchainImages (per_index (reImageCount env) (reImage env))
    (set_swapchainImageCount (Z.of_nat (reImageCount env))
       (set_swapchain (reSwapchain env) r1)).

Definition _vk2dRendererCreateRenderPass (env : RebuildEnv) (r : VK2DRenderer) : VK2DRenderer :=
  set_midFrameSwapRenderPass (reMidFrameSwapRenderPass env)
    (set_externalTargetRenderPass (reExternalTargetRenderPass env)
       (set_renderPass (reRenderPass env) r)).

Definition _vk2dRendererCreateFrameBuffer (env : RebuildEnv) (r : VK2DRenderer) : VK2DRenderer :=
  set_framebuffers (per_index (Z.to_nat (swapchainImageCount r)) (reFramebuffer env)) r.

(** The three per-frame arrays hold [VK2D_MAX_FRAMES_IN_FLIGHT] fresh
    objects; [imagesInFlight] comes from [calloc], so every image starts
    without a last user.  The frame command buffers, one per swapchain
    image, are obtained here as the primary buffers were. *)
Definition _vk2dRendererCreateSynchronization (env : RebuildEnv) (r : VK2DRenderer)
  : VK2DRenderer :=
  let frames := Z.to_nat VK2D_MAX_FRAMES_IN_FLIGHT in
  let images := Z.to_nat (swapchainImageCount r) in
  set_commandBuffer (per_index images (reCommandBuffer env))
    (set_imagesInFlight (replicate images VK_NULL_HANDLE)
       (set_inFlightFences (per_index frames (reInFlight env))
          (set_renderFinishedSemaphores (per_index frames (reRenderFinished env))
             (set_imageAvailableSemaphores (per_index frames (reImageAvailable env)) r)))).

Definition rebuild_teardown : list Event :=
  [EvDestroy Synchronization; EvDestroy Sampler; EvDestroy DescriptorPool;
   EvDestroy UniformBuffers; EvDestroy FrameBuffer; EvDestroyPipelines true;
   EvDestroy RenderPass; EvDestroy DepthStencilImage; EvDestroy ColourResources;
   EvDestroy Swapchain].

Definition rebuild_setup : list Event :=
  [EvCreate Swapchain; EvCreate ColourResources; EvCreate DepthStencilImage;
   EvCreate RenderPass; EvCreate Pipelines; EvCreate FrameBuffer;
   EvCreate UniformBuffers; EvCreate DescriptorPool; EvCreate Sampler;
   EvCreate Synchronization].

Definition rebuild_events (env : RebuildEnv) (r : VK2DRenderer) : list Event :=
  replicate (reMinimizedPolls env) EvPumpEvents
  ++ [EvDeviceWaitIdle (ldDev (ld r))] ++ rebuild_teardown ++ rebuild_setup.

Definition _vk2dRendererResetSwapchain (env : RebuildEnv) (r : VK2DRenderer)
  : VK2DRenderer * list Event :=
  let r1 := set_config (newConfig r) r in
  let r2 := _vk2dRendererGetSurfaceSize env r1 in
  let r3 := _vk2dRendererCreateSwapchain env r2 in
  let r4 := _vk2dRendererCreateRenderPass env r3 in
  let r5 := _vk2dRendererCreateFrameBuffer env r4 in
  let r6 := _vk2dRendererCreateSynchronization env r5 in
  (r6, rebuild_events env r).

(** *** Frames *)

Record StartEnv := mkStartEnv {
  (** [SDL_GetPerformanceCounter] *)
  seCounter : Z;
  seAcquireResult : VkResult;
  (** the index [vkAcquireNextImageKHR] stores, when it stores one *)
  seAcquiredImage : option Z;
  seBeginResult : VkResult
}.

Record EndEnv := mkEndEnv {
  eeEndResult : VkResult;
  eeSubmitResult : VkResult;
  (** the value [vkQueuePresentKHR] returns *)
  eeQueueRes : VkResult;
  (** the value it stores through [pResults] *)
  eeResult : VkResult;
  eeCounter : Z;
  eeFrequency : Z;
  eeRebuild : RebuildEnv
}.

(** The camera loop of [vk2dRendererStartFrame] from slot [i] on: every
    camera in the normal state has its specification written into its
    uniform buffer object for image [frame], which is then flushed. *)
Fixpoint flush_cameras (frame : Z) (i : Z) (cams : list VK2DCamera)
  : Outcome (list VK2DCamera * list Event) :=
  match cams with
  | [] => Ok ([], [])
  | c :: rest =>
      letOk '(c', ev) :=
        (if state c =? cs_Normal then
           letOk 'u := wr (ubos c) frame (Some (spec c)) in
           Ok (mkCamera (state c) (spec c) u (uboSets c), [EvFlushUBOBuffer frame i])
         else Ok (c, [])) in
      letOk '(rest', evs) := flush_cameras frame (i + 1) rest in
      Ok (c' :: rest', ev ++ evs)
  end.

Definition vk2dRendererStartFrame (clearColour : vec4) (env : StartEnv) (g : Global)
  : Outcome Global :=
  match gRenderer g with
  | None => Ok (not_initialized g)
  | Some r =>
      if procedStartFrame r then Ok g
      else
        let r := set_procedStartFrame true r in
        let r := set_previousTime (double_of_u64 (seCounter env)) r in
        letOk 'fence := rd (inFlightFences r) (currentFrame r) in
        letOk 'available := rd (imageAvailableSemaphores r) (currentFrame r) in
        let r := match seAcquiredImage env with
                 | Some i => set_scImageIndex i r
                 | None => r
                 end in
        letOk 'user := rd (imagesInFlight r) (scImageIndex r) in
        let waits :=
          [EvWaitForFences fence;
           EvAcquireNextImage (swapchain r) available (seAcquireResult env)]
          ++ (if is_null user then [] else [EvWaitForFences user]) in
        letOk 'users := wr (imagesInFlight r) (scImageIndex r) fence in
        let r := set_imagesInFlight users r in
        letOk 'framebuffer := rd (framebuffers r) (scImageIndex r) in
        let r := set_targetFrameBuffer framebuffer r in
        let r := set_targetRenderPass (renderPass r) r in
        let r := set_targetSubPass 0 r in
        letOk 'image := rd (swapchainImages r) (scImageIndex r) in
        let r := set_targetImage image r in
        letOk 'camera0 := rd (cameras r) 0 in
        letOk 'uboSet := rd (uboSets camera0) (scImageIndex r) in
        let r := set_targetUBOSet uboSet r in
        let r := set_target VK2D_TARGET_SCREEN r in
        letOk '(cams, flushes) := flush_cameras (scImageIndex r) 0 (cameras r) in
        let r := set_cameras cams r in
        letOk 'cb := rd (commandBuffer r) (scImageIndex r) in
        let recording :=
          [EvResetCommandBuffer cb; EvBeginCommandBuffer cb]
          ++ vk2dErrorCheck (seBeginResult env)
          ++ [EvCmdBeginRenderPass cb (renderPass r) framebuffer
                (surfaceWidth r) (surfaceHeight r) (Some clearColour)] in
        Ok (emit (waits ++ [EvResetBoundPointers] ++ flushes ++ recording)
                 (set_gRenderer (Some r) g))
  end.

(** The condition under which [vk2dRendererEndFrame] rebuilds. *)
Definition must_rebuild (result queueRes : VkResult) (requested : bool) : bool :=
  VkResult_eqb result VK_ERROR_OUT_OF_DATE_KHR
  || VkResult_eqb result VK_SUBOPTIMAL_KHR
  || requested
  || VkResult_eqb queueRes VK_ERROR_OUT_OF_DATE_KHR.

(** The events of [vk2dRendererEndFrame] up to and including the
    presentation: the render pass and the command buffer are ended, the
    slot's fence is reset, the buffer is submitted and the image queued. *)
Definition submit_events (env : EndEnv) (r : VK2DRenderer)
  (cb finished available fence : handle) : list Event :=
  [EvCmdEndRenderPass cb; EvEndCommandBuffer cb]
  ++ vk2dErrorCheck (eeEndResult env)
  ++ [EvResetFences fence;
      EvQueueSubmit (ldQueue (ld r)) cb available finished fence]
  ++ vk2dErrorCheck (eeSubmitResult env)
  ++ [EvQueuePresent (ldQueue (ld r)) (swapchain r) (scImageIndex r) finished].

(** The frame bookkeeping at the end of [vk2dRendererEndFrame]: the
    slot advances, the frame's time is accumulated, and the average is
    taken once a second's worth has run up. *)
Definition frame_counted (env : EndEnv) (r : VK2DRenderer) : VK2DRenderer :=
  let r := set_currentFrame
             (wrap32 (currentFrame r + 1) mod VK2D_MAX_FRAMES_IN_FLIGHT) r in
  let r := set_accumulatedTime
             (double_add (accumulatedTime r)
                (double_mul
                   (double_div
                      (double_sub (double_of_u64 (eeCounter env)) (previousTime r))
                      (double_of_u64 (eeFrequency env)))
                   double_1000)) r in
  let r := set_amountOfFrames (double_add (amountOfFrames r) double_one) r in
  if double_ge (accumulatedTime r) double_1000 then
    set_amountOfFrames double_zero
      (set_accumulatedTime double_zero
         (set_frameTimeAverage (double_div (accumulatedTime r) (amountOfFrames r)) r))
  else r.

Definition vk2dRendererEndFrame (env : EndEnv) (g : Global) : Outcome Global :=
  match gRenderer g with
  | None => Ok (not_initialized g)
  | Some r =>
      if procedStartFrame r then
        let r := set_procedStartFrame false r in
        letOk 'cb := rd (commandBuffer r) (scImageIndex r) in
        letOk 'finished := rd (renderFinishedSemaphores r) (currentFrame r) in
        letOk 'available := rd (imageAvailableSemaphores r) (currentFrame r) in
        letOk 'fence := rd (inFlightFences r) (currentFrame r) in
        let submit := submit_events env r cb finished available fence in
        let '(r, after) :=
          if must_rebuild (eeResult env) (eeQueueRes env) (resetSwapchain r) then
            let '(r', evs) := _vk2dRendererResetSwapchain (eeRebuild env) r in
            (set_resetSwapchain false r', evs)
          else (r, vk2dErrorCheck (eeResult env) ++ vk2dErrorCheck (eeQueueRes env)) in
        Ok (emit (submit ++ after) (set_gRenderer (Some (frame_counted env r)) g))
      else Ok g
  end.

(** *** Render targets *)

Definition vk2dRendererSetTarget (target' : VK2DTexture) (g : Global) : Outcome Global :=
  match gRenderer g with
  | None => Ok (not_initialized g)
  | Some r =>
      if negb (Nat.eqb target' (target r)) then
        let outgoing := targetImage r in
        let r := set_target target' r in
        let screen := Nat.eqb target' VK2D_TARGET_SCREEN in
        let pass := if screen then midFrameSwapRenderPass r
                    else externalTargetRenderPass r in
        letOk 'framebuffer :=
          (if screen then rd (framebuffers r) (scImageIndex r)
           else letOk 't := deref g target' in Ok (texFbo t)) in
        letOk 'image :=
          (if screen then rd (swapchainImages r) (scImageIndex r)
           else letOk 't := deref g target' in Ok (imgImg (texImg t))) in
        letOk 'buffer :=
          (if screen then
             letOk 'camera0 := rd (cameras r) 0 in rd (uboSets camera0) (scImageIndex r)
           else letOk 't := deref g target' in Ok (texUboSet t)) in
        letOk 'cb := rd (commandBuffer r) (scImageIndex r) in
        letOk 'transition :=
          (if screen then
             Ok (EvTransitionImageLayout outgoing
                   VK_IMAGE_LAYOUT_COLOR_ATTACHMENT_OPTIMAL
                   VK_IMAGE_LAYOUT_SHADER_READ_ONLY_OPTIMAL)
           else
             letOk 't := deref g target' in
             Ok (EvTransitionImageLayout (imgImg (texImg t))
                   VK_IMAGE_LAYOUT_SHADER_READ_ONLY_OPTIMAL
                   VK_IMAGE_LAYOUT_COLOR_ATTACHMENT_OPTIMAL)) in
        let r := set_targetRenderPass pass r in
        let r := set_targetFrameBuffer framebuffer r in
        let r := set_targetImage image r in
        let r := set_targetUBOSet buffer r in
        letOk 'width :=
          (if screen then Ok (surfaceWidth r)
           else letOk 't := deref g target' in Ok (imgWidth (texImg t))) in
        letOk 'height :=
          (if screen then Ok (surfaceHeight r)
           else letOk 't := deref g target' in Ok (imgHeight (texImg t))) in
        Ok (emit [EvCmdEndRenderPass cb; transition;
                  EvCmdBeginRenderPass cb pass framebuffer width height None;
                  EvResetBoundPointers]
                 (set_gRenderer (Some r) g))
      else Ok g
  end.

(** *** Shutdown *)

Definition quit_events (r : VK2DRenderer) : list Event :=
  [EvQueueWaitIdle (ldQueue (ld r));
   EvDestroy Synchronization; EvDestroy TargetsList; EvDestroy Units;
   EvDestroy Sampler; EvDestroy DescriptorPool; EvDestroy UniformBuffers;
   EvDestroy FrameBuffer; EvDestroyPipelines false; EvDestroy DescriptorSetLayout;
   EvDestroy RenderPass; EvDestroy ColourResources; EvDestroy Swapchain;
   EvDestroy WindowSurface; EvDestroy Debug;
   EvDestroyAllocator; EvFreeDevices;
   EvLogMessage "VK2D has been uninitialized."].

Definition vk2dRendererQuit (g : Global) : Global :=
  match gRenderer g with
  | Some r => emit (quit_events r) (set_gRenderer None g)
  | None => g
  end.

(** *** The entry points as one type *)

Inductive Op :=
| OpQuit
| OpWait
| OpGetPointer
| OpResetSwapchain
| OpGetConfig
| OpSetConfig (config : VK2DRendererConfig)
| OpStartFrame (clearColour : vec4) (env : StartEnv)
| OpEndFrame (env : EndEnv)
| OpGetDevice
| OpSetTarget (target : VK2DTexture)
| OpSetColourMod (colourMod : vec4)
| OpGetColourMod
| OpSetBlendMode (blendMode : Z)
| OpGetBlendMode
| OpSetCamera (camera : VK2DCameraSpec)
| OpGetCamera
| OpSetViewport (x y w h : float)
| OpGetViewport
| OpSetTextureCamera (useCameraOnTextures : bool)
| OpLockCameras (cam : Z)
| OpUnlockCameras
| OpGetAverageFrameTime.

(** What an entry point hands back to its caller. *)
Inductive Ret :=
| RetVoid
| RetPointer (r : option VK2DRenderer)
| RetConfig (c : VK2DRendererConfig)
| RetDevice (d : option VK2DLogicalDevice)
| RetColourMod (dst : option vec4)
| RetBlendMode (b : Z)
| RetCamera (c : VK2DCameraSpec)
| RetViewport (dst : option (float * float * float * float))
| RetFrameTime (t : double).

Definition run (op : Op) (g : Global) : Outcome (Global * Ret) :=
  match op with
  | OpQuit => Ok (vk2dRendererQuit g, RetVoid)
  | OpWait => Ok (vk2dRendererWait g, RetVoid)
  | OpGetPointer => Ok (g, RetPointer (vk2dRendererGetPointer g))
  | OpResetSwapchain => Ok (vk2dRendererResetSwapchain g, RetVoid)
  | OpGetConfig => let '(g', c) := vk2dRendererGetConfig g in Ok (g', RetConfig c)
  | OpSetConfig c => Ok (vk2dRendererSetConfig c g, RetVoid)
  | OpStartFrame clear env =>
      letOk 'g' := vk2dRendererStartFrame clear env g in Ok (g', RetVoid)
  | OpEndFrame env => letOk 'g' := vk2dRendererEndFrame env g in Ok (g', RetVoid)
  | OpGetDevice => let '(g', d) := vk2dRendererGetDevice g in Ok (g', RetDevice d)
  | OpSetTarget t => letOk 'g' := vk2dRendererSetTarget t g in Ok (g', RetVoid)
  | OpSetColourMod v => Ok (vk2dRendererSetColourMod v g, RetVoid)
  | OpGetColourMod => let '(g', v) := vk2dRendererGetColourMod g in Ok (g', RetColourMod v)
  | OpSetBlendMode b => Ok (vk2dRendererSetBlendMode b g, RetVoid)
  | OpGetBlendMode => let '(g', b) := vk2dRendererGetBlendMode g in Ok (g', RetBlendMode b)
  | OpSetCamera c => letOk 'g' := vk2dRendererSetCamera c g in Ok (g', RetVoid)
  | OpGetCamera => let '(g', c) := vk2dRendererGetCamera g in Ok (g', RetCamera c)
  | OpSetViewport x y w h => Ok (vk2dRendererSetViewport x y w h g, RetVoid)
  | OpGetViewport => let '(g', v) := vk2dRendererGetViewport g in Ok (g', RetViewport v)
  | OpSetTextureCamera b => Ok (vk2dRendererSetTextureCamera b g, RetVoid)
  | OpLockCameras c => Ok (vk2dRendererLockCameras c g, RetVoid)
  | OpUnlockCameras => Ok (vk2dRendererUnlockCameras g, RetVoid)
  | OpGetAverageFrameTime =>
      let '(g', t) := vk2dRendererGetAverageFrameTime g in Ok (g', RetFrameTime t)
  end.

(** The neutral value of each entry point. *)
Definition neutral (op : Op) : Ret :=
  match op with
  | OpGetPointer => RetPointer None
  | OpGetConfig => RetConfig (mkConfig 0 0 0)
  | OpGetDevice => RetDevice None
  | OpGetColourMod => RetColourMod None
  | OpGetBlendMode => RetBlendMode bm_None
  | OpGetCamera =>
      RetCamera (mkCameraSpec camera_view_zero float_zero float_zero float_zero float_zero)
  | OpGetViewport => RetViewport None
  | OpGetAverageFrameTime => RetFrameTime double_zero
  | _ => RetVoid
  end.

(** The entry points whose null branch writes to the log. *)
Definition logs_when_null (op : Op) : bool :=
  match op with
  | OpQuit | OpGetPointer => false
  | _ => true
  end.

(** Sequences of calls. *)
Inductive steps : Global -> Global -> Prop :=
| steps_refl (g : Global) : steps g g
| steps_step (g g1 g2 : Global) (op : Op) (ret : Ret) :
    steps g g1 -> run op g1 = Ok (g2, ret) -> steps g g2.

(** *** Vocabulary of the statements *)

Definition camera_ok (images : nat) (c : VK2DCamera) : bool :=
  Nat.eqb (length (ubos c)) images && Nat.eqb (length (uboSets c)) images.

(** Every array the frame functions index has the size its index
    variable ranges over. *)
Definition renderer_ok (r : VK2DRenderer) : bool :=
  let frames := Z.to_nat VK2D_MAX_FRAMES_IN_FLIGHT in
  let images := Z.to_nat (swapchainImageCount r) in
  (0 <=? currentFrame r) && (currentFrame r <? VK2D_MAX_FRAMES_IN_FLIGHT)
  && (VK2D_MAX_FRAMES_IN_FLIGHT <? UINT32_MOD)
  && Nat.eqb (length (inFlightFences r)) frames
  && Nat.eqb (length (imageAvailableSemaphores r)) frames
  && Nat.eqb (length (renderFinishedSemaphores r)) frames
  && (0 <=? scImageIndex r) && (scImageIndex r <? swapchainImageCount r)
  && Nat.eqb (length (swapchainImages r)) images
  && Nat.eqb (length (framebuffers r)) images
  && Nat.eqb (length (imagesInFlight r)) images
  && Nat.eqb (length (commandBuffer r)) images
  && negb (Nat.eqb (length (cameras r)) 0)
  && forallb (camera_ok images) (cameras r).

(** The driver hands out an index of the swapchain, if any. *)
Definition acquire_ok (env : StartEnv) (r : VK2DRenderer) : bool :=
  match seAcquiredImage env with
  | Some i => (0 <=? i) && (i <? swapchainImageCount r)
  | None => true
  end.

(** The renderer a frame starts with: what [vk2dRendererStartFrame]
    leaves when it acquired image [idx] and read the values named. *)
Definition frame_started (r : VK2DRenderer) (counter : Z) (idx : Z)
  (users : list handle) (framebuffer image uboSet : handle) (cams : list VK2DCamera)
  : VK2DRenderer :=
  set_cameras cams
    (set_target VK2D_TARGET_SCREEN
       (set_targetUBOSet uboSet
          (set_targetImage image
             (set_targetSubPass 0
                (set_targetRenderPass (renderPass r)
                   (set_targetFrameBuffer framebuffer
                      (set_imagesInFlight users
                         (set_scImageIndex idx
                            (set_previousTime (double_of_u64 counter)
                               (set_procedStartFrame true r)))))))))).

(** The image a frame started with [env] draws to. *)
Definition acquired (env : StartEnv) (r : VK2DRenderer) : Z :=
  match seAcquiredImage env with
  | Some i => i
  | None => scImageIndex r
  end.

(** The renderer after a switch to [target']. *)
Definition target_switched (r : VK2DRenderer) (target' : VK2DTexture)
  (pass framebuffer image buffer : handle) : VK2DRenderer :=
  set_targetUBOSet buffer
    (set_targetImage image
       (set_targetFrameBuffer framebuffer
          (set_targetRenderPass pass (set_target target' r)))).

Definition is_transition (e : Event) : bool :=
  match e with EvTransitionImageLayout _ _ _ => true | _ => false end.

Definition is_transition_of (image : handle) (e : Event) : bool :=
  match e with EvTransitionImageLayout i _ _ => Nat.eqb i image | _ => false end.

Definition is_log (e : Event) : bool :=
  match e with EvLogMessage _ => true | _ => false end.

(** The events of a frame that touch its command buffer. *)
Definition is_recording (e : Event) : bool :=
  match e with
  | EvResetCommandBuffer _ | EvBeginCommandBuffer _ | EvCmdBeginRenderPass _ _ _ _ _ _
  | EvCmdEndRenderPass _ | EvEndCommandBuffer _ => true
  | _ => false
  end.

(** One whole frame, and a run of them. *)
Definition frame (clearColour : vec4) (senv : StartEnv) (eenv : EndEnv) (g : Global)
  : Outcome Global :=
  letOk 'g1 := vk2dRendererStartFrame clearColour senv g in
  vk2dRendererEndFrame eenv g1.

Fixpoint frames (envs : list (vec4 * StartEnv * EndEnv)) (g : Global) : Outcome Global :=
  match envs with
  | [] => Ok g
  | (clearColour, senv, eenv) :: rest =>
      letOk 'g1 := frame clearColour senv eenv g in frames rest g1
  end.

(** The slots, counted from [i], of the cameras in the normal state. *)
Fixpoint normal_cameras (i : Z) (cams : list VK2DCamera) : list Z :=
  match cams with
  | [] => []
  | c :: rest =>
      (if state c =? cs_Normal then [i] else []) ++ normal_cameras (i + 1) rest
  end.

(** What the camera loop leaves of camera [c] for image [frame]. *)
Definition flushed (frame : Z) (c : VK2DCamera) : VK2DCamera :=
  if state c =? cs_Normal
  then mkCamera (state c) (spec c) (<[Z.to_nat frame := Some (spec c)]> (ubos c)) (uboSets c)
  else c.

(** The same sequence of calls, with what each one handed back. *)
Fixpoint runs (ops : list Op) (g : Global) : Outcome (Global * list Ret) :=
  match ops with
  | [] => Ok (g, [])
  | op :: rest =>
      letOk '(g1, ret) := run op g in
      letOk '(g2, rets) := runs rest g1 in
      Ok (g2, ret :: rets)
  end.

(** The event waits on a fence. *)
Definition is_fence_wait (e : Event) : bool :=
  match e with EvWaitForFences _ => true | _ => false end.

(** The event hands work to the queue. *)
Definition is_queue_work (e : Event) : bool :=
  match e with
  | EvQueueSubmit _ _ _ _ _ | EvQueuePresent _ _ _ _ => true
  | _ => false
  end.

(** Presentation went through and nobody asked for a rebuild. *)
Definition quiet (env : EndEnv) : bool :=
  negb (must_rebuild (eeResult env) (eeQueueRes env) false).

(** Presentation reported [x], by its return value or for the swapchain. *)
Definition presentation_reports (env : EndEnv) (x : VkResult) : Prop :=
  eeResult env = x \/ eeQueueRes env = x.

End WithParameters.

(** *** A small build, to run the definitions on *)

Definition example_parameters : Parameters := {|
  float := Z;
  double := Z;
  float_of_u32 := fun z => z;
  float_zero := 0;
  float_one := 1;
  double_of_u64 := fun z => z;
  double_zero := 0;
  double_one := 1;
  double_1000 := 1000;
  double_add := Z.add;
  double_sub := Z.sub;
  double_mul := Z.mul;
  double_div := Z.div;
  double_ge := Z.geb;
  CameraView := Z;
  camera_view_zero := 0;
  VK2D_MAX_FRAMES_IN_FLIGHT := 2;
  VK2D_DEFAULT_CAMERA := 0;
  VK2D_INVALID_CAMERA := -1;
  VK2D_TARGET_SCREEN := 0%nat;
  cs_Normal := 0;
  bm_None := 0
|}.

(** A renderer with two frames in flight and three swapchain images,
    idle, drawing to the screen, and two textures with the same contents
    at addresses 1 and 2. *)
Module Example.
#[local] Existing Instance example_parameters.

Definition camera : VK2DCamera :=
  mkCamera 0 (mkCameraSpec 0 0 0 800 600) [None; None; None] [31; 32; 33]%nat.

Definition renderer : VK2DRenderer :=
  mkRenderer
    (mkPhysicalDevice 1%nat 8) (mkLogicalDevice 2%nat 3%nat)
    (mkConfig 4 1 0) (mkConfig 4 1 0) false
    [2; 1] (mkExtent 800 600) 800 600
    10%nat [11; 12; 13]%nat 3 [21; 22; 23]%nat
    40%nat 41%nat 42%nat
    [51; 52; 53]%nat
    [61; 62]%nat [71; 72]%nat [81; 82]%nat [0; 0; 0]%nat
    0 0
    false
    21%nat 40%nat 0 11%nat 31%nat 0%nat
    [camera] (mkCameraSpec 0 0 0 800 600) (-1)
    (1, 1, 1, 1) 0 (mkViewport 0 0 800 600 0 1) false
    0 0 0 0.

Definition texture : VK2DTextureObj :=
  mkTexture (mkImage 90%nat 91%nat 256 256) 92%nat 93%nat.

Definition textures (t : VK2DTexture) : option VK2DTextureObj :=
  match t with
  | 1%nat | 2%nat => Some texture
  | _ => None
  end.

Definition idle : Global := mkGlobal (Some renderer) textures [].

Definition uninitialized : Global := mkGlobal None textures [].

Definition start_env : StartEnv := mkStartEnv 1000 VK_SUCCESS (Some 1) VK_SUCCESS.

Definition rebuild_env : RebuildEnv :=
  mkRebuildEnv 0 640 480 110%nat 3 (fun i => 111 + i)%nat 140%nat 142%nat 141%nat
               (fun i => 121 + i)%nat (fun i => 151 + i)%nat
               (fun i => 161 + i)%nat (fun i => 171 + i)%nat (fun i => 181 + i)%nat.

Definition end_env : EndEnv :=
  mkEndEnv VK_SUCCESS VK_SUCCESS VK_SUCCESS VK_SUCCESS 2000 1000 rebuild_env.

(** Presentation reports the swapchain out of date; the rebuild comes
    back with the three images again, or with one only. *)
Definition refreshed_end_env : EndEnv :=
  mkEndEnv VK_SUCCESS VK_SUCCESS VK_ERROR_OUT_OF_DATE_KHR VK_ERROR_OUT_OF_DATE_KHR
           2000 1000 rebuild_env.

Definition shrunk_end_env : EndEnv :=
  mkEndEnv VK_SUCCESS VK_SUCCESS VK_ERROR_OUT_OF_DATE_KHR VK_ERROR_OUT_OF_DATE_KHR
           2000 1000
           (mkRebuildEnv 0 640 480 110%nat 1 (fun i => 111 + i)%nat 140%nat 142%nat 141%nat
              (fun i => 121 + i)%nat (fun i => 151 + i)%nat
              (fun i => 161 + i)%nat (fun i => 171 + i)%nat (fun i => 181 + i)%nat).

(** An acquisition that fails and stores no index. *)
Definition failed_start_env : StartEnv :=
  mkStartEnv 3000 VK_ERROR_OUT_OF_DATE_KHR None VK_SUCCESS.

(** The same renderer inside a frame. *)
Definition active : Global :=
  Eval vm_compute in
    match vk2dRendererStartFrame (1, 1, 1, 1) start_env idle with
    | Ok g => mkGlobal (gRenderer g) textures (gTrace g)
    | _ => idle
    end.

(** The idle renderer after [vk2dRendererSetCamera], and the frame that
    opens on it. *)
Definition viewed : Global :=
  Eval vm_compute in
    match vk2dRendererSetCamera (mkCameraSpec 5 10 20 30 40) idle with
    | Ok g => mkGlobal (gRenderer g) textures (gTrace g)
    | _ => idle
    end.

Definition viewed_active : Global :=
  Eval vm_compute in
    match vk2dRendererStartFrame (1, 1, 1, 1) start_env viewed with
    | Ok g => mkGlobal (gRenderer g) textures (gTrace g)
    | _ => idle
    end.

End Example.

End Renderer.
Lemma VkResult_eqb_eq (a b : VkResult) : VkResult_eqb a b = true <-> a = b.
Proof. destruct a, b; simpl; split; intro H; try reflexivity; discriminate H. Qed.

Lemma VkResult_eqb_refl (a : VkResult) : VkResult_eqb a a = true.
Proof. by apply VkResult_eqb_eq. Qed.

Lemma wrap32_small (z : Z) : 0 <= z < UINT32_MOD -> wrap32 z = z.
Proof. intros H. unfold wrap32. by apply Z.mod_small. Qed.

Lemma wrap32_range (z : Z) : 0 <= wrap32 z < UINT32_MOD.
Proof. unfold wrap32, UINT32_MOD. apply Z.mod_pos_bound. lia. Qed.

Module DescriptorControlFacts.
Import DescriptorControl.

Lemma sum_list_insert {A} (f : A -> nat) (l : list A) (i : nat) (x y : A) :
  l !! i = Some x ->
  (sum_list (map f (<[i:=y]> l)) + f x = sum_list (map f l) + f y)%nat.
Proof.
  revert i. induction l as [|a l IH]; intros [|i] Hi; simpl in *; try discriminate.
  - injection Hi as ->. lia.
  - specialize (IH i Hi). lia.
Qed.


Lemma alloc_inv w pool w1 res s :
  vkAllocateDescriptorSets w pool = Some (w1, res, s) -> alloc_case w pool w1 res s.
Proof.
  unfold vkAllocateDescriptorSets.
  destruct (lookup_pool w pool) as [po|] eqn:Hl; [|discriminate].
  destruct (pool_full po) eqn:Hf.
  - intros [= <- <- <-]. by eapply alloc_exhausted.
  - destruct (devMemory w) as [|m] eqn:Hm.
    + intros [= <- <- <-]. by eapply alloc_refused.
    + intros [= <- <- <-]. by eapply alloc_served.
Qed.

Lemma lookup_pool_Some w h po :
  lookup_pool w h = Some po -> (1 <= h <= length (devPools w))%nat /\ devPools w !! Nat.pred h = Some po.
Proof.
  unfold lookup_pool, is_null, VK_NULL_HANDLE.
  destruct (Nat.eqb_spec h 0); [discriminate|].
  intros H. split; [|done]. apply lookup_lt_Some in H. lia.
Qed.

Lemma lookup_pool_emit c w h : lookup_pool (emit c w) h = lookup_pool w h.
Proof. reflexivity. Qed.

Lemma alloc_budget w pool w1 res s :
  vkAllocateDescriptorSets w pool = Some (w1, res, s) ->
  device_budget w1 = device_budget w /\ length (devPools w1) = length (devPools w)
  /\ hostMemory w1 = hostMemory w.
Proof.
  intros H. apply alloc_inv in H. destruct H as [po Hl Hf|po Hl Hf Hm|po m Hl Hf Hm]; try done.
  apply lookup_pool_Some in Hl as [Hr Hl].
  unfold device_budget, live_total; simpl.
  rewrite length_insert. split; [|done].
  pose proof (sum_list_insert (fun po => length (poolLive po)) _ _ _
    (mkPoolObj (poolInfo po) (poolLive po ++ [S (devNextSet w)])) Hl) as Hs.
  simpl in Hs. rewrite length_app in Hs. simpl in Hs. rewrite Hm. lia.
Qed.


Lemma alloc_set_nonnull w pool w1 s :
  vkAllocateDescriptorSets w pool = Some (w1, VK_SUCCESS, s) -> is_null s = false.
Proof. intros H. apply alloc_inv in H. by inversion H. Qed.

Lemma alloc_fail_null w pool w1 res s :
  vkAllocateDescriptorSets w pool = Some (w1, res, s) -> res <> VK_SUCCESS -> s = VK_NULL_HANDLE.
Proof. intros H. apply alloc_inv in H. by inversion H. Qed.

Section Refinement.
Variables EXT ALLOC NOLOC : Z.
Local Abbreviation append := (_vk2dDescConAppendList EXT ALLOC NOLOC).
Local Abbreviation loop := (getAvailableSet_loop EXT ALLOC NOLOC).

Lemma loop_nonnull fuel dc w s i :
  is_null s = false -> loop fuel dc w s i = Ok (s, dc, w).
Proof. intros H. destruct fuel; cbn [getAvailableSet_loop]; by rewrite H. Qed.

(** One iteration, entered with no set yet. *)
Lemma loop_step fuel dc w i :
  loop (S fuel) dc w VK_NULL_HANDLE i =
  match read_pool dc i with
  | None => Fault
  | Some pool =>
      match vkAllocateDescriptorSets w pool with
      | None => Fault
      | Some (w1, res, set1) =>
          let set2 :=
            if VkResult_eqb res VK_ERROR_OUT_OF_POOL_MEMORY
            then VK_NULL_HANDLE else set1 in
          if negb (VkResult_eqb res VK_ERROR_OUT_OF_POOL_MEMORY)
             && negb (VkResult_eqb res VK_SUCCESS)
          then Ok (set2, dc, vk2dErrorCheck w1 res)
          else
            let i1 := wrap32 (i + 1) in
            letOk '(dc2, w2) :=
              (if (i1 =? poolsInUse dc) && is_null set2
               then append dc w1
               else Ok (dc, w1)) in
            loop fuel dc2 w2 set2 i1
      end
  end.
Proof. reflexivity. Qed.

Lemma loop_zero dc w i :
  loop 0 dc w VK_NULL_HANDLE i = OutOfFuel.
Proof. reflexivity. Qed.

Local Arguments getAvailableSet_loop : simpl never.

Lemma read_pool_lookup dc (i : Z) :
  0 <= i -> read_pool dc i = mjoin (pools dc !! Z.to_nat i).
Proof. intros H. unfold read_pool. destruct (Z.leb_spec 0 i); [done|lia]. Qed.

Lemma in_use_drop dc (i : Z) :
  0 <= i < poolsInUse dc -> poolsInUse dc <= Z.of_nat (length (pools dc)) ->
  exists slot, pools dc !! Z.to_nat i = Some slot
    /\ drop (Z.to_nat i) (in_use dc) = slot :: drop (S (Z.to_nat i)) (in_use dc).
Proof.
  intros Hi Hlen.
  destruct (lookup_lt_is_Some_2 (pools dc) (Z.to_nat i)) as [slot Hs]; [lia|].
  exists slot. split; [done|].
  apply drop_S. unfold in_use. rewrite lookup_take_lt; [done|lia].
Qed.

(** The loop, started on an in-use slot, is the scan of the remaining
    in-use slots; when they are all exhausted it appends and goes on at
    the slot just filled. *)
Lemma loop_scan (n fuel : nat) : forall dc w (i : Z),
  0 <= i -> i + Z.of_nat (S n) = poolsInUse dc ->
  poolsInUse dc <= Z.of_nat (length (pools dc)) ->
  poolsInUse dc < UINT32_MOD ->
  loop (S n + fuel) dc w VK_NULL_HANDLE i =
  match spec_scan w (drop (Z.to_nat i) (in_use dc)) with
  | ScanInvalid => Fault
  | ScanServed w1 res s => Ok (s, dc, vk2dErrorCheck w1 res)
  | ScanExhausted w1 =>
      letOk '(dc2, w2) := append dc w1 in
      loop fuel dc2 w2 VK_NULL_HANDLE (poolsInUse dc)
  end.
Proof.
  induction n as [|n IH]; intros dc w i Hi Hn Hlen Hu.
  - destruct (in_use_drop dc i) as (slot & Hslot & ->); [lia|lia|].
    replace (Nat.add 1 fuel) with (S fuel) by lia.
    rewrite loop_step, read_pool_lookup, Hslot by lia. simpl mjoin.
    destruct slot as [pool|]; [|done]. cbn [spec_scan].
    destruct (vkAllocateDescriptorSets w pool) as [[[w1 res] s]|] eqn:Ha; [|done].
    replace (wrap32 (i + 1)) with (poolsInUse dc) by (rewrite wrap32_small; lia).
    rewrite Z.eqb_refl.
    destruct (VkResult_eqb res VK_ERROR_OUT_OF_POOL_MEMORY) eqn:Hoom.
    + simpl. rewrite drop_ge; [done|]. unfold in_use. rewrite length_take. lia.
    + simpl. destruct (VkResult_eqb res VK_SUCCESS) eqn:Hok; simpl.
      * apply VkResult_eqb_eq in Hok. subst res.
        rewrite (alloc_set_nonnull _ _ _ _ Ha). simpl.
        by rewrite loop_nonnull by (by eapply alloc_set_nonnull).
      * done.
  - destruct (in_use_drop dc i) as (slot & Hslot & ->); [lia|lia|].
    replace (Nat.add (S (S n)) fuel) with (S (S n + fuel)) by lia.
    rewrite loop_step, read_pool_lookup, Hslot by lia. simpl mjoin.
    destruct slot as [pool|]; [|done]. cbn [spec_scan].
    destruct (vkAllocateDescriptorSets w pool) as [[[w1 res] s]|] eqn:Ha; [|done].
    assert (Hw : wrap32 (i + 1) = i + 1) by (rewrite wrap32_small; lia).
    rewrite Hw.
    destruct (Z.eqb_spec (i + 1) (poolsInUse dc)) as [He|_]; [lia|].
    destruct (VkResult_eqb res VK_ERROR_OUT_OF_POOL_MEMORY) eqn:Hoom.
    + simpl. rewrite IH by lia.
      replace (Z.to_nat (i + 1)) with (S (Z.to_nat i)) by lia. done.
    + simpl. destruct (VkResult_eqb res VK_SUCCESS) eqn:Hok; simpl.
      * apply VkResult_eqb_eq in Hok. subst res.
        by rewrite loop_nonnull by (by eapply alloc_set_nonnull).
      * done.
Qed.


(** *** [_vk2dDescConAppendList] *)

Ltac simpl_fields :=
  cbn [pools poolsInUse poolListSize dev layout buffer sampler storageBuffer
       set_pools set_poolsInUse set_poolListSize
       vk2dErrorCheck VkResult_eqb emit
       trace devPools devNextSet devMemory hostMemory app].

(** Everything a returning call of [_vk2dDescConAppendList] did. *)
Lemma append_cases dc w dc' w' :
  0 < EXT ->
  0 <= poolsInUse dc <= poolListSize dc ->
  Z.of_nat (length (pools dc)) = poolListSize dc ->
  poolListSize dc < UINT32_MOD ->
  (poolListSize dc = poolsInUse dc -> poolListSize dc + EXT < UINT32_MOD) ->
  append dc w = Ok (dc', w') ->
  exists (slots1 : list (option handle)) (host1 : nat),
    (if poolListSize dc =? poolsInUse dc
     then slots1 = pools dc ++ replicate (Z.to_nat EXT) None
          /\ Z.of_nat host1 + EXT = Z.of_nat (hostMemory w)
          /\ poolListSize dc' = poolListSize dc + EXT
     else slots1 = pools dc /\ host1 = hostMemory w
          /\ poolListSize dc' = poolListSize dc)
    /\ poolsInUse dc < Z.of_nat (length slots1)
    /\ poolsInUse dc' = poolsInUse dc + 1
    /\ dev dc' = dev dc /\ layout dc' = layout dc /\ buffer dc' = buffer dc
    /\ sampler dc' = sampler dc /\ storageBuffer dc' = storageBuffer dc
    /\ ((devMemory w = O /\ pools dc' = slots1
         /\ w' = mkWorld (devPools w) (devNextSet w) O host1
                   (trace w ++ [CallCreateDescriptorPool (pool_create_info ALLOC NOLOC dc)
                                  VK_ERROR_OUT_OF_DEVICE_MEMORY VK_NULL_HANDLE;
                                CallLogError VK_ERROR_OUT_OF_DEVICE_MEMORY]))
        \/ (exists m, devMemory w = S m
            /\ pools dc' = <[Z.to_nat (poolsInUse dc) := Some (S (length (devPools w)))]> slots1
            /\ w' = mkWorld (devPools w ++ [mkPoolObj (pool_create_info ALLOC NOLOC dc) []])
                      (devNextSet w) m host1
                      (trace w ++ [CallCreateDescriptorPool (pool_create_info ALLOC NOLOC dc)
                                     VK_SUCCESS (S (length (devPools w)))]))).
Proof.
  intros HE Hr Hlen Hu Hu'. unfold _vk2dDescConAppendList.
  destruct (Z.eqb_spec (poolListSize dc) (poolsInUse dc)) as [Heq|Hne].
  - specialize (Hu' Heq). rewrite (wrap32_small (poolListSize dc + EXT)) by lia.
    unfold realloc. destruct (Z.leb_spec (poolListSize dc + EXT) 0); [lia|].
    destruct (Nat.leb_spec (Z.to_nat (poolListSize dc + EXT) - length (pools dc))
                (hostMemory w)) as [Hh|Hh]; cbn [vk2dPointerCheck].
    + rewrite take_ge by lia.
      replace (Z.to_nat (poolListSize dc + EXT) - length (pools dc))%nat
        with (Z.to_nat EXT) in * by lia.
      cbn [set_pools set_poolListSize pools poolsInUse poolListSize].
      destruct (sizes_fit _ _ _); cbn [negb]; [|discriminate].
      rewrite length_app, length_replicate.
      destruct (Z.leb_spec 0 (poolsInUse dc)); [|lia].
      destruct (Z.ltb_spec (poolsInUse dc) (Z.of_nat (length (pools dc) + Z.to_nat EXT)));
        [|lia].
      cbn [andb]. unfold vkCreateDescriptorPool. cbn [devMemory].
      rewrite (wrap32_small (poolsInUse dc + 1)) by lia.
      destruct (devMemory w) as [|m] eqn:Hm; intros [= <- <-];
        exists (pools dc ++ replicate (Z.to_nat EXT) None), (hostMemory w - Z.to_nat EXT)%nat;
        simpl_fields; rewrite ?length_app, ?length_replicate;
        (repeat split; try reflexivity; try lia).
      * left. repeat split. unfold emit. simpl_fields. by rewrite <- app_assoc.
      * right. by exists m.
    + destruct (sizes_fit _ _ _); cbn [negb]; [|discriminate].
      destruct (Z.leb_spec 0 (poolsInUse dc)); [|lia].
      destruct (Z.ltb_spec (poolsInUse dc) (Z.of_nat (length (pools dc)))); [lia|].
      discriminate.
  - destruct (sizes_fit _ _ _); cbn [negb]; [|discriminate].
    destruct (Z.leb_spec 0 (poolsInUse dc)); [|lia].
    destruct (Z.ltb_spec (poolsInUse dc) (Z.of_nat (length (pools dc)))); [|lia].
    cbn [andb]. unfold vkCreateDescriptorPool.
    rewrite (wrap32_small (poolsInUse dc + 1)) by lia.
    destruct (devMemory w) as [|m] eqn:Hm; intros [= <- <-];
      exists (pools dc), (hostMemory w); simpl_fields;
      (repeat split; try reflexivity; try lia).
    + left. repeat split. unfold emit. simpl_fields. rewrite <- app_assoc. by rewrite Hm.
    + right. by exists m.
Qed.



(** A returning call stored at most two pool sizes. *)
Lemma append_fits dc w dc' w' :
  append dc w = Ok (dc', w') ->
  sizes_fit ALLOC NOLOC dc = true /\ sizes_fit ALLOC NOLOC dc' = true.
Proof.
  unfold _vk2dDescConAppendList.
  assert (Hsame : forall dc1 dc2 : VK2DDescCon,
            buffer dc1 = buffer dc2 -> sampler dc1 = sampler dc2 ->
            storageBuffer dc1 = storageBuffer dc2 ->
            sizes_fit ALLOC NOLOC dc1 = sizes_fit ALLOC NOLOC dc2).
  { intros dc1 dc2 Hb Hs Hsb. unfold sizes_fit, pool_sizes. by rewrite Hb, Hs, Hsb. }
  destruct (poolListSize dc =? poolsInUse dc).
  - destruct (realloc w (pools dc) _) as [w1 [l|]]; cbn [vk2dPointerCheck].
    + rewrite (Hsame _ dc) by done.
      destruct (sizes_fit ALLOC NOLOC dc) eqn:Hf; cbn [negb]; [|discriminate].
      destruct (_ && _); [|discriminate].
      destruct (vkCreateDescriptorPool _ _) as [[w2 res] h].
      intros [= <- _]. split; [done|]. by rewrite (Hsame _ dc).
    + destruct (sizes_fit ALLOC NOLOC dc) eqn:Hf; cbn [negb]; [|discriminate].
      destruct (_ && _); [|discriminate].
      destruct (vkCreateDescriptorPool _ _) as [[w2 res] h].
      intros [= <- _]. split; [done|]. by rewrite (Hsame _ dc).
  - destruct (sizes_fit ALLOC NOLOC dc) eqn:Hf; cbn [negb]; [|discriminate].
    destruct (_ && _); [|discriminate].
    destruct (vkCreateDescriptorPool _ _) as [[w2 res] h].
    intros [= <- _]. split; [done|]. by rewrite (Hsame _ dc).
Qed.
(** *** The scan *)

Lemma add_trace_nil w : add_trace w [] = w.
Proof. destruct w. unfold add_trace. simpl. by rewrite app_nil_r. Qed.

Lemma add_trace_emit w c evs : add_trace (emit c w) evs = add_trace w (c :: evs).
Proof. unfold add_trace, emit. simpl. by rewrite <- app_assoc. Qed.

(** What a scan did: it was refused by a prefix of exhausted pools, and
    then either ran out of slots or was answered by the next pool. *)
Lemma spec_scan_inv (slots : list (option handle)) : forall w,
  match spec_scan w slots with
  | ScanExhausted w1 =>
      exists hs, slots = map Some hs /\ Forall (exhausted w) hs
                 /\ w1 = add_trace w (oom_events hs)
  | ScanServed w1 res s =>
      exists hs h rest, slots = map Some hs ++ Some h :: rest
                        /\ Forall (exhausted w) hs
                        /\ alloc_case (add_trace w (oom_events hs)) h w1 res s
                        /\ res <> VK_ERROR_OUT_OF_POOL_MEMORY
  | ScanInvalid => True
  end.
Proof.
  induction slots as [|[p|] slots IH]; intros w; cbn [spec_scan].
  - exists []. by rewrite add_trace_nil.
  - destruct (vkAllocateDescriptorSets w p) as [[[w1 res] s]|] eqn:Ha; [|done].
    destruct (VkResult_eqb res VK_ERROR_OUT_OF_POOL_MEMORY) eqn:Hoom.
    + apply VkResult_eqb_eq in Hoom. subst res.
      apply alloc_inv in Ha. inversion Ha as [po Hl Hf Hw| |]; subst.
      specialize (IH (emit (CallAllocateDescriptorSets p VK_ERROR_OUT_OF_POOL_MEMORY
                               VK_NULL_HANDLE) w)).
      destruct (spec_scan _ slots) as [w2 res s2|w2|]; [| |done].
      * destruct IH as (hs & h & rest & -> & Hex & Hc & Hne).
        exists (p :: hs), h, rest. rewrite add_trace_emit in Hc.
        repeat split; try done. constructor; [by exists po|done].
      * destruct IH as (hs & -> & Hex & ->).
        exists (p :: hs). rewrite add_trace_emit.
        repeat split; try done. constructor; [by exists po|done].
    + exists [], p, slots. rewrite add_trace_nil.
      repeat split; try done; [by apply alloc_inv|].
      intros ->. by rewrite VkResult_eqb_refl in Hoom.
  - exact I.
Qed.


(** *** Consequences of the invariant *)

Local Abbreviation inv := (inv EXT).
Local Abbreviation getSet := (vk2dDescConGetSet EXT ALLOC NOLOC).
Local Abbreviation spec_getSet := (spec_getSet EXT ALLOC NOLOC).

Hypothesis EXT_pos : 0 < EXT.
Hypothesis ALLOC_pos : 0 < ALLOC.

Lemma device_budget_nonneg w : 0 <= device_budget w.
Proof. unfold device_budget. lia. Qed.

Lemma inv_inuse_bound dc w :
  inv dc w -> poolsInUse dc <= Z.of_nat (length (devPools w)) + 1.
Proof.
  intros H. destruct (Z.le_gt_cases (poolsInUse dc) 1) as [|Hgt]; [lia|].
  destruct (inv_prefix _ _ _ H (Z.to_nat (poolsInUse dc - 2))) as [h Hh]; [lia|].
  apply (inv_written _ _ _ H) in Hh. lia.
Qed.

Lemma inv_no_wrap dc w :
  inv dc w -> poolsInUse dc + EXT + 1 < UINT32_MOD.
Proof.
  intros H. pose proof (inv_inuse_bound _ _ H). pose proof (inv_budget _ _ _ H).
  unfold device_budget in *. lia.
Qed.

Lemma inv_add_trace dc w evs : inv dc w -> inv dc (add_trace w evs).
Proof. intros []. by constructor. Qed.

Lemma inv_same_device dc w w' :
  length (devPools w') = length (devPools w) -> device_budget w' = device_budget w ->
  inv dc w -> inv dc w'.
Proof. intros Hl Hb []. constructor; try done; [by rewrite Hl|by rewrite Hb]. Qed.

Lemma errorCheck_fields w res :
  devPools (vk2dErrorCheck w res) = devPools w
  /\ devNextSet (vk2dErrorCheck w res) = devNextSet w
  /\ devMemory (vk2dErrorCheck w res) = devMemory w
  /\ hostMemory (vk2dErrorCheck w res) = hostMemory w.
Proof. unfold vk2dErrorCheck. by destruct (VkResult_eqb res VK_SUCCESS). Qed.

Lemma errorCheck_budget w res : device_budget (vk2dErrorCheck w res) = device_budget w.
Proof. unfold vk2dErrorCheck. by destruct (VkResult_eqb res VK_SUCCESS). Qed.

Lemma alloc_case_budget w pool w1 res s :
  alloc_case w pool w1 res s ->
  device_budget w1 = device_budget w /\ length (devPools w1) = length (devPools w).
Proof.
  intros [po Hl Hf|po Hl Hf Hm|po m Hl Hf Hm]; try done.
  apply lookup_pool_Some in Hl as [Hr Hl].
  unfold device_budget, live_total; simpl.
  rewrite length_insert. split; [|done].
  pose proof (sum_list_insert (fun po => length (poolLive po)) _ _ _
    (mkPoolObj (poolInfo po) (poolLive po ++ [S (devNextSet w)])) Hl) as Hs.
  simpl in Hs. rewrite length_app in Hs. simpl in Hs. rewrite Hm. lia.
Qed.

Lemma sum_list_snoc (l : list nat) (x : nat) : sum_list (l ++ [x]) = (sum_list l + x)%nat.
Proof. induction l; simpl; lia. Qed.

(** The append keeps the invariant, provided every slot in use before it
    had been written (the scan has just read them all). *)
Lemma append_inv dc w dc' w' :
  0 <= poolsInUse dc <= poolListSize dc ->
  poolListSize dc < UINT32_MOD ->
  Z.of_nat (length (pools dc)) = poolListSize dc ->
  (forall (k : nat) (h : handle), pools dc !! k = Some (Some h) ->
     (k < h <= length (devPools w))%nat /\ Z.of_nat k < poolsInUse dc) ->
  (forall k : nat, Z.of_nat k < poolsInUse dc -> exists h : handle, pools dc !! k = Some (Some h)) ->
  device_budget w + EXT + 2 < UINT32_MOD ->
  append dc w = Ok (dc', w') ->
  inv dc' w'.
Proof.
  intros Hr Hu Hlen Hwr Hpre Hb Ha.
  assert (Hiu : poolsInUse dc <= Z.of_nat (length (devPools w))).
  { destruct (Z.le_gt_cases (poolsInUse dc) 0) as [|Hgt]; [lia|].
    destruct (Hpre (Z.to_nat (poolsInUse dc - 1))) as [h Hh]; [lia|].
    apply Hwr in Hh. lia. }
  assert (Hbn := device_budget_nonneg w).
  apply append_cases in Ha; try done;
    [|unfold device_budget in *; lia].
  destruct Ha as (slots1 & host1 & Hext & Hin & Hiu' & _ & _ & _ & _ & _ & Hcr).
  assert (Hslots1 : forall (k : nat) (h : handle), slots1 !! k = Some (Some h) ->
            pools dc !! k = Some (Some h)).
  { intros k h Hk. destruct (poolListSize dc =? poolsInUse dc).
    - destruct Hext as (-> & _). apply lookup_app_Some in Hk as [Hk|[_ Hk]]; [done|].
      apply lookup_replicate in Hk as [? _]. done.
    - by destruct Hext as (-> & _). }
  assert (Hsz : poolListSize dc' = Z.of_nat (length slots1)
                /\ poolsInUse dc + 1 <= poolListSize dc' < UINT32_MOD).
  { destruct (Z.eqb_spec (poolListSize dc) (poolsInUse dc)).
    - destruct Hext as (-> & _ & ->). rewrite length_app, length_replicate.
      unfold device_budget in *. lia.
    - destruct Hext as (-> & _ & ->). lia. }
  destruct Hsz as [Hsz Hsz'].
  destruct Hcr as [(Hm & Hp & ->)|(m & Hm & Hp & ->)].
  - constructor; rewrite ?Hp, ?Hiu'; try lia.
    + intros k h Hk. apply Hslots1, Hwr in Hk. simpl. lia.
    + intros k Hk. destruct (Hpre k) as [h Hh]; [lia|]. exists h.
      destruct (poolListSize dc =? poolsInUse dc).
      * destruct Hext as (-> & _). by apply lookup_app_l_Some.
      * by destruct Hext as (-> & _).
    + unfold device_budget, live_total in *. simpl. rewrite Hm in Hb. lia.
  - constructor; rewrite ?Hp, ?Hiu', ?length_insert; try lia.
    + intros k h Hk. simpl. rewrite length_app. simpl.
      destruct (decide (k = Z.to_nat (poolsInUse dc))) as [->|Hne].
      * rewrite list_lookup_insert_eq in Hk by lia. injection Hk as <-. lia.
      * rewrite list_lookup_insert_ne in Hk by done.
        apply Hslots1, Hwr in Hk. lia.
    + intros k Hk.
      destruct (decide (k = Z.to_nat (poolsInUse dc))) as [->|Hne]; [lia|].
      rewrite list_lookup_insert_ne by done.
      destruct (Hpre k) as [h Hh]; [lia|]. exists h.
      destruct (poolListSize dc =? poolsInUse dc).
      * destruct Hext as (-> & _). by apply lookup_app_l_Some.
      * by destruct Hext as (-> & _).
    + unfold device_budget, live_total in *. simpl.
      rewrite length_app, map_app. cbn [map]. rewrite sum_list_snoc.
      simpl. rewrite Hm in Hb. lia.
Qed.


Lemma in_use_all_written dc hs :
  in_use dc = map Some hs -> poolsInUse dc <= Z.of_nat (length (pools dc)) ->
  forall k : nat, Z.of_nat k < poolsInUse dc -> exists h : handle, pools dc !! k = Some (Some h).
Proof.
  intros Hin Hlen k Hk.
  assert (Hl : in_use dc !! k = pools dc !! k) by (unfold in_use; apply lookup_take_lt; lia).
  rewrite Hin, list_lookup_fmap in Hl.
  destruct (hs !! k) as [h|] eqn:Hh; simpl in Hl; [by exists h|].
  apply lookup_ge_None in Hh.
  assert (length (in_use dc) = length hs) by (by rewrite Hin, length_map).
  unfold in_use in *. rewrite length_take in *. lia.
Qed.

Lemma fresh_pool_not_full dc :
  pool_full (mkPoolObj (pool_create_info ALLOC NOLOC dc) []) = false.
Proof. unfold pool_full. simpl. apply Z.leb_gt. lia. Qed.

Lemma VkResult_eqb_false (a b : VkResult) : a <> b -> VkResult_eqb a b = false.
Proof.
  intros H. destruct (VkResult_eqb a b) eqn:E; [|done].
  by apply VkResult_eqb_eq in E.
Qed.

(** After a returning append the slot just filled answers the retry:
    it holds a fresh, empty pool, or nothing at all. *)
Lemma append_retry dc w dc' w' :
  inv dc w ->
  (forall k : nat, Z.of_nat k < poolsInUse dc -> exists h : handle, pools dc !! k = Some (Some h)) ->
  append dc w = Ok (dc', w') ->
  forall w3, spec_scan w' [pools dc' !!! Z.to_nat (poolsInUse dc)] <> ScanExhausted w3.
Proof.
  intros Hinv Hpre Ha w3.
  pose proof (inv_no_wrap _ _ Hinv) as Hnw. destruct Hinv.
  apply append_cases in Ha; try done; [|lia|lia].
  destruct Ha as (slots1 & host1 & Hext & Hin & Hiu' & _ & _ & _ & _ & _ & Hcr).
  assert (Hnone : slots1 !! Z.to_nat (poolsInUse dc) = Some None).
  { destruct (lookup_lt_is_Some_2 slots1 (Z.to_nat (poolsInUse dc))) as [[h|] Hs]; [lia| |done].
    exfalso. destruct (poolListSize dc =? poolsInUse dc).
    - destruct Hext as (-> & _). apply lookup_app_Some in Hs as [Hs|[_ Hs]].
      + apply inv_written0 in Hs. lia.
      + by apply lookup_replicate in Hs as [? _].
    - destruct Hext as (-> & _). apply inv_written0 in Hs. lia. }
  destruct Hcr as [(Hm & Hp & ->)|(m & Hm & Hp & ->)].
  - rewrite Hp, (list_lookup_total_correct _ _ _ Hnone). done.
  - rewrite Hp. erewrite list_lookup_total_correct
      by (apply list_lookup_insert_eq; lia).
    cbn [spec_scan]. unfold vkAllocateDescriptorSets, lookup_pool.
    cbn [is_null VK_NULL_HANDLE Nat.eqb Nat.pred devPools].
    rewrite list_lookup_middle by done. rewrite fresh_pool_not_full.
    cbn [devMemory]. destruct m; by rewrite VkResult_eqb_false.
Qed.

(** The code is the algorithm of the design document. *)
Lemma getSet_refines dc w (fuel : nat) :
  inv dc w -> (enough_fuel dc <= fuel)%nat ->
  getSet fuel dc w = spec_getSet dc w.
Proof.
  intros Hinv Hfuel. pose proof (inv_no_wrap _ _ Hinv) as Hnw.
  pose proof (inv_pos _ _ _ Hinv). pose proof (inv_le _ _ _ Hinv).
  pose proof (inv_len _ _ _ Hinv) as Hlen. pose proof (inv_u32 _ _ _ Hinv).
  unfold vk2dDescConGetSet, _vk2dDescConGetAvailableSet, enough_fuel in *.
  replace fuel
    with (S (Z.to_nat (poolsInUse dc - 1)) + (1 + (fuel - S (Z.to_nat (poolsInUse dc)))))%nat
    by lia.
  rewrite loop_scan by lia. unfold DescriptorControl.spec_getSet.
  change (Z.to_nat 0) with 0%nat. rewrite drop_0.
  pose proof (spec_scan_inv (in_use dc) w) as Hscan.
  destruct (spec_scan w (in_use dc)) as [w1 res s|w1|]; try done.
  destruct Hscan as (hs & Hin & _ & ->).
  pose proof (inv_add_trace _ _ (oom_events hs) Hinv) as Hinv1.
  assert (Hpre := in_use_all_written _ _ Hin ltac:(lia)).
  destruct (append dc (add_trace w (oom_events hs))) as [[dc2 w2]| |] eqn:Ha; try done.
  cbn [obind].
  pose proof (append_retry _ _ _ _ Hinv1 Hpre Ha) as Hretry.
  apply append_cases in Ha; try done; [|lia..].
  destruct Ha as (slots1 & host1 & Hext & Hin1 & Hiu' & _ & _ & _ & _ & _ & Hcr).
  assert (Hl2 : poolsInUse dc < Z.of_nat (length (pools dc2))).
  { destruct Hcr as [(_ & -> & _)|(m & _ & -> & _)]; rewrite ?length_insert; lia. }
  rewrite loop_scan by lia.
  assert (Hd : drop (Z.to_nat (poolsInUse dc)) (in_use dc2)
               = [pools dc2 !!! Z.to_nat (poolsInUse dc)]).
  { unfold in_use. rewrite Hiu'.
    destruct (lookup_lt_is_Some_2 (pools dc2) (Z.to_nat (poolsInUse dc))) as [x Hx]; [lia|].
    rewrite (list_lookup_total_correct _ _ _ Hx).
    replace (Z.to_nat (poolsInUse dc + 1)) with (Z.to_nat (poolsInUse dc) + 1)%nat by lia.
    rewrite <- take_drop_commute.
    erewrite drop_S by done. simpl. by rewrite take_0. }
  rewrite Hd.
  destruct (spec_scan w2 _) as [w3 res s|w3|]; try done.
  by destruct (Hretry w3).
Qed.

Lemma loop_fuel_mono (fuel : nat) : forall fuel' dc w s i r,
  (fuel <= fuel')%nat -> loop fuel dc w s i = Ok r -> loop fuel' dc w s i = Ok r.
Proof.
  induction fuel as [|fuel IH]; intros fuel' dc w s i r Hle.
  - destruct (is_null s) eqn:Hs; [|by rewrite !loop_nonnull].
    apply Nat.eqb_eq in Hs. unfold VK_NULL_HANDLE in Hs. subst s.
    change 0%nat with VK_NULL_HANDLE. by rewrite loop_zero.
  - destruct fuel' as [|fuel']; [lia|].
    destruct (is_null s) eqn:Hs; [|by rewrite !loop_nonnull].
    apply Nat.eqb_eq in Hs. unfold VK_NULL_HANDLE in Hs. subst s.
    change 0%nat with VK_NULL_HANDLE.
    rewrite !loop_step.
    destruct (read_pool dc i) as [pool|]; [|done].
    destruct (vkAllocateDescriptorSets w pool) as [[[w1 res] s1]|]; [|done].
    cbv zeta.
    destruct (negb _ && negb _); [done|].
    destruct (if _ && _ then _ else _) as [[dc2 w2]| |]; try done.
    cbn [obind]. apply IH. lia.
Qed.


(** *** The invariant is kept *)

Local Abbreviation create := (vk2dDescConCreate EXT ALLOC NOLOC).
Local Abbreviation reset := vk2dDescConReset.
Local Abbreviation reachable := (reachable EXT ALLOC NOLOC).

Lemma alloc_case_inv dc w pool w1 res s evs :
  inv dc w -> alloc_case (add_trace w evs) pool w1 res s ->
  inv dc (vk2dErrorCheck w1 res).
Proof.
  intros Hinv Hc. apply alloc_case_budget in Hc as [Hb Hl].
  eapply inv_same_device; [| |exact Hinv].
  - by rewrite (proj1 (errorCheck_fields w1 res)), Hl.
  - by rewrite errorCheck_budget, Hb.
Qed.

Lemma spec_getSet_inv dc w s dc' w' :
  inv dc w -> spec_getSet dc w = Ok (s, dc', w') -> inv dc' w'.
Proof.
  intros Hinv. unfold DescriptorControl.spec_getSet.
  pose proof (spec_scan_inv (in_use dc) w) as Hscan.
  destruct (spec_scan w (in_use dc)) as [w1 res s1|w1|]; [| |done].
  - destruct Hscan as (hs & h & rest & _ & _ & Hc & _).
    intros [= <- <- <-]. by eapply alloc_case_inv.
  - destruct Hscan as (hs & Hin & _ & ->).
    destruct (append dc (add_trace w (oom_events hs))) as [[dc2 w2]| |] eqn:Ha; try done.
    cbn [obind].
    assert (Hinv2 : inv dc2 w2).
    { pose proof (inv_add_trace _ _ (oom_events hs) Hinv) as Hinv1.
      destruct Hinv1. eapply append_inv; try done; [lia|].
      eapply in_use_all_written; [done|lia]. }
    pose proof (spec_scan_inv [pools dc2 !!! Z.to_nat (poolsInUse dc)] w2) as Hscan2.
    destruct (spec_scan w2 _) as [w3 res s3|w3|]; [|done|done].
    destruct Hscan2 as (hs2 & h2 & rest2 & _ & _ & Hc & _).
    intros [= <- <- <-]. by eapply alloc_case_inv.
Qed.

Lemma getSet_returns_spec dc w (fuel : nat) r :
  inv dc w -> getSet fuel dc w = Ok r -> spec_getSet dc w = Ok r.
Proof.
  intros Hinv Hr.
  rewrite <- (getSet_refines dc w (Nat.max fuel (enough_fuel dc))) by (done || lia).
  unfold vk2dDescConGetSet, _vk2dDescConGetAvailableSet in *.
  eapply loop_fuel_mono; [|exact Hr]. lia.
Qed.

Lemma getSet_inv dc w (fuel : nat) s dc' w' :
  inv dc w -> getSet fuel dc w = Ok (s, dc', w') -> inv dc' w'.
Proof. intros Hinv Hr. eapply spec_getSet_inv; [done|]. by eapply getSet_returns_spec. Qed.

Lemma reset_pool_budget w h w' :
  vkResetDescriptorPool w h = Some w' ->
  device_budget w' = device_budget w /\ length (devPools w') = length (devPools w).
Proof.
  unfold vkResetDescriptorPool.
  destruct (lookup_pool w h) as [po|] eqn:Hl; [|done]. intros [= <-].
  apply lookup_pool_Some in Hl as [_ Hl].
  unfold device_budget, live_total. simpl. rewrite length_insert. split; [|done].
  pose proof (sum_list_insert (fun po => length (poolLive po)) _ _ _
    (mkPoolObj (poolInfo po) []) Hl) as Hs.
  simpl in Hs. lia.
Qed.

Lemma reset_loop_budget dc (n : nat) : forall w (i : Z) w',
  reset_loop n dc w i = Ok w' ->
  device_budget w' = device_budget w /\ length (devPools w') = length (devPools w).
Proof.
  induction n as [|n IH]; intros w i w'; simpl.
  - by intros [= <-].
  - destruct (read_pool dc i) as [h|]; [|done].
    destruct (vkResetDescriptorPool w h) as [w1|] eqn:Hr; [|done].
    intros Hl. apply IH in Hl as [-> ->]. by apply reset_pool_budget in Hr.
Qed.

Lemma reset_inv dc w w' : inv dc w -> reset dc w = Ok w' -> inv dc w'.
Proof.
  intros Hinv Hr. apply reset_loop_budget in Hr as [Hb Hl].
  by eapply inv_same_device.
Qed.

Lemma create_inv w d l b s sb dc w' :
  device_budget w + EXT + 2 < UINT32_MOD ->
  create w d l b s sb = Ok (Some dc, w') -> inv dc w'.
Proof.
  intros Hb. unfold vk2dDescConCreate.
  destruct (hostMemory w) as [|m] eqn:Hm; [done|].
  destruct (append _ _) as [[out' w2]| |] eqn:Ha; try done.
  intros [= <- <-].
  pose proof (device_budget_nonneg w).
  eapply append_inv in Ha; try done; simpl; unfold UINT32_MOD in *; try lia.
Qed.

Lemma reachable_inv dc w : reachable dc w -> inv dc w.
Proof.
  induction 1 as [w d l b s sb dc w' Hb Hc|fuel dc w s dc' w' _ IH Hg|dc w w' _ IH Hr].
  - by eapply create_inv.
  - by eapply getSet_inv.
  - by eapply reset_inv.
Qed.

(** *** What one call puts on the trace *)

Lemma oom_events_no_create hs : Forall (fun c => is_create c = false) (oom_events hs).
Proof. unfold oom_events. apply Forall_forall. intros c Hc.
  apply list_elem_of_In, in_map_iff in Hc as (h & <- & _). done. Qed.

Lemma errorCheck_trace w res :
  exists evs, trace (vk2dErrorCheck w res) = trace w ++ evs
              /\ Forall (fun c => is_create c = false) evs.
Proof.
  unfold vk2dErrorCheck. destruct (VkResult_eqb res VK_SUCCESS).
  - exists []. by rewrite app_nil_r.
  - exists [CallLogError res]. split; [done|]. by constructor.
Qed.

Lemma alloc_case_trace w pool w1 res s :
  alloc_case w pool w1 res s ->
  trace w1 = trace w ++ [CallAllocateDescriptorSets pool res s].
Proof. by intros []. Qed.

Lemma in_use_length dc :
  0 <= poolsInUse dc <= Z.of_nat (length (pools dc)) ->
  length (in_use dc) = Z.to_nat (poolsInUse dc).
Proof. intros H. unfold in_use. rewrite length_take. lia. Qed.

(** A call that returns either left the controller alone and created no
    pool, or was refused by every pool in use, in order, before the one
    creation it made. *)
Lemma getSet_append_only dc w (fuel : nat) s dc' w' :
  inv dc w -> getSet fuel dc w = Ok (s, dc', w') ->
  (dc' = dc /\ exists evs, trace w' = trace w ++ evs
                           /\ Forall (fun c => is_create c = false) evs)
  \/ (exists (hs : list handle) (res : VkResult) (h : handle) (tail : list Call),
        in_use dc = map Some hs
        /\ length hs = Z.to_nat (poolsInUse dc)
        /\ Forall (exhausted w) hs
        /\ poolsInUse dc' = poolsInUse dc + 1
        /\ trace w' = trace w ++ oom_events hs
                        ++ CallCreateDescriptorPool (pool_create_info ALLOC NOLOC dc) res h
                        :: tail
        /\ Forall (fun c => is_create c = false) tail).
Proof.
  intros Hinv Hg. apply getSet_returns_spec in Hg; [|done].
  pose proof (inv_no_wrap _ _ Hinv) as Hnw.
  pose proof (inv_pos _ _ _ Hinv). pose proof (inv_le _ _ _ Hinv).
  pose proof (inv_len _ _ _ Hinv) as Hlen. pose proof (inv_u32 _ _ _ Hinv).
  unfold DescriptorControl.spec_getSet in Hg.
  pose proof (spec_scan_inv (in_use dc) w) as Hscan.
  destruct (spec_scan w (in_use dc)) as [w1 res s1|w1|]; [| |done].
  - destruct Hscan as (hs & h & rest & _ & _ & Hc & _).
    injection Hg as <- <- <-. left. split; [done|].
    destruct (errorCheck_trace w1 res) as (evs & -> & Hevs).
    rewrite (alloc_case_trace _ _ _ _ _ Hc). simpl. rewrite <- !app_assoc.
    eexists. split; [done|].
    apply Forall_app. split; [apply oom_events_no_create|].
    by constructor.
  - destruct Hscan as (hs & Hin & Hex & ->).
    destruct (append dc (add_trace w (oom_events hs))) as [[dc2 w2]| |] eqn:Ha; try done.
    cbn [obind] in Hg.
    pose proof (spec_scan_inv [pools dc2 !!! Z.to_nat (poolsInUse dc)] w2) as Hscan2.
    destruct (spec_scan w2 _) as [w3 res s3|w3|]; [|done|done].
    destruct Hscan2 as (hs2 & h2 & rest2 & Hsl & _ & Hc & _).
    injection Hg as <- <- <-. right.
    assert (hs2 = []) as ->.
    { destruct hs2 as [|a [|b hs2]]; [done|..]; simpl in Hsl; [|done].
      injection Hsl as _ Hsl. done. }
    rewrite add_trace_nil in Hc.
    apply append_cases in Ha; try done; [|simpl; lia..].
    destruct Ha as (slots1 & host1 & _ & _ & Hiu' & _ & _ & _ & _ & _ & Hcr).
    destruct (errorCheck_trace w3 res) as (evs & Htr & Hevs).
    assert (length hs = Z.to_nat (poolsInUse dc)) as Hlhs.
    { rewrite <- (length_map Some), <- Hin. apply in_use_length. lia. }
    destruct Hcr as [(_ & _ & ->)|(m & _ & _ & ->)].
    + exists hs, VK_ERROR_OUT_OF_DEVICE_MEMORY, VK_NULL_HANDLE,
        (CallLogError VK_ERROR_OUT_OF_DEVICE_MEMORY
           :: CallAllocateDescriptorSets h2 res s3 :: evs).
      repeat split; try done.
      * rewrite Htr, (alloc_case_trace _ _ _ _ _ Hc). simpl.
        by rewrite <- !app_assoc.
      * by repeat constructor.
    + exists hs, VK_SUCCESS, (S (length (devPools w))),
        (CallAllocateDescriptorSets h2 res s3 :: evs).
      repeat split; try done.
      * rewrite Htr, (alloc_case_trace _ _ _ _ _ Hc). simpl.
        by rewrite <- !app_assoc.
      * by repeat constructor.
Qed.

(** *** Controllers whose pools all exist *)

Local Abbreviation wf := (wf EXT ALLOC NOLOC).
Local Abbreviation pool_ready := (pool_ready ALLOC).
Local Abbreviation getSets := (getSets EXT ALLOC NOLOC).

Lemma append_returns dc w :
  0 <= poolsInUse dc <= poolListSize dc ->
  Z.of_nat (length (pools dc)) = poolListSize dc ->
  poolListSize dc < UINT32_MOD ->
  (poolListSize dc = poolsInUse dc -> poolListSize dc + EXT < UINT32_MOD) ->
  (poolListSize dc = poolsInUse dc -> (Z.to_nat EXT <= hostMemory w)%nat) ->
  sizes_fit ALLOC NOLOC dc = true ->
  exists r, append dc w = Ok r.
Proof.
  intros Hr Hlen Hu Hu' Hh Hfit.
  assert (Hfit' : forall l n,
            sizes_fit ALLOC NOLOC (set_pools l (set_poolListSize n dc)) = true)
    by (intros; exact Hfit).
  unfold _vk2dDescConAppendList.
  destruct (Z.eqb_spec (poolListSize dc) (poolsInUse dc)) as [Heq|Hne].
  - specialize (Hu' Heq). specialize (Hh Heq).
    rewrite (wrap32_small (poolListSize dc + EXT)) by lia.
    unfold realloc. destruct (Z.leb_spec (poolListSize dc + EXT) 0); [lia|].
    destruct (Nat.leb_spec (Z.to_nat (poolListSize dc + EXT) - length (pools dc))
                (hostMemory w)) as [_|Hh']; [|lia].
    cbn [vk2dPointerCheck]. rewrite Hfit'. cbn [negb]. simpl_fields.
    rewrite take_ge by lia. rewrite length_app, length_replicate.
    destruct (Z.leb_spec 0 (poolsInUse dc)); [|lia].
    destruct (Z.ltb_spec (poolsInUse dc)
                (Z.of_nat (length (pools dc)
                   + (Z.to_nat (poolListSize dc + EXT) - length (pools dc))))); [|lia].
    cbn [andb]. destruct (vkCreateDescriptorPool _ _) as [[w2 res] h]. by eexists.
  - rewrite Hfit. cbn [negb].
    destruct (Z.leb_spec 0 (poolsInUse dc)); [|lia].
    destruct (Z.ltb_spec (poolsInUse dc) (Z.of_nat (length (pools dc)))); [|lia].
    cbn [andb]. destruct (vkCreateDescriptorPool _ _) as [[w2 res] h]. by eexists.
Qed.

Lemma all_some_list {A} (P : A -> Prop) (l : list (option A)) :
  (forall (k : nat) x, l !! k = Some x -> exists a, x = Some a /\ P a) ->
  exists hs, l = map Some hs /\ Forall P hs.
Proof.
  induction l as [|x l IH]; intros H.
  - by exists [].
  - destruct (H 0%nat x eq_refl) as (a & -> & Ha).
    destruct IH as (hs & -> & Hhs); [intros k y Hk; by apply (H (S k))|].
    exists (a :: hs). split; [done|by constructor].
Qed.

Lemma wf_in_use dc w :
  wf dc w ->
  exists hs, in_use dc = map Some hs /\ Forall (pool_ready w) hs
             /\ length hs = Z.to_nat (poolsInUse dc).
Proof.
  intros [Hinv Hsl Hkinds].
  destruct (all_some_list (pool_ready w) (in_use dc)) as (hs & Hin & Hhs).
  - intros k x Hk. unfold in_use in Hk.
    apply lookup_take_Some in Hk as [Hk Hlt].
    destruct (Hsl k) as (h & Hh & Hr); [lia|].
    rewrite Hh in Hk. injection Hk as <-. by exists h.
  - exists hs. repeat split; try done.
    rewrite <- (length_map Some), <- Hin. apply in_use_length.
    destruct Hinv. lia.
Qed.

Lemma pool_ready_lookup_insert w (i : nat) po l h :
  devPools w !! i = Some po ->
  pool_ready w h ->
  exists po', (if is_null h then None
               else <[i := mkPoolObj (poolInfo po) l]> (devPools w) !! Nat.pred h) = Some po'
              /\ maxSets (poolInfo po') = ALLOC.
Proof.
  intros Hi (po0 & Hl & Hm). unfold lookup_pool in Hl.
  destruct (is_null h); [done|].
  destruct (decide (i = Nat.pred h)) as [->|Hne].
  - rewrite list_lookup_insert_eq by (by eapply lookup_lt_Some).
    eexists. split; [done|]. simpl. congruence.
  - rewrite list_lookup_insert_ne by done. by exists po0.
Qed.

Lemma pool_ready_alloc w pool w1 res s h :
  alloc_case w pool w1 res s -> pool_ready w h -> pool_ready w1 h.
Proof.
  intros [po Hl Hf|po Hl Hf Hm|po m Hl Hf Hm] Hr; try done.
  apply lookup_pool_Some in Hl as [_ Hl].
  by eapply pool_ready_lookup_insert.
Qed.

Lemma pool_ready_errorCheck w res h : pool_ready w h -> pool_ready (vk2dErrorCheck w res) h.
Proof. unfold vk2dErrorCheck. by destruct (VkResult_eqb res VK_SUCCESS). Qed.

Lemma set_valid_insert w w1 (i : nat) po po' s :
  devPools w !! i = Some po ->
  devPools w1 = <[i := po']> (devPools w) ->
  (forall x, x ∈ poolLive po -> x ∈ poolLive po') ->
  set_valid w s -> set_valid w1 s.
Proof.
  intros Hi Hw Hsub (Hn & po0 & Hin & Hs). split; [done|].
  apply list_elem_of_lookup in Hin as [j Hj].
  destruct (decide (i = j)) as [<-|Hne].
  - exists po'. split.
    + rewrite Hw. apply list_elem_of_lookup. exists i.
      apply list_lookup_insert_eq. by eapply lookup_lt_Some.
    + apply Hsub. congruence.
  - exists po0. split; [|done]. rewrite Hw. apply list_elem_of_lookup. exists j.
    by rewrite list_lookup_insert_ne.
Qed.

(** What a served allocation gives. *)
Lemma alloc_served_facts w pool w1 s :
  alloc_case w pool w1 VK_SUCCESS s ->
  s = S (devNextSet w) /\ devNextSet w1 = s
  /\ devMemory w = S (devMemory w1) /\ hostMemory w1 = hostMemory w
  /\ set_valid w1 s /\ (forall x, set_valid w x -> set_valid w1 x).
Proof.
  intros Hc. inversion Hc as [| |po m Hl Hf Hm]; subst.
  apply lookup_pool_Some in Hl as [Hr Hl].
  split; [done|]. split; [done|]. split; [done|]. split; [done|]. split.
  - split; [done|].
    exists (mkPoolObj (poolInfo po) (poolLive po ++ [S (devNextSet w)])). split.
    + simpl. apply list_elem_of_lookup. exists (Nat.pred pool).
      apply list_lookup_insert_eq. by eapply lookup_lt_Some.
    + simpl. apply elem_of_app. right. by apply list_elem_of_singleton.
  - intros x. eapply set_valid_insert; [done|done|].
    intros y Hy. simpl. apply elem_of_app. by left.
Qed.

Lemma alloc_not_refused w pool w1 res s po :
  alloc_case w pool w1 res s ->
  lookup_pool w pool = Some po -> pool_full po = false -> (1 <= devMemory w)%nat ->
  res = VK_SUCCESS.
Proof.
  intros [po' Hl Hf|po' Hl Hf Hm|po' m Hl Hf Hm] Hl' Hf' Hmem; try done; [congruence|lia].
Qed.

Lemma wf_alloc dc w pool w1 res s evs :
  wf dc w -> alloc_case (add_trace w evs) pool w1 res s -> wf dc (vk2dErrorCheck w1 res).
Proof.
  intros [Hinv Hsl Hkinds] Hc. split; [by eapply alloc_case_inv| |done].
  intros k Hk. destruct (Hsl k Hk) as (h & Hh & Hr). exists h. split; [done|].
  apply pool_ready_errorCheck. by eapply pool_ready_alloc.
Qed.

(** An exhausted scan changes nothing but the trace, so the first pool
    that is not exhausted is the one that answers. *)
Lemma served_pool_not_full w hs h w1 res s :
  alloc_case (add_trace w (oom_events hs)) h w1 res s ->
  res <> VK_ERROR_OUT_OF_POOL_MEMORY ->
  exists po, lookup_pool w h = Some po /\ pool_full po = false.
Proof. intros [po Hl Hf|po Hl Hf Hm|po m Hl Hf Hm] Hne; try done; by exists po. Qed.

Lemma scan_ready (hs : list handle) : forall w,
  Forall (pool_ready w) hs -> spec_scan w (map Some hs) <> ScanInvalid.
Proof.
  induction hs as [|h hs IH]; intros w Hr; [done|].
  apply Forall_cons in Hr as [(po & Hl & _) Hr].
  cbn [map spec_scan]. unfold vkAllocateDescriptorSets. rewrite Hl.
  destruct (pool_full po).
  - rewrite VkResult_eqb_refl. by apply IH.
  - destruct (devMemory w); by rewrite VkResult_eqb_false.
Qed.

Lemma errorCheck_success w : vk2dErrorCheck w VK_SUCCESS = w.
Proof. reflexivity. Qed.

(** The pool just appended, seen from the world after the allocation
    that follows. *)
Lemma lookup_pool_after_append w info l m host tr h po :
  lookup_pool w h = Some po ->
  exists po',
    lookup_pool
      (mkWorld (<[length (devPools w) := mkPoolObj info l]> (devPools w ++ [mkPoolObj info []]))
               (S (devNextSet w)) m host tr) h = Some po'
    /\ poolInfo po' = poolInfo po /\ poolLive po' = poolLive po.
Proof.
  intros Hl. apply lookup_pool_Some in Hl as [Hr Hl].
  exists po. unfold lookup_pool, is_null, VK_NULL_HANDLE.
  destruct (Nat.eqb_spec h 0); [lia|]. simpl.
  rewrite list_lookup_insert_ne by lia. by rewrite lookup_app_l by lia.
Qed.

(** One call on a controller whose pools exist, on a device and a host
    with memory to spare, returns a set never issued before. *)
Lemma spec_getSet_serves dc w :
  wf dc w -> (2 <= devMemory w)%nat -> (Z.to_nat EXT <= hostMemory w)%nat ->
  exists dc' w',
    spec_getSet dc w = Ok (S (devNextSet w), dc', w')
    /\ wf dc' w'
    /\ devNextSet w' = S (devNextSet w)
    /\ (devMemory w <= devMemory w' + 2)%nat
    /\ (hostMemory w <= hostMemory w' + Z.to_nat EXT)%nat
    /\ set_valid w' (S (devNextSet w))
    /\ (forall x, set_valid w x -> set_valid w' x).
Proof.
  intros Hwf Hdev Hhost. destruct (wf_in_use _ _ Hwf) as (hs & Hin & Hready & Hlen).
  pose proof (wf_inv _ _ _ _ _ Hwf) as Hinv.
  pose proof (inv_no_wrap _ _ Hinv) as Hnw.
  pose proof (inv_pos _ _ _ Hinv) as Hpos.
  pose proof (spec_scan_inv (in_use dc) w) as Hscan.
  pose proof (scan_ready hs w Hready) as Hvalid. rewrite <- Hin in Hvalid.
  destruct (spec_scan w (in_use dc)) as [w1 res s1|w1|] eqn:Hsc; [| |done].
  - destruct Hscan as (hs0 & h & rest & _ & _ & Hc & Hne).
    destruct (served_pool_not_full _ _ _ _ _ _ Hc Hne) as (po & Hl & Hf).
    assert (res = VK_SUCCESS) as -> by (eapply alloc_not_refused; [done..|simpl; lia]).
    destruct (alloc_served_facts _ _ _ _ Hc) as (-> & Hn & Hm & Hh & Hv & Hvs).
    exists dc, w1. unfold DescriptorControl.spec_getSet. rewrite Hsc.
    rewrite errorCheck_success. simpl in *.
    split; [done|]. split; [by apply (wf_alloc _ _ _ _ _ _ _ Hwf Hc)|].
    repeat split; try done; try lia; by apply Hv || by apply Hvs.
  - destruct Hscan as (hs0 & Hin0 & Hex0 & ->).
    destruct (append_returns dc (add_trace w (oom_events hs0))) as [[dc2 w2] Ha];
      [destruct Hinv; simpl; lia..|exact (wf_kinds _ _ _ _ _ Hwf)|].
    pose proof Ha as Ha'.
    apply append_cases in Ha'; [|destruct Hinv; simpl; lia..].
    destruct Ha' as (slots1 & host1 & Hext & Hin1 & Hiu' & _ & _ & _ & _ & _ & Hcr).
    destruct Hcr as [(Hm & _)|(m & Hm & Hp & Hw2)]; [simpl in Hm; lia|].
    simpl in Hm.
    assert (Hslot : pools dc2 !!! Z.to_nat (poolsInUse dc) = Some (S (length (devPools w)))).
    { rewrite Hp. apply list_lookup_total_correct. apply list_lookup_insert_eq. lia. }
    destruct m as [|m']; [lia|].
    assert (Hspec : spec_getSet dc w
      = Ok (S (devNextSet w), dc2,
            mkWorld (<[length (devPools w) :=
                        mkPoolObj (pool_create_info ALLOC NOLOC dc) [S (devNextSet w)]]>
                       (devPools w ++ [mkPoolObj (pool_create_info ALLOC NOLOC dc) []]))
                    (S (devNextSet w)) m' host1
                    ((trace w ++ oom_events hs0
                        ++ [CallCreateDescriptorPool (pool_create_info ALLOC NOLOC dc)
                              VK_SUCCESS (S (length (devPools w)))])
                       ++ [CallAllocateDescriptorSets (S (length (devPools w))) VK_SUCCESS
                             (S (devNextSet w))]))).
    { unfold DescriptorControl.spec_getSet. rewrite Hsc, Ha. cbn [obind].
      rewrite Hslot, Hw2. cbn [spec_scan]. unfold vkAllocateDescriptorSets, lookup_pool.
      cbn [is_null VK_NULL_HANDLE Nat.eqb Nat.pred devPools devNextSet trace add_trace].
      rewrite list_lookup_middle by done. rewrite fresh_pool_not_full.
      cbn [devMemory VkResult_eqb poolInfo poolLive app devNextSet hostMemory trace].
      rewrite errorCheck_success. by rewrite <- !app_assoc. }
    eexists _, _. split; [exact Hspec|].
    pose proof (spec_getSet_inv _ _ _ _ _ Hinv Hspec) as Hinv'.
    split; [|cbn [devNextSet devMemory hostMemory]].
    { split; [done| |exact (proj2 (append_fits _ _ _ _ Ha))]. intros k Hk.
      destruct (decide (k = Z.to_nat (poolsInUse dc))) as [->|Hne].
      - exists (S (length (devPools w))). split.
        + rewrite Hp. apply list_lookup_insert_eq. lia.
        + eexists. split.
          * unfold lookup_pool. cbn [is_null VK_NULL_HANDLE Nat.eqb Nat.pred devPools].
            apply list_lookup_insert_eq. rewrite length_app. simpl. lia.
          * done.
      - destruct (wf_slots _ _ _ _ _ Hwf k) as (h & Hh & po & Hl & Hmx); [lia|].
        exists h. split.
        + rewrite Hp, list_lookup_insert_ne by done.
          destruct (poolListSize dc =? poolsInUse dc).
          * destruct Hext as (-> & _). by apply lookup_app_l_Some.
          * by destruct Hext as (-> & _).
        + destruct (lookup_pool_after_append w (pool_create_info ALLOC NOLOC dc)
                      [S (devNextSet w)] m' host1
                      ((trace w ++ oom_events hs0
                        ++ [CallCreateDescriptorPool (pool_create_info ALLOC NOLOC dc)
                              VK_SUCCESS (S (length (devPools w)))])
                       ++ [CallAllocateDescriptorSets (S (length (devPools w))) VK_SUCCESS
                             (S (devNextSet w))]) h po Hl) as (po' & Hl' & Hi' & _).
          exists po'. split; [done|congruence]. }
    split; [done|]. split; [lia|].
    split.
    { destruct (poolListSize dc =? poolsInUse dc).
      - destruct Hext as (_ & Hh1 & _). simpl in Hh1. lia.
      - destruct Hext as (_ & -> & _). simpl. lia. }
    split.
    { split; [done|]. eexists. split.
      - cbn [devPools]. apply list_elem_of_lookup. exists (length (devPools w)).
        apply list_lookup_insert_eq. rewrite length_app. simpl. lia.
      - simpl. by apply list_elem_of_singleton. }
    intros x (Hx & po & Hpo & Hxs). split; [done|]. exists po. split; [|done].
    cbn [devPools]. apply list_elem_of_lookup in Hpo as [j Hj].
    apply list_elem_of_lookup. exists j.
    rewrite list_lookup_insert_ne by (apply lookup_lt_Some in Hj; lia).
    by apply lookup_app_l_Some.
Qed.

(** [n] calls in a row. *)
Lemma getSets_serve (n : nat) : forall dc w,
  wf dc w -> (2 * n <= devMemory w)%nat -> (n * Z.to_nat EXT <= hostMemory w)%nat ->
  exists sets dc' w',
    getSets n dc w = Ok (sets, dc', w')
    /\ wf dc' w'
    /\ length sets = n
    /\ Forall (fun s => (devNextSet w < s)%nat) sets
    /\ Forall (set_valid w') sets
    /\ NoDup sets
    /\ (forall x, set_valid w x -> set_valid w' x).
Proof.
  induction n as [|n IH]; intros dc w Hwf Hdev Hhost.
  - exists [], dc, w.
    split; [done|]. split; [done|]. split; [done|].
    split; [constructor|]. split; [constructor|]. split; [constructor|done].
  - destruct (spec_getSet_serves dc w) as (dc1 & w1 & Hs & Hwf1 & Hn1 & Hd1 & Hh1 & Hv1 & Hvs1);
      [done|lia|lia|].
    destruct (IH dc1 w1) as (sets & dc' & w' & Hg & Hwf' & Hl & Hgt & Hv & Hnd & Hvs);
      [done|lia|lia|].
    exists (S (devNextSet w) :: sets), dc', w'.
    cbn [DescriptorControl.getSets].
    rewrite (getSet_refines dc w (enough_fuel dc) (wf_inv _ _ _ _ _ Hwf) (Nat.le_refl _)).
    rewrite Hs. cbn [obind]. rewrite Hg. cbn [obind].
    split; [done|]. split; [done|]. split; [simpl; congruence|].
    split.
    { constructor; [lia|]. eapply Forall_impl; [exact Hgt|]. intros s Hs'. simpl in Hs'. lia. }
    split; [constructor; [by apply Hvs|done]|].
    split.
    { constructor; [|done]. intros Hin.
      rewrite Forall_forall in Hgt. specialize (Hgt _ Hin). lia. }
    intros x Hx. by apply Hvs, Hvs1.
Qed.

(** A null set is returned only by a device that has no memory left. *)
Lemma getSet_null_device_oom dc w (fuel : nat) s dc' w' :
  inv dc w -> getSet fuel dc w = Ok (s, dc', w') ->
  s = VK_NULL_HANDLE -> devMemory w' = 0%nat.
Proof.
  intros Hinv Hg Hs. apply getSet_returns_spec in Hg; [|done].
  assert (Hcase : forall w0 h w1 res s1,
            alloc_case w0 h w1 res s1 -> res <> VK_ERROR_OUT_OF_POOL_MEMORY ->
            s1 = VK_NULL_HANDLE -> devMemory (vk2dErrorCheck w1 res) = 0%nat).
  { intros w0 h w1 res s1 [po Hl Hf|po Hl Hf Hm|po m Hl Hf Hm] Hne Hnull; done. }
  unfold DescriptorControl.spec_getSet in Hg.
  pose proof (spec_scan_inv (in_use dc) w) as Hscan.
  destruct (spec_scan w (in_use dc)) as [w1 res s1|w1|]; [| |done].
  - destruct Hscan as (hs & h & rest & _ & _ & Hc & Hne).
    injection Hg as <- <- <-. by eapply Hcase.
  - destruct (append dc w1) as [[dc2 w2]| |]; try done. cbn [obind] in Hg.
    pose proof (spec_scan_inv [pools dc2 !!! Z.to_nat (poolsInUse dc)] w2) as Hscan2.
    destruct (spec_scan w2 _) as [w3 res s3|w3|]; [|done|done].
    destruct Hscan2 as (hs2 & h2 & rest2 & _ & _ & Hc & Hne).
    injection Hg as <- <- <-. by eapply Hcase.
Qed.

(** *** Reset *)

Local Abbreviation cycle := (cycle EXT ALLOC NOLOC).
Local Abbreviation cycles := (cycles EXT ALLOC NOLOC).

Lemma drop_eq_cons {A} (l : list A) (n : nat) x rest :
  drop n l = x :: rest -> l !! n = Some x /\ drop (S n) l = rest.
Proof.
  intros H. split.
  - rewrite <- (Nat.add_0_r n), <- lookup_drop, H. done.
  - replace (S n) with (n + 1)%nat by lia. rewrite <- drop_drop, H. done.
Qed.

(** What a pool reset leaves of the other pools and of this one. *)
Lemma reset_pool_lookup w h w1 :
  vkResetDescriptorPool w h = Some w1 ->
  trace w1 = trace w ++ [CallResetDescriptorPool h]
  /\ devNextSet w1 = devNextSet w /\ hostMemory w1 = hostMemory w
  /\ (devMemory w <= devMemory w1)%nat
  /\ (forall h' po, lookup_pool w h' = Some po ->
        exists po', lookup_pool w1 h' = Some po' /\ poolInfo po' = poolInfo po
                    /\ (if Nat.eqb h' h then poolLive po' = []
                        else poolLive po' = poolLive po)).
Proof.
  unfold vkResetDescriptorPool.
  destruct (lookup_pool w h) as [po|] eqn:Hl; [|done]. intros [= <-].
  apply lookup_pool_Some in Hl as [Hr Hl]. simpl.
  split; [done|]. split; [done|]. split; [done|]. split; [lia|].
  intros h' po' Hl'. apply lookup_pool_Some in Hl' as [Hr' Hl'].
  unfold lookup_pool, is_null, VK_NULL_HANDLE. simpl.
  destruct (Nat.eqb_spec h' 0); [lia|].
  destruct (Nat.eqb_spec h' h) as [->|Hne].
  - rewrite list_lookup_insert_eq by (by eapply lookup_lt_Some).
    eexists. split; [done|]. simpl. split; [congruence|done].
  - rewrite list_lookup_insert_ne by lia. by exists po'.
Qed.

(** The loop of [vk2dDescConReset] over the slots still to visit. *)
Lemma reset_loop_spec dc (hs : list handle) : forall w (i : Z),
  0 <= i ->
  drop (Z.to_nat i) (pools dc) = map Some hs ++ drop (Z.to_nat i + length hs) (pools dc) ->
  Forall (fun h => is_Some (lookup_pool w h)) hs ->
  exists w',
    reset_loop (length hs) dc w i = Ok w'
    /\ trace w' = trace w ++ map CallResetDescriptorPool hs
    /\ devNextSet w' = devNextSet w /\ hostMemory w' = hostMemory w
    /\ (devMemory w <= devMemory w')%nat
    /\ (forall h po, lookup_pool w h = Some po ->
          exists po', lookup_pool w' h = Some po' /\ poolInfo po' = poolInfo po
                      /\ (poolLive po' = [] \/ ((h ∉ hs) /\ poolLive po' = poolLive po))).
Proof.
  induction hs as [|h hs IH]; intros w i Hi Hdrop Hex.
  - exists w. simpl. rewrite app_nil_r. repeat split; try done.
    intros h po Hl. exists po. repeat split; try done. right. split; [|done].
    apply not_elem_of_nil.
  - apply Forall_cons in Hex as [[po0 Hl0] Hex].
    cbn [map app] in Hdrop. apply drop_eq_cons in Hdrop as [Hslot Hdrop].
    cbn [length reset_loop]. rewrite read_pool_lookup, Hslot by done. cbn [mjoin option_join].
    destruct (vkResetDescriptorPool w h) as [w1|] eqn:Hr.
    2:{ unfold vkResetDescriptorPool in Hr. by rewrite Hl0 in Hr. }
    destruct (reset_pool_lookup _ _ _ Hr) as (Ht1 & Hn1 & Hh1 & Hm1 & Hlk1).
    destruct (IH w1 (i + 1)) as (w' & Hloop & Ht & Hn & Hh & Hm & Hlk).
    + lia.
    + replace (Z.to_nat (i + 1)) with (S (Z.to_nat i)) by lia.
      rewrite Hdrop. f_equal. f_equal. simpl. lia.
    + eapply Forall_impl; [exact Hex|]. intros h' [po' Hl'].
      destruct (Hlk1 _ _ Hl') as (po'' & Hl'' & _). by exists po''.
    + exists w'. split; [done|]. split.
      { rewrite Ht, Ht1. cbn [map]. by rewrite <- app_assoc. }
      split; [congruence|]. split; [congruence|]. split; [lia|].
      intros h' po Hl. destruct (Hlk1 _ _ Hl) as (po1 & Hl1 & Hi1 & Hlive1).
      destruct (Hlk _ _ Hl1) as (po2 & Hl2 & Hi2 & Hlive2).
      exists po2. split; [done|]. split; [congruence|].
      destruct Hlive2 as [He|[Hnin He]]; [by left|].
      destruct (Nat.eqb_spec h' h) as [->|Hne].
      * left. congruence.
      * right. split; [|congruence]. by apply not_elem_of_cons.
Qed.

Lemma in_use_drop_all dc hs :
  in_use dc = map Some hs -> length hs = Z.to_nat (poolsInUse dc) ->
  drop (Z.to_nat 0) (pools dc) = map Some hs ++ drop (Z.to_nat 0 + length hs) (pools dc).
Proof.
  intros Hin Hlen. change (Z.to_nat 0) with 0%nat. rewrite drop_0. simpl.
  rewrite <- Hin, Hlen. unfold in_use. by rewrite take_drop.
Qed.

(** [vk2dDescConReset] on a controller whose pools exist: one driver
    reset per pool in use, in order, and nothing else. *)
Lemma reset_spec dc w :
  wf dc w ->
  exists w' hs,
    reset dc w = Ok w'
    /\ in_use dc = map Some hs
    /\ length hs = Z.to_nat (poolsInUse dc)
    /\ trace w' = trace w ++ map CallResetDescriptorPool hs
    /\ wf dc w'
    /\ (devMemory w <= devMemory w')%nat
    /\ (forall h, h ∈ hs ->
          exists po, lookup_pool w' h = Some po /\ poolLive po = []).
Proof.
  intros Hwf. destruct (wf_in_use _ _ Hwf) as (hs & Hin & Hready & Hlen).
  destruct (reset_loop_spec dc hs w 0) as (w' & Hloop & Ht & Hn & Hh & Hm & Hlk).
  - done.
  - by apply in_use_drop_all.
  - eapply Forall_impl; [exact Hready|]. intros h (po & Hl & _). by exists po.
  - exists w', hs. unfold vk2dDescConReset. rewrite <- Hlen.
    split; [done|]. split; [done|]. split; [done|]. split; [done|].
    split; [|split; [done|]].
    + split.
      * eapply reset_inv; [by apply (wf_inv _ _ _ _ _ Hwf)|].
        unfold vk2dDescConReset. by rewrite <- Hlen.
      * intros k Hk. destruct (wf_slots _ _ _ _ _ Hwf k Hk) as (h & Hh' & po & Hl & Hmx).
        exists h. split; [done|].
        destruct (Hlk _ _ Hl) as (po' & Hl' & Hi' & _). exists po'. split; [done|congruence].
      * exact (wf_kinds _ _ _ _ _ Hwf).
    + intros h Hh'. rewrite Forall_forall in Hready.
      destruct (Hready h Hh') as (po & Hl & _).
      destruct (Hlk _ _ Hl) as (po' & Hl' & _ & [He|[Hnin _]]); [|done].
      by exists po'.
Qed.

(** *** Frames: a reset, then at most one pool's worth of sets *)

Lemma wf_first_pool dc w h0 hs po :
  wf dc w -> in_use dc = map Some (h0 :: hs) -> lookup_pool w h0 = Some po ->
  maxSets (poolInfo po) = ALLOC.
Proof.
  intros Hwf Hin Hl.
  destruct (wf_slots _ _ _ _ _ Hwf 0%nat) as (h & Hh & po1 & Hl1 & Hmx).
  { pose proof (inv_pos _ _ _ (wf_inv _ _ _ _ _ Hwf)). lia. }
  assert (in_use dc !! 0%nat = Some (Some h0)) as H0 by (by rewrite Hin).
  unfold in_use in H0. apply lookup_take_Some in H0 as [H0 _].
  rewrite Hh in H0. injection H0 as ->. congruence.
Qed.

(** While the first pool has room it answers every call, and the
    controller is left as it was. *)
Lemma first_pool_serves dc w h0 hs po :
  wf dc w -> in_use dc = map Some (h0 :: hs) -> lookup_pool w h0 = Some po ->
  Z.of_nat (length (poolLive po)) < ALLOC ->
  exists s w',
    spec_getSet dc w = Ok (s, dc, w')
    /\ wf dc w'
    /\ (exists evs, trace w' = trace w ++ evs
                    /\ Forall (fun c => served_by h0 c = true) evs)
    /\ (exists po', lookup_pool w' h0 = Some po'
                    /\ (length (poolLive po') <= S (length (poolLive po)))%nat).
Proof.
  intros Hwf Hin Hl Hroom.
  pose proof (wf_first_pool _ _ _ _ _ Hwf Hin Hl) as Hmx.
  assert (Hf : pool_full po = false) by (unfold pool_full; apply Z.leb_gt; lia).
  unfold DescriptorControl.spec_getSet. rewrite Hin. cbn [map spec_scan].
  destruct (vkAllocateDescriptorSets w h0) as [[[w1 res] s]|] eqn:Ha.
  2:{ unfold vkAllocateDescriptorSets in Ha. rewrite Hl, Hf in Ha.
      by destruct (devMemory w). }
  apply alloc_inv in Ha.
  assert (Hwf1 : wf dc (vk2dErrorCheck w1 res)).
  { eapply wf_alloc; [done|]. by rewrite add_trace_nil. }
  inversion Ha as [po1 Hl1 Hf1|po1 Hl1 Hf1 Hm|po1 m Hl1 Hf1 Hm]; subst;
    [congruence|..]; cbn [VkResult_eqb].
  - eexists _, _. split; [done|]. split; [done|]. split.
    + eexists. split; [cbn; by rewrite <- app_assoc|].
      repeat constructor. simpl. by rewrite Nat.eqb_refl.
    + exists po. split; [done|lia].
  - eexists _, _. split; [done|]. split; [done|]. split.
    + eexists. split; [cbn; done|].
      repeat constructor. simpl. by rewrite Nat.eqb_refl.
    + apply lookup_pool_Some in Hl as [Hr Hl].
      eexists. split.
      * unfold lookup_pool, is_null, VK_NULL_HANDLE. simpl.
        destruct (Nat.eqb_spec h0 0); [lia|].
        apply list_lookup_insert_eq. by eapply lookup_lt_Some.
      * assert (po1 = po) as -> by (apply lookup_pool_Some in Hl1 as [_ Hl1]; congruence).
        simpl. rewrite length_app. simpl. lia.
Qed.

Lemma getSets_first_pool dc h0 hs (n : nat) : forall w po,
  wf dc w -> in_use dc = map Some (h0 :: hs) -> lookup_pool w h0 = Some po ->
  Z.of_nat (length (poolLive po)) + Z.of_nat n <= ALLOC ->
  exists sets w',
    getSets n dc w = Ok (sets, dc, w')
    /\ wf dc w'
    /\ length sets = n
    /\ (exists evs, trace w' = trace w ++ evs
                    /\ Forall (fun c => served_by h0 c = true) evs).
Proof.
  induction n as [|n IH]; intros w po Hwf Hin Hl Hroom.
  - exists [], w. split; [done|]. split; [done|]. split; [done|].
    exists []. by rewrite app_nil_r.
  - destruct (first_pool_serves dc w h0 hs po) as (s & w1 & Hs & Hwf1 & (evs1 & Ht1 & He1)
                                                     & po1 & Hl1 & Hlen1); [done..|lia|].
    destruct (IH w1 po1) as (sets & w' & Hg & Hwf' & Hlen & evs & Ht & He); [done..|lia|].
    exists (s :: sets), w'. cbn [DescriptorControl.getSets].
    rewrite (getSet_refines dc w (enough_fuel dc) (wf_inv _ _ _ _ _ Hwf) (Nat.le_refl _)).
    rewrite Hs. cbn [obind]. rewrite Hg. cbn [obind].
    split; [done|]. split; [done|]. split; [simpl; congruence|].
    exists (evs1 ++ evs). split; [by rewrite Ht, Ht1, app_assoc|].
    by apply Forall_app.
Qed.

Lemma cycle_stable dc w (n : nat) :
  wf dc w -> Z.of_nat n <= ALLOC ->
  exists sets w' h0 rest,
    cycle n dc w = Ok (sets, dc, w')
    /\ wf dc w'
    /\ length sets = n
    /\ in_use dc = map Some (h0 :: rest)
    /\ (exists evs,
          trace w' = trace w ++ map CallResetDescriptorPool (h0 :: rest) ++ evs
          /\ Forall (fun c => served_by h0 c = true) evs).
Proof.
  intros Hwf Hn.
  destruct (reset_spec dc w Hwf) as (w1 & hs & Hr & Hin & Hlen & Ht & Hwf1 & _ & Hempty).
  destruct hs as [|h0 rest].
  { pose proof (inv_pos _ _ _ (wf_inv _ _ _ _ _ Hwf)). simpl in Hlen. lia. }
  destruct (Hempty h0) as (po & Hl & Hlive); [by apply list_elem_of_here|].
  destruct (getSets_first_pool dc h0 rest n w1 po)
    as (sets & w' & Hg & Hwf' & Hlen' & evs & Ht' & He); [done..|rewrite Hlive; simpl; lia|].
  exists sets, w', h0, rest. unfold DescriptorControl.cycle. rewrite Hr. cbn [obind].
  split; [done|]. split; [done|]. split; [done|]. split; [done|].
  exists evs. split; [|done]. by rewrite Ht', Ht, <- app_assoc.
Qed.

Lemma cycles_stable (ns : list nat) : forall dc w,
  wf dc w -> Forall (fun n => Z.of_nat n <= ALLOC) ns ->
  exists w', cycles ns dc w = Ok (dc, w') /\ wf dc w'.
Proof.
  induction ns as [|n ns IH]; intros dc w Hwf Hns.
  - by exists w.
  - apply Forall_cons in Hns as [Hn Hns].
    destruct (cycle_stable dc w n Hwf Hn) as (sets & w1 & h0 & rest & Hc & Hwf1 & _).
    destruct (IH dc w1 Hwf1 Hns) as (w' & Hcs & Hwf').
    exists w'. cbn [DescriptorControl.cycles]. rewrite Hc. cbn [obind]. done.
Qed.

Lemma create_wf w d l b s sb dc w' :
  device_budget w + EXT + 2 < UINT32_MOD -> (1 <= devMemory w)%nat ->
  create w d l b s sb = Ok (Some dc, w') -> wf dc w'.
Proof.
  intros Hb Hmem Hc.
  assert (Hkinds : sizes_fit ALLOC NOLOC dc = true).
  { unfold vk2dDescConCreate in Hc. destruct (hostMemory w); [done|].
    destruct (append _ _) as [[out' w2]| |] eqn:Ha; try done.
    injection Hc as <- <-. exact (proj2 (append_fits _ _ _ _ Ha)). }
  split; [by eapply create_inv| |done].
  unfold vk2dDescConCreate in Hc.
  destruct (hostMemory w) as [|m] eqn:Hm; [done|].
  destruct (append _ _) as [[out' w2]| |] eqn:Ha; try done.
  injection Hc as <- <-.
  pose proof (device_budget_nonneg w).
  apply append_cases in Ha; try done; simpl; unfold UINT32_MOD in *; try lia.
  destruct Ha as (slots1 & host1 & Hext & _ & Hiu' & _ & _ & _ & _ & _ & Hcr).
  simpl in *. destruct Hext as (-> & _ & _).
  destruct Hcr as [(Hm0 & _)|(m' & _ & Hp & ->)]; [lia|].
  intros k Hk. assert (k = 0%nat) as -> by lia.
  exists (S (length (devPools w))). split.
  - rewrite Hp. apply list_lookup_insert_eq. rewrite length_replicate. lia.
  - eexists. split.
    + unfold lookup_pool. cbn [is_null VK_NULL_HANDLE Nat.eqb Nat.pred devPools].
      by apply list_lookup_middle.
    + reflexivity.
Qed.

(** *** The statements of the design document *)




(** *** Edges of [_vk2dDescConAppendList] and [vk2dDescConCreate] *)

Lemma sizes_fit_fields (dc1 dc2 : VK2DDescCon) :
  buffer dc1 = buffer dc2 -> sampler dc1 = sampler dc2 ->
  storageBuffer dc1 = storageBuffer dc2 ->
  sizes_fit ALLOC NOLOC dc1 = sizes_fit ALLOC NOLOC dc2.
Proof. intros Hb Hs Hsb. unfold sizes_fit, pool_sizes. by rewrite Hb, Hs, Hsb. Qed.

Lemma append_overrun dc w :
  sizes_fit ALLOC NOLOC dc = false -> append dc w = Fault.
Proof.
  intros Hf. unfold _vk2dDescConAppendList.
  destruct (poolListSize dc =? poolsInUse dc).
  - destruct (realloc w (pools dc) _) as [w1 [l|]]; cbn [vk2dPointerCheck].
    + rewrite (sizes_fit_fields _ dc) by done. by rewrite Hf.
    + by rewrite Hf.
  - by rewrite Hf.
Qed.

(** X14.  The array [sizes] of [_vk2dDescConAppendList] has two
    elements and one is stored per enabled location: with the buffer, the
    sampler and the storage-buffer location all enabled the third store is
    outside the array, in every call of [_vk2dDescConAppendList] and so in
    every [vk2dDescConCreate] whose [calloc] succeeds.  With at most two
    enabled the stores stay inside. *)
Theorem three_kinds_overrun_sizes dc :
  (sizes_fit ALLOC NOLOC dc = false
   <-> buffer dc <> NOLOC /\ sampler dc <> NOLOC /\ storageBuffer dc <> NOLOC)
  /\ (forall w, sizes_fit ALLOC NOLOC dc = false -> append dc w = Fault)
  /\ (forall w d l,
        sizes_fit ALLOC NOLOC dc = false -> hostMemory w <> 0%nat ->
        create w d l (buffer dc) (sampler dc) (storageBuffer dc) = Fault).
Proof.
  split; [|split].
  - unfold sizes_fit, pool_sizes.
    destruct (Z.eqb_spec (buffer dc) NOLOC), (Z.eqb_spec (sampler dc) NOLOC),
      (Z.eqb_spec (storageBuffer dc) NOLOC); cbn [app length Nat.leb];
      split; try done; intros (? & ? & ?); done.
  - intros w Hf. by apply append_overrun.
  - intros w d l Hf Hh. unfold vk2dDescConCreate.
    destruct (hostMemory w) as [|m]; [done|].
    rewrite append_overrun; [done|].
    by rewrite (sizes_fit_fields _ dc).
Qed.

Lemma append_without_room dc w :
  poolListSize dc = poolsInUse dc -> 0 <= poolListSize dc ->
  Z.of_nat (length (pools dc)) = poolListSize dc ->
  poolListSize dc + EXT < UINT32_MOD ->
  (hostMemory w < Z.to_nat EXT)%nat ->
  append dc w = Fault.
Proof.
  intros Heq Hpos Hlen Hu Hh. unfold _vk2dDescConAppendList.
  rewrite Heq, Z.eqb_refl. rewrite <- Heq.
  rewrite (wrap32_small (poolListSize dc + EXT)) by lia.
  unfold realloc. destruct (Z.leb_spec (poolListSize dc + EXT) 0); [lia|].
  destruct (Nat.leb_spec (Z.to_nat (poolListSize dc + EXT) - length (pools dc))
              (hostMemory w)) as [Hle|_]; [lia|].
  cbn [vk2dPointerCheck]. destruct (negb _); [done|].
  rewrite <- Heq at 2. rewrite <- Hlen.
  destruct (Z.ltb_spec (Z.of_nat (length (pools dc))) (Z.of_nat (length (pools dc))));
    [lia|]. by rewrite andb_false_r.
Qed.


(** X16.  A device that refuses the first pool.  [vk2dDescConCreate]
    then still returns a controller, with one pool counted in use whose
    slot was never written; the refusal is logged.  The first
    [vk2dDescConGetSet] and the first [vk2dDescConReset] on it read that
    slot. *)
Theorem create_on_exhausted_device w d l b s sb :
  EXT < UINT32_MOD -> devMemory w = 0%nat -> (Z.to_nat EXT < hostMemory w)%nat ->
  sizes_fit ALLOC NOLOC (mkDescCon d l b s sb [] 0 0) = true ->
  exists dc w',
    create w d l b s sb = Ok (Some dc, w')
    /\ poolsInUse dc = 1
    /\ pools dc = replicate (Z.to_nat EXT) None
    /\ trace w'
       = trace w ++ [CallCreateDescriptorPool (pool_create_info ALLOC NOLOC dc)
                       VK_ERROR_OUT_OF_DEVICE_MEMORY VK_NULL_HANDLE;
                     CallLogError VK_ERROR_OUT_OF_DEVICE_MEMORY]
    /\ (forall fuel, getSet (S fuel) dc w' = Fault)
    /\ reset dc w' = Fault.
Proof.
  intros Hu Hdev Hhost Hfit. unfold vk2dDescConCreate.
  destruct (hostMemory w) as [|m] eqn:Hm; [lia|].
  destruct (append_returns (mkDescCon d l b s sb [] 0 0)
              (mkWorld (devPools w) (devNextSet w) (devMemory w) m (trace w)))
    as [[dc w'] Ha]; cbn [poolsInUse poolListSize pools length hostMemory];
    try done; try lia.
  rewrite Ha. cbn [obind].
  apply append_cases in Ha; cbn [poolsInUse poolListSize pools length]; try done; try lia.
  destruct Ha as (slots1 & host1 & Hext & _ & Hiu & _ & _ & Hb & Hs & Hsb & Hcr).
  cbn [poolsInUse poolListSize pools Z.eqb devMemory hostMemory trace devPools devNextSet]
    in *.
  destruct Hext as (-> & _ & _).
  destruct Hcr as [(_ & Hp & ->)|(m' & Hm' & _)]; [|lia].
  cbn [app] in Hp.
  assert (Hinfo : pool_create_info ALLOC NOLOC dc
                  = pool_create_info ALLOC NOLOC (mkDescCon d l b s sb [] 0 0)).
  { unfold pool_create_info, pool_sizes. by rewrite Hb, Hs, Hsb. }
  assert (Hread : read_pool dc 0 = None).
  { unfold read_pool. rewrite Hp. cbn [Z.leb Z.compare].
    change (Z.to_nat 0) with 0%nat.
    destruct (Z.to_nat EXT) as [|n] eqn:He; [lia|]. done. }
  exists dc, (mkWorld (devPools w) (devNextSet w) 0 host1
                (trace w ++ [CallCreateDescriptorPool
                               (pool_create_info ALLOC NOLOC (mkDescCon d l b s sb [] 0 0))
                               VK_ERROR_OUT_OF_DEVICE_MEMORY VK_NULL_HANDLE;
                             CallLogError VK_ERROR_OUT_OF_DEVICE_MEMORY])).
  split; [done|]. split; [lia|]. split; [done|]. split; [by rewrite Hinfo|].
  split.
  - intros fuel. unfold vk2dDescConGetSet, _vk2dDescConGetAvailableSet.
    rewrite loop_step by done. by rewrite Hread.
  - unfold vk2dDescConReset. rewrite Hiu. change (Z.to_nat (0 + 1)) with 1%nat.
    cbn [reset_loop]. by rewrite Hread.
Qed.

End Refinement.

(** *** The statements on the example build *)

Lemma example_wf : wf 2 2 (-1) Example.descCon Example.ready.
Proof.
  apply (create_wf 2 2 (-1) ltac:(lia) Example.world 1%nat 7%nat 0 1 (-1)).
  - vm_compute. reflexivity.
  - simpl. lia.
  - reflexivity.
Qed.





Lemma create_on_exhausted_device_witness :
  exists dc w',
    vk2dDescConCreate 2 2 (-1) Example.exhausted_device 1%nat 7%nat 0 1 (-1)
    = Ok (Some dc, w')
    /\ poolsInUse dc = 1
    /\ vk2dDescConGetSet 2 2 (-1) 1 dc w' = Fault.
Proof.
  destruct (create_on_exhausted_device 2 2 (-1) ltac:(lia) Example.exhausted_device
              1%nat 7%nat 0 1 (-1))
    as (dc & w' & Hc & Hn & _ & _ & Hg & _).
  - vm_compute. reflexivity.
  - reflexivity.
  - simpl. lia.
  - reflexivity.
  - exists dc, w'. split; [exact Hc|]. split; [exact Hn|exact (Hg 0%nat)].
Defined.

End DescriptorControlFacts.

Module RendererFacts.
Import Renderer.

Section WithParameters.
Context {P : Parameters}.

(** *** Array accesses *)

Lemma rd_Ok {A} (a : list A) (i : Z) x :
  rd a i = Ok x <-> 0 <= i /\ a !! Z.to_nat i = Some x.
Proof.
  unfold rd. destruct (Z.leb_spec 0 i).
  - destruct (a !! Z.to_nat i) as [y|]; split; intros H'; try done.
    + injection H' as ->. done.
    + destruct H' as [_ [= ->]]. done.
    + by destruct H'.
  - split; [done|]. intros [? _]. lia.
Qed.

Lemma rd_in_range {A} (a : list A) (i : Z) :
  0 <= i < Z.of_nat (length a) -> exists x, rd a i = Ok x.
Proof.
  intros H. destruct (lookup_lt_is_Some_2 a (Z.to_nat i)) as [x Hx]; [lia|].
  exists x. apply rd_Ok. split; [lia|done].
Qed.

Lemma wr_Ok {A} (a : list A) (i : Z) x l :
  wr a i x = Ok l <-> (0 <= i < Z.of_nat (length a)) /\ l = <[Z.to_nat i := x]> a.
Proof.
  unfold wr. destruct (Z.leb_spec 0 i); destruct (Z.ltb_spec i (Z.of_nat (length a)));
    cbn [andb]; split; intros H'; try done; try (destruct H'; lia).
  - injection H' as <-. split; [lia|done].
  - destruct H' as [_ ->]. done.
Qed.

Lemma wr_in_range {A} (a : list A) (i : Z) x :
  0 <= i < Z.of_nat (length a) -> wr a i x = Ok (<[Z.to_nat i := x]> a).
Proof. intros H. by apply wr_Ok. Qed.

Lemma rd_wr {A} (a : list A) (i : Z) x l :
  wr a i x = Ok l -> rd l i = Ok x.
Proof.
  intros [Hr ->]%wr_Ok. apply rd_Ok. split; [lia|].
  apply list_lookup_insert_eq. lia.
Qed.

(** Projections of updated records. *)
Ltac simpl_renderer :=
  cbn [gRenderer gTextures gTrace emit set_gRenderer
       pd ld config newConfig resetSwapchain presentModes surfaceCapabilities
       surfaceWidth surfaceHeight swapchain swapchainImages swapchainImageCount
       framebuffers renderPass midFrameSwapRenderPass externalTargetRenderPass
       commandBuffer imageAvailableSemaphores renderFinishedSemaphores inFlightFences
       imagesInFlight currentFrame scImageIndex procedStartFrame targetFrameBuffer
       targetRenderPass targetSubPass targetImage targetUBOSet target cameras
       defaultCameraSpec cameraLocked colourBlend blendMode viewport
       enableTextureCameraUBO previousTime accumulatedTime amountOfFrames
       frameTimeAverage set_config set_newConfig set_resetSwapchain set_surfaceWidth
       set_surfaceHeight set_swapchain set_swapchainImages set_swapchainImageCount
       set_framebuffers set_renderPass set_midFrameSwapRenderPass
       set_externalTargetRenderPass set_commandBuffer set_imageAvailableSemaphores
       set_renderFinishedSemaphores set_inFlightFences set_imagesInFlight
       set_currentFrame set_scImageIndex set_procedStartFrame set_targetFrameBuffer
       set_targetRenderPass set_targetSubPass set_targetImage set_targetUBOSet
       set_target set_cameras set_cameraLocked set_colourBlend set_blendMode
       set_viewport set_enableTextureCameraUBO set_previousTime set_accumulatedTime
       set_amountOfFrames set_frameTimeAverage].
Ltac simpl_renderer_in H :=
  cbn [gRenderer gTextures gTrace emit set_gRenderer
       pd ld config newConfig resetSwapchain presentModes surfaceCapabilities
       surfaceWidth surfaceHeight swapchain swapchainImages swapchainImageCount
       framebuffers renderPass midFrameSwapRenderPass externalTargetRenderPass
       commandBuffer imageAvailableSemaphores renderFinishedSemaphores inFlightFences
       imagesInFlight currentFrame scImageIndex procedStartFrame targetFrameBuffer
       targetRenderPass targetSubPass targetImage targetUBOSet target cameras
       defaultCameraSpec cameraLocked colourBlend blendMode viewport
       enableTextureCameraUBO previousTime accumulatedTime amountOfFrames
       frameTimeAverage set_config set_newConfig set_resetSwapchain set_surfaceWidth
       set_surfaceHeight set_swapchain set_swapchainImages set_swapchainImageCount
       set_framebuffers set_renderPass set_midFrameSwapRenderPass
       set_externalTargetRenderPass set_commandBuffer set_imageAvailableSemaphores
       set_renderFinishedSemaphores set_inFlightFences set_imagesInFlight
       set_currentFrame set_scImageIndex set_procedStartFrame set_targetFrameBuffer
       set_targetRenderPass set_targetSubPass set_targetImage set_targetUBOSet
       set_target set_cameras set_cameraLocked set_colourBlend set_blendMode
       set_viewport set_enableTextureCameraUBO set_previousTime set_accumulatedTime
       set_amountOfFrames set_frameTimeAverage] in H.

(** Case analysis on the outcome that decides an equation [... = Ok _]. *)
Ltac outcome_step H :=
  match type of H with
  | obind ?m _ = Ok _ =>
      let E := fresh "E" in
      destruct m eqn:E; cbn [obind] in H; [|discriminate H..]
  | (let '(_, _) := ?p in _) = Ok _ => destruct p
  | Ok _ = Ok _ => injection H as H
  end.

(** *** A null singleton *)


(** *** Fields *)

(** C7, first half.  [vk2dRendererSetConfig] writes the staged
    configuration, with the multisample level clamped to what the device
    supports, and the request flag; the applied configuration and every
    other field are as before and the driver is not called. *)
Lemma setConfig_stages g r c :
  gRenderer g = Some r ->
  vk2dRendererSetConfig c g
  = mkGlobal
      (Some (set_resetSwapchain true
               (set_newConfig
                  (mkConfig (if pdMaxMSAA (pd r) >=? msaa c then msaa c else pdMaxMSAA (pd r))
                            (screenMode c) (filterMode c)) r)))
      (gTextures g) (gTrace g).
Proof. intros Hr. unfold vk2dRendererSetConfig. rewrite Hr. reflexivity. Qed.

(** C10.  [vk2dRendererSetCamera] stores the caller's specification in
    the default camera slot with its on-screen rectangle replaced: origin
    zero, extent the surface's; the caller's values for the rectangle are
    dropped.  The other slots, and the slot's own state and buffers, are
    as before. *)
Theorem setCamera_overrides_placement g r s cam :
  gRenderer g = Some r ->
  rd (cameras r) VK2D_DEFAULT_CAMERA = Ok cam ->
  exists r' cam',
    vk2dRendererSetCamera s g = Ok (mkGlobal (Some r') (gTextures g) (gTrace g))
    /\ r' = set_cameras (cameras r') r
    /\ rd (cameras r') VK2D_DEFAULT_CAMERA = Ok cam'
    /\ cameraView (spec cam') = cameraView s
    /\ xOnScreen (spec cam') = float_zero
    /\ yOnScreen (spec cam') = float_zero
    /\ wOnScreen (spec cam') = float_of_u32 (surfaceWidth r)
    /\ hOnScreen (spec cam') = float_of_u32 (surfaceHeight r)
    /\ state cam' = state cam /\ ubos cam' = ubos cam /\ uboSets cam' = uboSets cam
    /\ (forall j : nat, j <> Z.to_nat VK2D_DEFAULT_CAMERA ->
          cameras r' !! j = cameras r !! j).
Proof.
  intros Hr Hcam. unfold vk2dRendererSetCamera. rewrite Hr, Hcam. cbn [obind].
  pose proof Hcam as [Hi Hl]%rd_Ok.
  rewrite wr_in_range by (apply lookup_lt_Some in Hl; lia). cbn [obind].
  eexists _, _. split; [reflexivity|]. split; [reflexivity|].
  split.
  { apply rd_Ok. split; [done|]. cbn [cameras set_cameras].
    apply list_lookup_insert_eq. by eapply lookup_lt_Some. }
  repeat (split; [reflexivity|]).
  intros j Hj. cbn [cameras set_cameras]. by rewrite list_lookup_insert_ne.
Qed.


(** *** Frames *)

(** Everything a call of [vk2dRendererStartFrame] that opens a frame
    read and did. *)
Lemma startFrame_inv g r clear env g' :
  gRenderer g = Some r -> procedStartFrame r = false ->
  vk2dRendererStartFrame clear env g = Ok g' ->
  exists fence available user users framebuffer image camera0 uboSet cams flushes cb,
    rd (inFlightFences r) (currentFrame r) = Ok fence
    /\ rd (imageAvailableSemaphores r) (currentFrame r) = Ok available
    /\ rd (imagesInFlight r) (acquired env r) = Ok user
    /\ wr (imagesInFlight r) (acquired env r) fence = Ok users
    /\ rd (framebuffers r) (acquired env r) = Ok framebuffer
    /\ rd (swapchainImages r) (acquired env r) = Ok image
    /\ rd (cameras r) 0 = Ok camera0
    /\ rd (uboSets camera0) (acquired env r) = Ok uboSet
    /\ flush_cameras (acquired env r) 0 (cameras r) = Ok (cams, flushes)
    /\ rd (commandBuffer r) (acquired env r) = Ok cb
    /\ g' = mkGlobal
              (Some (frame_started r (seCounter env) (acquired env r) users
                       framebuffer image uboSet cams))
              (gTextures g)
              (gTrace g
                 ++ ([EvWaitForFences fence;
                      EvAcquireNextImage (swapchain r) available (seAcquireResult env)]
                     ++ (if is_null user then [] else [EvWaitForFences user]))
                 ++ [EvResetBoundPointers] ++ flushes
                 ++ [EvResetCommandBuffer cb; EvBeginCommandBuffer cb]
                 ++ vk2dErrorCheck (seBeginResult env)
                 ++ [EvCmdBeginRenderPass cb (renderPass r) framebuffer
                       (surfaceWidth r) (surfaceHeight r) (Some clear)]).
Proof.
  intros Hr Hp H. unfold vk2dRendererStartFrame in H. rewrite Hr, Hp in H.
  cbv zeta in H. unfold acquired.
  destruct (seAcquiredImage env) as [i|];
    repeat outcome_step H; subst g';
    repeat match goal with
           | E : _ = Ok _ |- _ => progress simpl_renderer_in E
           end;
    eexists _, _, _, _, _, _, _, _, _, _, _;
    (repeat (split; [eassumption|])); unfold emit, frame_started; simpl_renderer;
    rewrite <- ?app_assoc; reflexivity.
Qed.

Lemma vk2dErrorCheck_logs res e : e ∈ vk2dErrorCheck res -> e = EvLogError res.
Proof.
  unfold vk2dErrorCheck. destruct (VkResult_eqb res VK_SUCCESS).
  - intros H. by apply not_elem_of_nil in H.
  - intros H. by apply list_elem_of_singleton in H.
Qed.

Lemma flush_cameras_events frame (cams : list VK2DCamera) : forall (i : Z) cams' evs,
  flush_cameras frame i cams = Ok (cams', evs) ->
  Forall (fun e => is_recording e = false) evs /\ length cams' = length cams.
Proof.
  induction cams as [|c cams IH]; intros i cams' evs H; cbn [flush_cameras] in H.
  - injection H as <- <-. by split.
  - destruct (state c =? cs_Normal).
    + destruct (wr (ubos c) frame (Some (spec c))) as [u| |]; try done. cbn [obind] in H.
      destruct (flush_cameras frame (i + 1) cams) as [[rest' evs']| |] eqn:Hf; try done.
      cbn [obind] in H. injection H as <- <-.
      apply IH in Hf as [Hf Hl]. split; [by constructor|simpl; congruence].
    + cbn [obind] in H.
      destruct (flush_cameras frame (i + 1) cams) as [[rest' evs']| |] eqn:Hf; try done.
      cbn [obind] in H. injection H as <- <-.
      apply IH in Hf as [Hf Hl]. split; [done|simpl; congruence].
Qed.

Lemma flush_cameras_total frame (n : nat) (cams : list VK2DCamera) : forall i : Z,
  0 <= frame < Z.of_nat n ->
  forallb (camera_ok n) cams = true ->
  exists cams' evs, flush_cameras frame i cams = Ok (cams', evs).
Proof.
  induction cams as [|c cams IH]; intros i Hf Hok; cbn [flush_cameras].
  - by eexists _, _.
  - cbn [forallb] in Hok. apply andb_true_iff in Hok as [Hc Hok].
    unfold camera_ok in Hc. apply andb_true_iff in Hc as [Hu _].
    apply Nat.eqb_eq in Hu.
    destruct (IH (i + 1) Hf Hok) as (cams' & evs & ->).
    destruct (state c =? cs_Normal).
    + rewrite wr_in_range by lia. cbn [obind]. by eexists _, _.
    + cbn [obind]. by eexists _, _.
Qed.

(** What [renderer_ok] says. *)
Lemma renderer_ok_spec r :
  renderer_ok r = true ->
  (0 <= currentFrame r < VK2D_MAX_FRAMES_IN_FLIGHT)
  /\ VK2D_MAX_FRAMES_IN_FLIGHT < UINT32_MOD
  /\ length (inFlightFences r) = Z.to_nat VK2D_MAX_FRAMES_IN_FLIGHT
  /\ length (imageAvailableSemaphores r) = Z.to_nat VK2D_MAX_FRAMES_IN_FLIGHT
  /\ length (renderFinishedSemaphores r) = Z.to_nat VK2D_MAX_FRAMES_IN_FLIGHT
  /\ (0 <= scImageIndex r < swapchainImageCount r)
  /\ length (swapchainImages r) = Z.to_nat (swapchainImageCount r)
  /\ length (framebuffers r) = Z.to_nat (swapchainImageCount r)
  /\ length (imagesInFlight r) = Z.to_nat (swapchainImageCount r)
  /\ length (commandBuffer r) = Z.to_nat (swapchainImageCount r)
  /\ length (cameras r) <> 0%nat
  /\ forallb (camera_ok (Z.to_nat (swapchainImageCount r))) (cameras r) = true.
Proof.
  unfold renderer_ok. rewrite !andb_true_iff, negb_true_iff.
  rewrite !Z.leb_le, !Z.ltb_lt, !Nat.eqb_eq, Nat.eqb_neq. tauto.
Qed.

Lemma acquired_in_range env r :
  renderer_ok r = true -> acquire_ok env r = true ->
  0 <= acquired env r < swapchainImageCount r.
Proof.
  intros Hok Ha. apply renderer_ok_spec in Hok.
  unfold acquire_ok, acquired in *. destruct (seAcquiredImage env).
  - apply andb_true_iff in Ha as [?%Z.leb_le ?%Z.ltb_lt]. lia.
  - tauto.
Qed.

Lemma renderer_ok_intro r :
  (0 <= currentFrame r < VK2D_MAX_FRAMES_IN_FLIGHT) ->
  VK2D_MAX_FRAMES_IN_FLIGHT < UINT32_MOD ->
  length (inFlightFences r) = Z.to_nat VK2D_MAX_FRAMES_IN_FLIGHT ->
  length (imageAvailableSemaphores r) = Z.to_nat VK2D_MAX_FRAMES_IN_FLIGHT ->
  length (renderFinishedSemaphores r) = Z.to_nat VK2D_MAX_FRAMES_IN_FLIGHT ->
  (0 <= scImageIndex r < swapchainImageCount r) ->
  length (swapchainImages r) = Z.to_nat (swapchainImageCount r) ->
  length (framebuffers r) = Z.to_nat (swapchainImageCount r) ->
  length (imagesInFlight r) = Z.to_nat (swapchainImageCount r) ->
  length (commandBuffer r) = Z.to_nat (swapchainImageCount r) ->
  length (cameras r) <> 0%nat ->
  forallb (camera_ok (Z.to_nat (swapchainImageCount r))) (cameras r) = true ->
  renderer_ok r = true.
Proof.
  intros. unfold renderer_ok. rewrite !andb_true_iff, negb_true_iff.
  rewrite !Z.leb_le, !Z.ltb_lt, !Nat.eqb_eq, Nat.eqb_neq. tauto.
Qed.

(** A frame opens when the arrays have their sizes and the image it
    draws to exists. *)
Lemma startFrame_total_gen g r clear env :
  gRenderer g = Some r -> procedStartFrame r = false ->
  renderer_ok (set_scImageIndex (acquired env r) r) = true ->
  exists g', vk2dRendererStartFrame clear env g = Ok g'.
Proof.
  intros Hr Hp Hok.
  apply renderer_ok_spec in Hok
    as (Hcf & Hmax & Hfe & Hav & Hfi & Hidx & Him & Hfb & Hif & Hcb & Hcam & Hcams).
  simpl_renderer_in Hcf. simpl_renderer_in Hfe. simpl_renderer_in Hav.
  simpl_renderer_in Hfi. simpl_renderer_in Hidx. simpl_renderer_in Him.
  simpl_renderer_in Hfb. simpl_renderer_in Hif. simpl_renderer_in Hcb.
  simpl_renderer_in Hcam. simpl_renderer_in Hcams.
  unfold vk2dRendererStartFrame. rewrite Hr, Hp. cbv zeta.
  destruct (rd_in_range (inFlightFences r) (currentFrame r)) as [fence Hfence]; [lia|].
  destruct (rd_in_range (imageAvailableSemaphores r) (currentFrame r)) as [av Hav']; [lia|].
  destruct (rd_in_range (imagesInFlight r) (acquired env r)) as [user Huser]; [lia|].
  destruct (rd_in_range (framebuffers r) (acquired env r)) as [fb Hfb']; [lia|].
  destruct (rd_in_range (swapchainImages r) (acquired env r)) as [im Him']; [lia|].
  destruct (rd_in_range (commandBuffer r) (acquired env r)) as [cb Hcb']; [lia|].
  destruct (rd_in_range (cameras r) 0) as [c0 Hc0]; [lia|].
  assert (Hc0ok : camera_ok (Z.to_nat (swapchainImageCount r)) c0 = true).
  { apply rd_Ok in Hc0 as [_ Hc0]. rewrite forallb_forall in Hcams.
    apply Hcams. eapply list_elem_of_In, list_elem_of_lookup_2. exact Hc0. }
  unfold camera_ok in Hc0ok. apply andb_true_iff in Hc0ok as [_ Hus%Nat.eqb_eq].
  destruct (rd_in_range (uboSets c0) (acquired env r)) as [us Hus']; [lia|].
  destruct (flush_cameras_total (acquired env r) (Z.to_nat (swapchainImageCount r))
              (cameras r) 0) as (cams' & evs & Hflush); [lia|done|].
  unfold acquired in *.
  destruct (seAcquiredImage env) as [i|]; simpl_renderer;
    rewrite Hfence; cbn [obind]; simpl_renderer;
    rewrite Hav'; cbn [obind]; simpl_renderer;
    rewrite Huser; cbn [obind]; simpl_renderer;
    rewrite wr_in_range by lia; cbn [obind]; simpl_renderer;
    rewrite Hfb'; cbn [obind]; simpl_renderer;
    rewrite Him'; cbn [obind]; simpl_renderer;
    rewrite Hc0; cbn [obind]; simpl_renderer;
    rewrite Hus'; cbn [obind]; simpl_renderer;
    rewrite Hflush; cbn [obind]; simpl_renderer;
    rewrite Hcb'; cbn [obind]; by eexists.
Qed.

(** On a renderer whose arrays have their sizes, a frame opens. *)
Lemma startFrame_total g r clear env :
  gRenderer g = Some r -> procedStartFrame r = false ->
  renderer_ok r = true -> acquire_ok env r = true ->
  exists g', vk2dRendererStartFrame clear env g = Ok g'.
Proof.
  intros Hr Hp Hok Ha. pose proof (acquired_in_range _ _ Hok Ha) as Hidx.
  apply (startFrame_total_gen g r clear env Hr Hp).
  apply renderer_ok_spec in Hok
    as (Hcf & Hmax & Hfe & Hav & Hfi & Hsc & Him & Hfb & Hif & Hcb & Hcam & Hcams).
  apply renderer_ok_intro; simpl_renderer; done.
Qed.

(** C2.  A second [vk2dRendererStartFrame] inside a frame, and a
    [vk2dRendererEndFrame] outside one, return the process exactly as
    they found it: no field written, nothing asked of the driver. *)
Theorem frame_calls_are_idempotent g r :
  gRenderer g = Some r ->
  (procedStartFrame r = true ->
     forall clear env, vk2dRendererStartFrame clear env g = Ok g)
  /\ (procedStartFrame r = false -> forall env, vk2dRendererEndFrame env g = Ok g)
  /\ (forall clear env g1,
        vk2dRendererStartFrame clear env g = Ok g1 ->
        forall clear' env', vk2dRendererStartFrame clear' env' g1 = Ok g1).
Proof.
  intros Hr. split; [|split].
  - intros Hp clear env. unfold vk2dRendererStartFrame. by rewrite Hr, Hp.
  - intros Hp env. unfold vk2dRendererEndFrame. by rewrite Hr, Hp.
  - intros clear env g1 H clear' env'.
    destruct (procedStartFrame r) eqn:Hp.
    + unfold vk2dRendererStartFrame in H. rewrite Hr, Hp in H. injection H as <-.
      unfold vk2dRendererStartFrame. by rewrite Hr, Hp.
    + destruct (startFrame_inv _ _ _ _ _ Hr Hp H)
        as (? & ? & ? & ? & ? & ? & ? & ? & ? & ? & ? & _ & _ & _ & _ & _ & _ & _ & _ & _ & _ & ->).
      unfold vk2dRendererStartFrame. cbn [gRenderer]. unfold frame_started.
      simpl_renderer. reflexivity.
Qed.


(** *** Ending a frame *)

Lemma frame_counted_fields env r :
  currentFrame (frame_counted env r)
    = wrap32 (currentFrame r + 1) mod VK2D_MAX_FRAMES_IN_FLIGHT
  /\ config (frame_counted env r) = config r
  /\ newConfig (frame_counted env r) = newConfig r
  /\ resetSwapchain (frame_counted env r) = resetSwapchain r
  /\ procedStartFrame (frame_counted env r) = procedStartFrame r
  /\ imagesInFlight (frame_counted env r) = imagesInFlight r
  /\ swapchain (frame_counted env r) = swapchain r.
Proof.
  unfold frame_counted. cbv zeta. simpl_renderer.
  destruct (double_ge _ _); simpl_renderer; done.
Qed.

(** What the rebuild leaves in the fields the frame functions read. *)
Lemma resetSwapchain_fields env r :
  let r' := fst (_vk2dRendererResetSwapchain env r) in
  config r' = mkConfig (msaa (newConfig r))
                       (_vk2dRendererGetPresentMode r (screenMode (newConfig r)))
                       (filterMode (newConfig r))
  /\ newConfig r' = newConfig r
  /\ resetSwapchain r' = resetSwapchain r
  /\ procedStartFrame r' = procedStartFrame r
  /\ currentFrame r' = currentFrame r
  /\ scImageIndex r' = scImageIndex r
  /\ swapchain r' = reSwapchain env
  /\ swapchainImageCount r' = Z.of_nat (reImageCount env)
  /\ imagesInFlight r' = replicate (reImageCount env) VK_NULL_HANDLE.
Proof.
  unfold _vk2dRendererResetSwapchain, _vk2dRendererCreateSynchronization,
    _vk2dRendererCreateFrameBuffer, _vk2dRendererCreateRenderPass,
    _vk2dRendererCreateSwapchain, _vk2dRendererGetSurfaceSize,
    _vk2dRendererGetPresentMode.
  cbv zeta. cbn [fst]. simpl_renderer.
  destruct (_ || _); simpl_renderer; rewrite ?Nat2Z.id; done.
Qed.

Lemma endFrame_inv g r env g' :
  gRenderer g = Some r -> procedStartFrame r = true ->
  vk2dRendererEndFrame env g = Ok g' ->
  exists cb finished available fence,
    rd (commandBuffer r) (scImageIndex r) = Ok cb
    /\ rd (renderFinishedSemaphores r) (currentFrame r) = Ok finished
    /\ rd (imageAvailableSemaphores r) (currentFrame r) = Ok available
    /\ rd (inFlightFences r) (currentFrame r) = Ok fence
    /\ g' = mkGlobal
              (Some (frame_counted env
                 (if must_rebuild (eeResult env) (eeQueueRes env) (resetSwapchain r)
                  then set_resetSwapchain false
                         (fst (_vk2dRendererResetSwapchain (eeRebuild env)
                                 (set_procedStartFrame false r)))
                  else set_procedStartFrame false r)))
              (gTextures g)
              (gTrace g ++ submit_events env r cb finished available fence
                 ++ (if must_rebuild (eeResult env) (eeQueueRes env) (resetSwapchain r)
                     then rebuild_events (eeRebuild env) r
                     else vk2dErrorCheck (eeResult env)
                            ++ vk2dErrorCheck (eeQueueRes env))).
Proof.
  intros Hr Hp H. unfold vk2dRendererEndFrame in H. rewrite Hr, Hp in H.
  cbv zeta in H. simpl_renderer_in H.
  destruct (rd (commandBuffer r) (scImageIndex r)) as [cb| |]; try done.
  cbn [obind] in H.
  destruct (rd (renderFinishedSemaphores r) (currentFrame r)) as [finished| |]; try done.
  cbn [obind] in H.
  destruct (rd (imageAvailableSemaphores r) (currentFrame r)) as [available| |]; try done.
  cbn [obind] in H.
  destruct (rd (inFlightFences r) (currentFrame r)) as [fence| |]; try done.
  cbn [obind] in H.
  exists cb, finished, available, fence. do 4 (split; [done|]).
  change (submit_events env (set_procedStartFrame false r))
    with (submit_events env r) in H.
  destruct (must_rebuild _ _ _).
  - change (_vk2dRendererResetSwapchain (eeRebuild env) (set_procedStartFrame false r))
      with (fst (_vk2dRendererResetSwapchain (eeRebuild env)
                   (set_procedStartFrame false r)),
            rebuild_events (eeRebuild env) r) in H.
    cbv beta iota in H. injection H as <-.
    unfold emit, set_gRenderer. cbn [gRenderer gTextures gTrace]. reflexivity.
  - cbv beta iota in H. injection H as <-.
    unfold emit, set_gRenderer. cbn [gRenderer gTextures gTrace]. reflexivity.
Qed.

Lemma endFrame_total g r env :
  gRenderer g = Some r -> renderer_ok r = true ->
  exists g', vk2dRendererEndFrame env g = Ok g'.
Proof.
  intros Hr Hok.
  apply renderer_ok_spec in Hok
    as (Hcf & Hmax & Hfe & Hav & Hfi & Hsc & Him & Hfb & Hif & Hcb & Hcam & Hcams).
  unfold vk2dRendererEndFrame. rewrite Hr.
  destruct (procedStartFrame r); [|by eexists].
  cbv zeta. simpl_renderer.
  destruct (rd_in_range (commandBuffer r) (scImageIndex r)) as [cb ->]; [lia|].
  destruct (rd_in_range (renderFinishedSemaphores r) (currentFrame r)) as [fi ->]; [lia|].
  destruct (rd_in_range (imageAvailableSemaphores r) (currentFrame r)) as [av ->]; [lia|].
  destruct (rd_in_range (inFlightFences r) (currentFrame r)) as [fe ->]; [lia|].
  cbn [obind].
  destruct (must_rebuild _ _ _).
  - unfold _vk2dRendererResetSwapchain. cbv beta iota zeta. by eexists.
  - by eexists.
Qed.

Lemma must_rebuild_spec env requested :
  (eeQueueRes env = VK_SUBOPTIMAL_KHR -> eeResult env = VK_SUBOPTIMAL_KHR) ->
  must_rebuild (eeResult env) (eeQueueRes env) requested = true
  <-> presentation_reports env VK_ERROR_OUT_OF_DATE_KHR
      \/ presentation_reports env VK_SUBOPTIMAL_KHR
      \/ requested = true.
Proof.
  intros Hsub. unfold must_rebuild, presentation_reports.
  rewrite !orb_true_iff, !VkResult_eqb_eq. tauto.
Qed.

Lemma rebuild_events_wait env r :
  EvDeviceWaitIdle (ldDev (ld r)) ∈ rebuild_events env r.
Proof.
  unfold rebuild_events. apply elem_of_app. right. apply list_elem_of_here.
Qed.

(** The renderer and the events [vk2dRendererEndFrame] leaves after the
    presentation, [rebuilt] being the renderer the rebuild hands back. *)
Lemma endFrame_result env r rebuilt (stale : Prop) :
  (must_rebuild (eeResult env) (eeQueueRes env) (resetSwapchain r) = true <-> stale) ->
  (resetSwapchain r = true -> stale) ->
  procedStartFrame rebuilt = false ->
  currentFrame rebuilt = currentFrame r ->
  swapchain rebuilt = reSwapchain (eeRebuild env) ->
  imagesInFlight rebuilt = replicate (reImageCount (eeRebuild env)) VK_NULL_HANDLE ->
  wrap32 (currentFrame r + 1) = currentFrame r + 1 ->
  forall r' after,
  r' = frame_counted env
         (if must_rebuild (eeResult env) (eeQueueRes env) (resetSwapchain r)
          then set_resetSwapchain false rebuilt
          else set_procedStartFrame false r) ->
  after = (if must_rebuild (eeResult env) (eeQueueRes env) (resetSwapchain r)
           then rebuild_events (eeRebuild env) r
           else vk2dErrorCheck (eeResult env) ++ vk2dErrorCheck (eeQueueRes env)) ->
  (stale <-> after = rebuild_events (eeRebuild env) r)
  /\ (stale \/ after = vk2dErrorCheck (eeResult env) ++ vk2dErrorCheck (eeQueueRes env))
  /\ (stale ->
        swapchain r' = reSwapchain (eeRebuild env)
        /\ imagesInFlight r' = replicate (reImageCount (eeRebuild env)) VK_NULL_HANDLE)
  /\ (~ stale -> swapchain r' = swapchain r /\ imagesInFlight r' = imagesInFlight r)
  /\ resetSwapchain r' = false
  /\ procedStartFrame r' = false
  /\ currentFrame r' = (currentFrame r + 1) mod VK2D_MAX_FRAMES_IN_FLIGHT.
Proof.
  intros Hm Hflag Hrp Hrc Hrs Hri Hwrap r' after -> ->.
  destruct (must_rebuild _ _ _) eqn:Hmr.
  - assert (Hst : stale) by (by apply Hm).
    split; [done|]. split; [by left|].
    destruct (frame_counted_fields env (set_resetSwapchain false rebuilt))
      as (-> & _ & _ & -> & -> & -> & ->).
    simpl_renderer. rewrite Hrp, Hrc, Hrs, Hri, Hwrap. done.
  - assert (Hst : ~ stale) by (rewrite <- Hm; congruence).
    split.
    { split; [done|]. intros Heq. exfalso.
      pose proof (rebuild_events_wait (eeRebuild env) r) as Hin. rewrite <- Heq in Hin.
      apply elem_of_app in Hin as [Hin|Hin]; apply vk2dErrorCheck_logs in Hin; done. }
    split; [by right|].
    destruct (frame_counted_fields env (set_procedStartFrame false r))
      as (-> & _ & _ & -> & -> & -> & ->).
    simpl_renderer. rewrite Hwrap.
    destruct (resetSwapchain r) eqn:Hrs'; [exfalso; by apply Hst, Hflag|]. done.
Qed.


(** *** Switching the render target *)

(** The events of one switch. *)
Lemma setTarget_inv g r X g' :
  gRenderer g = Some r -> X <> target r ->
  vk2dRendererSetTarget X g = Ok g' ->
  exists cb pass framebuffer image buffer width height transition,
    rd (commandBuffer r) (scImageIndex r) = Ok cb
    /\ (if Nat.eqb X VK2D_TARGET_SCREEN then
          pass = midFrameSwapRenderPass r
          /\ rd (framebuffers r) (scImageIndex r) = Ok framebuffer
          /\ rd (swapchainImages r) (scImageIndex r) = Ok image
          /\ (exists camera0, rd (cameras r) 0 = Ok camera0
                /\ rd (uboSets camera0) (scImageIndex r) = Ok buffer)
          /\ width = surfaceWidth r /\ height = surfaceHeight r
          /\ transition = EvTransitionImageLayout (targetImage r)
                            VK_IMAGE_LAYOUT_COLOR_ATTACHMENT_OPTIMAL
                            VK_IMAGE_LAYOUT_SHADER_READ_ONLY_OPTIMAL
        else
          exists t, gTextures g X = Some t
            /\ pass = externalTargetRenderPass r
            /\ framebuffer = texFbo t /\ image = imgImg (texImg t)
            /\ buffer = texUboSet t
            /\ width = imgWidth (texImg t) /\ height = imgHeight (texImg t)
            /\ transition = EvTransitionImageLayout (imgImg (texImg t))
                              VK_IMAGE_LAYOUT_SHADER_READ_ONLY_OPTIMAL
                              VK_IMAGE_LAYOUT_COLOR_ATTACHMENT_OPTIMAL)
    /\ g' = mkGlobal (Some (target_switched r X pass framebuffer image buffer))
              (gTextures g)
              (gTrace g ++ [EvCmdEndRenderPass cb; transition;
                            EvCmdBeginRenderPass cb pass framebuffer width height None;
                            EvResetBoundPointers]).
Proof.
  intros Hr Hne H. unfold vk2dRendererSetTarget in H. rewrite Hr in H.
  destruct (Nat.eqb_spec X (target r)) as [|_]; [done|]. cbn [negb] in H.
  cbv zeta in H. simpl_renderer_in H.
  destruct (Nat.eqb X VK2D_TARGET_SCREEN).
  - destruct (rd (framebuffers r) (scImageIndex r)) as [framebuffer| |]; try done.
    cbn [obind] in H.
    destruct (rd (swapchainImages r) (scImageIndex r)) as [image| |]; try done.
    cbn [obind] in H.
    destruct (rd (cameras r) 0) as [camera0| |]; try done. cbn [obind] in H.
    destruct (rd (uboSets camera0) (scImageIndex r)) as [buffer| |] eqn:Hb; try done.
    cbn [obind] in H.
    destruct (rd (commandBuffer r) (scImageIndex r)) as [cb| |]; try done.
    cbn [obind] in H. simpl_renderer_in H. injection H as <-.
    eexists cb, _, framebuffer, image, buffer, _, _, _.
    split; [done|]. split.
    { do 3 (split; [reflexivity|]). split; [by exists camera0|].
      do 2 (split; [reflexivity|]). reflexivity. }
    unfold target_switched. simpl_renderer. reflexivity.
  - unfold deref in H. destruct (gTextures g X) as [t|] eqn:Ht; try done.
    cbn [obind] in H.
    destruct (rd (commandBuffer r) (scImageIndex r)) as [cb| |]; try done.
    cbn [obind] in H. simpl_renderer_in H. injection H as <-.
    eexists cb, _, _, _, _, _, _, _.
    split; [done|]. split.
    { exists t. split; [done|]. do 6 (split; [reflexivity|]). reflexivity. }
    unfold target_switched. simpl_renderer. reflexivity.
Qed.

Lemma setTarget_total g r X :
  gRenderer g = Some r -> renderer_ok r = true ->
  X = VK2D_TARGET_SCREEN \/ is_Some (gTextures g X) ->
  exists g', vk2dRendererSetTarget X g = Ok g'.
Proof.
  intros Hr Hok HX.
  apply renderer_ok_spec in Hok
    as (Hcf & Hmax & Hfe & Hav & Hfi & Hsc & Him & Hfb & Hif & Hcb & Hcam & Hcams).
  unfold vk2dRendererSetTarget. rewrite Hr.
  destruct (negb _); [|by eexists]. cbv zeta. simpl_renderer.
  destruct (rd_in_range (commandBuffer r) (scImageIndex r)) as [cb Hcb']; [lia|].
  destruct (Nat.eqb_spec X VK2D_TARGET_SCREEN) as [HXs|HXs].
  - destruct (rd_in_range (framebuffers r) (scImageIndex r)) as [fb ->]; [lia|].
    destruct (rd_in_range (swapchainImages r) (scImageIndex r)) as [im ->]; [lia|].
    destruct (rd_in_range (cameras r) 0) as [c0 Hc0]; [lia|].
    assert (Hc0ok : camera_ok (Z.to_nat (swapchainImageCount r)) c0 = true).
    { apply rd_Ok in Hc0 as [_ Hc0]. rewrite forallb_forall in Hcams.
      apply Hcams. eapply list_elem_of_In, list_elem_of_lookup_2. exact Hc0. }
    unfold camera_ok in Hc0ok. apply andb_true_iff in Hc0ok as [_ Hus%Nat.eqb_eq].
    destruct (rd_in_range (uboSets c0) (scImageIndex r)) as [us Hus']; [lia|].
    rewrite Hc0. cbn [obind]. rewrite Hus'. cbn [obind]. rewrite Hcb'. cbn [obind].
    by eexists.
  - destruct HX as [HX|[t Ht]]; [done|]. unfold deref. rewrite Ht. cbn [obind].
    rewrite Hcb'. cbn [obind]. by eexists.
Qed.

Lemma target_switched_target r X pass framebuffer image buffer :
  target (target_switched r X pass framebuffer image buffer) = X
  /\ targetImage (target_switched r X pass framebuffer image buffer) = image.
Proof. done. Qed.


(** *** The applied configuration *)

Lemma config_set_resetSwapchain b r :
  config (set_resetSwapchain b r) = config r
  /\ procedStartFrame (set_resetSwapchain b r) = procedStartFrame r.
Proof. done. Qed.

Lemma set_resetSwapchain_fields b r :
  imagesInFlight (set_resetSwapchain b r) = imagesInFlight r
  /\ scImageIndex (set_resetSwapchain b r) = scImageIndex r
  /\ swapchainImageCount (set_resetSwapchain b r) = swapchainImageCount r.
Proof. done. Qed.

Lemma set_procedStartFrame_fields b r :
  imagesInFlight (set_procedStartFrame b r) = imagesInFlight r
  /\ currentFrame (set_procedStartFrame b r) = currentFrame r
  /\ scImageIndex (set_procedStartFrame b r) = scImageIndex r.
Proof. done. Qed.

Lemma frame_started_config r counter idx users framebuffer image uboSet cams :
  config (frame_started r counter idx users framebuffer image uboSet cams) = config r.
Proof. done. Qed.

Lemma target_switched_config r X pass framebuffer image buffer :
  config (target_switched r X pass framebuffer image buffer) = config r.
Proof. done. Qed.

(** One call of an entry point either leaves the applied configuration
    alone or is the [vk2dRendererEndFrame] that closes a frame and rebuilds
    the swapchain. *)
Lemma run_config op g1 r1 g2 r2 ret :
  gRenderer g1 = Some r1 -> run op g1 = Ok (g2, ret) -> gRenderer g2 = Some r2 ->
  config r2 = config r1
  \/ exists env,
       op = OpEndFrame env
       /\ procedStartFrame r1 = true
       /\ must_rebuild (eeResult env) (eeQueueRes env) (resetSwapchain r1) = true
       /\ procedStartFrame r2 = false
       /\ config r2
          = mkConfig (msaa (newConfig r1))
                     (_vk2dRendererGetPresentMode r1 (screenMode (newConfig r1)))
                     (filterMode (newConfig r1)).
Proof.
  intros Hr Hrun Hr2.
  destruct op as [ | | | | |c|clear env|env| |X|v| |b| |camera| |x y w h| |b|c| | ];
    cbn [run] in Hrun;
    try (unfold vk2dRendererWait, vk2dRendererGetConfig, vk2dRendererSetConfig,
           vk2dRendererResetSwapchain, vk2dRendererGetDevice, vk2dRendererSetColourMod,
           vk2dRendererGetColourMod, vk2dRendererSetBlendMode, vk2dRendererGetBlendMode,
           vk2dRendererGetCamera, vk2dRendererSetViewport, vk2dRendererGetViewport,
           vk2dRendererSetTextureCamera, vk2dRendererLockCameras,
           vk2dRendererUnlockCameras, vk2dRendererGetAverageFrameTime in Hrun;
         cbv zeta in Hrun; cbn [gRenderer set_gRenderer] in Hrun;
         rewrite Hr in Hrun; cbv beta iota zeta in Hrun; injection Hrun as <- _;
         cbn [gRenderer set_gRenderer emit] in Hr2;
         first [ rewrite Hr in Hr2 | idtac ];
         injection Hr2 as <-; left; reflexivity).
  - (* vk2dRendererQuit *)
    unfold vk2dRendererQuit in Hrun. rewrite Hr in Hrun. injection Hrun as <- _.
    discriminate Hr2.
  - (* vk2dRendererGetPointer *)
    injection Hrun as <- _. rewrite Hr in Hr2. injection Hr2 as <-. by left.
  - (* vk2dRendererStartFrame *)
    destruct (vk2dRendererStartFrame clear env g1) as [g'| |] eqn:Hs; try done.
    cbn [obind] in Hrun. injection Hrun as <- _.
    destruct (procedStartFrame r1) eqn:Hp.
    + unfold vk2dRendererStartFrame in Hs. rewrite Hr, Hp in Hs. injection Hs as <-.
      rewrite Hr in Hr2. injection Hr2 as <-. by left.
    + destruct (startFrame_inv _ _ _ _ _ Hr Hp Hs)
        as (? & ? & ? & ? & ? & ? & ? & ? & ? & ? & ?
            & _ & _ & _ & _ & _ & _ & _ & _ & _ & _ & ->).
      cbn [gRenderer] in Hr2. injection Hr2 as <-. left.
      apply frame_started_config.
  - (* vk2dRendererEndFrame *)
    destruct (vk2dRendererEndFrame env g1) as [g'| |] eqn:He; try done.
    cbn [obind] in Hrun. injection Hrun as <- _.
    destruct (procedStartFrame r1) eqn:Hp.
    + destruct (endFrame_inv _ _ _ _ Hr Hp He) as (? & ? & ? & ? & _ & _ & _ & _ & ->).
      pose proof (resetSwapchain_fields (eeRebuild env) (set_procedStartFrame false r1))
        as Hrb.
      cbv zeta in Hrb. destruct Hrb as (Hc & _ & _ & Hrp & _).
      set (rebuilt := fst (_vk2dRendererResetSwapchain (eeRebuild env)
                             (set_procedStartFrame false r1))) in *.
      clearbody rebuilt.
      cbn [gRenderer] in Hr2. injection Hr2 as <-.
      destruct (must_rebuild _ _ _) eqn:Hm.
      * right. exists env. do 3 (split; [done|]). cbv beta iota.
        destruct (frame_counted_fields env (set_resetSwapchain false rebuilt))
          as (_ & -> & _ & _ & -> & _).
        destruct (config_set_resetSwapchain false rebuilt) as [-> ->].
        rewrite Hrp, Hc. done.
      * left. cbv beta iota.
        destruct (frame_counted_fields env (set_procedStartFrame false r1))
          as (_ & -> & _). done.
    + unfold vk2dRendererEndFrame in He. rewrite Hr, Hp in He. injection He as <-.
      rewrite Hr in Hr2. injection Hr2 as <-. by left.
  - (* vk2dRendererSetTarget *)
    destruct (vk2dRendererSetTarget X g1) as [g'| |] eqn:Ht; try done.
    cbn [obind] in Hrun. injection Hrun as <- _.
    destruct (decide (X = target r1)) as [Heq|Hne].
    + unfold vk2dRendererSetTarget in Ht. rewrite Hr, Heq, Nat.eqb_refl in Ht.
      cbn [negb] in Ht. injection Ht as <-.
      rewrite Hr in Hr2. injection Hr2 as <-. by left.
    + destruct (setTarget_inv _ _ _ _ Hr Hne Ht)
        as (? & ? & ? & ? & ? & ? & ? & ? & _ & _ & ->).
      cbn [gRenderer] in Hr2. injection Hr2 as <-. left.
      apply target_switched_config.
  - (* vk2dRendererSetCamera *)
    destruct (vk2dRendererSetCamera camera g1) as [g'| |] eqn:Hc; try done.
    cbn [obind] in Hrun. injection Hrun as <- _.
    unfold vk2dRendererSetCamera in Hc. rewrite Hr in Hc.
    destruct (rd (cameras r1) VK2D_DEFAULT_CAMERA) as [cam| |]; try done.
    cbn [obind] in Hc. cbv zeta in Hc.
    destruct (wr (cameras r1) VK2D_DEFAULT_CAMERA _) as [cams| |]; try done.
    cbn [obind] in Hc. injection Hc as <-.
    cbn [gRenderer set_gRenderer] in Hr2. injection Hr2 as <-. by left.
Qed.



(** *** Whole frames *)


(** The camera loop, camera by camera. *)
Lemma flush_cameras_spec frame (cams : list VK2DCamera) : forall (i : Z) cams' evs,
  flush_cameras frame i cams = Ok (cams', evs) ->
  cams' = map (flushed frame) cams
  /\ evs = map (EvFlushUBOBuffer frame) (normal_cameras i cams).
Proof.
  induction cams as [|c cams IH]; intros i cams' evs H;
    cbn [flush_cameras normal_cameras map] in *.
  - by injection H as <- <-.
  - unfold flushed at 1. destruct (state c =? cs_Normal).
    + destruct (wr (ubos c) frame (Some (spec c))) as [u| |] eqn:Hw; try done.
      cbn [obind] in H.
      destruct (flush_cameras frame (i + 1) cams) as [[rest' evs']| |] eqn:Hf; try done.
      cbn [obind] in H. injection H as <- <-.
      apply IH in Hf as [-> ->]. apply wr_Ok in Hw as [_ ->]. done.
    + cbn [obind] in H.
      destruct (flush_cameras frame (i + 1) cams) as [[rest' evs']| |] eqn:Hf; try done.
      cbn [obind] in H. injection H as <- <-.
      apply IH in Hf as [-> ->]. done.
Qed.

Lemma flushed_ok frame n c : camera_ok n (flushed frame c) = camera_ok n c.
Proof.
  unfold flushed, camera_ok. destruct (state c =? cs_Normal); [|done].
  cbn [ubos uboSets]. by rewrite length_insert.
Qed.

Lemma flushed_all_ok frame n cams :
  forallb (camera_ok n) (map (flushed frame) cams) = forallb (camera_ok n) cams.
Proof.
  induction cams as [|c cams IH]; [done|]. cbn [map forallb].
  by rewrite flushed_ok, IH.
Qed.

Lemma frame_started_fields r counter idx users framebuffer image uboSet cams :
  let rs := frame_started r counter idx users framebuffer image uboSet cams in
  (procedStartFrame rs = true /\ scImageIndex rs = idx /\ imagesInFlight rs = users
   /\ cameras rs = cams /\ target rs = VK2D_TARGET_SCREEN
   /\ targetFrameBuffer rs = framebuffer /\ targetImage rs = image
   /\ targetUBOSet rs = uboSet /\ targetRenderPass rs = renderPass r)
  /\ (currentFrame rs = currentFrame r /\ inFlightFences rs = inFlightFences r
      /\ imageAvailableSemaphores rs = imageAvailableSemaphores r
      /\ renderFinishedSemaphores rs = renderFinishedSemaphores r
      /\ swapchainImageCount rs = swapchainImageCount r
      /\ swapchainImages rs = swapchainImages r /\ framebuffers rs = framebuffers r
      /\ commandBuffer rs = commandBuffer r)
  /\ (swapchain rs = swapchain r /\ ld rs = ld r /\ resetSwapchain rs = resetSwapchain r
      /\ surfaceWidth rs = surfaceWidth r /\ surfaceHeight rs = surfaceHeight r
      /\ midFrameSwapRenderPass rs = midFrameSwapRenderPass r
      /\ externalTargetRenderPass rs = externalTargetRenderPass r).
Proof. done. Qed.

Lemma frame_started_ok r counter idx users framebuffer image uboSet cams :
  renderer_ok r = true ->
  0 <= idx < swapchainImageCount r ->
  length users = length (imagesInFlight r) ->
  length cams = length (cameras r) ->
  forallb (camera_ok (Z.to_nat (swapchainImageCount r))) cams = true ->
  renderer_ok (frame_started r counter idx users framebuffer image uboSet cams) = true.
Proof.
  intros Hok Hidx Hus Hcl Hcams.
  apply renderer_ok_spec in Hok
    as (Hcf & Hmax & Hfe & Hav & Hfi & Hsc & Him & Hfb & Hif & Hcb & Hcam & _).
  destruct (frame_started_fields r counter idx users framebuffer image uboSet cams)
    as ((_ & Hi & Hu & Hc & _) & (H1 & H2 & H3 & H4 & H5 & H6 & H7 & H8) & _).
  apply renderer_ok_intro; rewrite ?H1, ?H2, ?H3, ?H4, ?H5, ?H6, ?H7, ?H8, ?Hi, ?Hu, ?Hc;
    try done; lia.
Qed.

Lemma frame_counted_ok env r :
  renderer_ok r = true -> renderer_ok (frame_counted env r) = true.
Proof.
  intros Hok.
  apply renderer_ok_spec in Hok
    as (Hcf & Hmax & Hfe & Hav & Hfi & Hsc & Him & Hfb & Hif & Hcb & Hcam & Hcams).
  assert (0 <= wrap32 (currentFrame r + 1) mod VK2D_MAX_FRAMES_IN_FLIGHT
          < VK2D_MAX_FRAMES_IN_FLIGHT) by (apply Z.mod_pos_bound; lia).
  unfold frame_counted. cbv zeta.
  destruct (double_ge _ _); apply renderer_ok_intro; simpl_renderer; done.
Qed.

Lemma ended_ok r : renderer_ok r = true -> renderer_ok (set_procedStartFrame false r) = true.
Proof. done. Qed.

(** A frame that opens on a renderer whose arrays have their sizes
    leaves one whose arrays have their sizes. *)
Lemma startFrame_ok g r clear env g' :
  gRenderer g = Some r -> procedStartFrame r = false ->
  renderer_ok r = true -> acquire_ok env r = true ->
  vk2dRendererStartFrame clear env g = Ok g' ->
  exists r', gRenderer g' = Some r' /\ renderer_ok r' = true
    /\ procedStartFrame r' = true
    /\ currentFrame r' = currentFrame r
    /\ resetSwapchain r' = resetSwapchain r
    /\ swapchainImageCount r' = swapchainImageCount r.
Proof.
  intros Hr Hp Hok Ha Hg.
  destruct (startFrame_inv _ _ _ _ _ Hr Hp Hg)
    as (fence & available & user & users & framebuffer & image & camera0 & uboSet
        & cams & flushes & cb & _ & _ & _ & Hwr & _ & _ & _ & _ & Hflush & _ & ->).
  eexists. split; [reflexivity|].
  apply wr_Ok in Hwr as [_ ->]. apply flush_cameras_spec in Hflush as [-> _].
  split; [|done].
  pose proof (renderer_ok_spec _ Hok) as (_ & _ & _ & _ & _ & _ & _ & _ & _ & _ & _ & Hcams).
  apply frame_started_ok; try done.
  - by apply acquired_in_range.
  - by rewrite length_insert.
  - by rewrite length_map.
  - by rewrite flushed_all_ok.
Qed.

Lemma rd_cases {A} (a : list A) (i : Z) : rd a i = Fault \/ exists x, rd a i = Ok x.
Proof.
  unfold rd. destruct (0 <=? i); [|by left].
  destruct (a !! Z.to_nat i); [right; by eexists|by left].
Qed.

Lemma rd_out_of_range {A} (a : list A) (i : Z) :
  ~ (0 <= i < Z.of_nat (length a)) -> rd a i = Fault.
Proof.
  intros Hn. destruct (rd_cases a i) as [|[x Hx]]; [done|].
  apply rd_Ok in Hx as [Hi Hx]. apply lookup_lt_Some in Hx. lia.
Qed.

Lemma no_queue_work_errorCheck res :
  Forall (fun e => is_queue_work e = false) (vk2dErrorCheck res).
Proof.
  unfold vk2dErrorCheck. destruct (VkResult_eqb res VK_SUCCESS); repeat constructor.
Qed.

Lemma no_queue_work_rebuild env r :
  Forall (fun e => is_queue_work e = false) (rebuild_events env r).
Proof.
  unfold rebuild_events. apply Forall_app. split.
  - apply Forall_forall. intros e He. apply elem_of_replicate in He as [-> _]. done.
  - unfold rebuild_teardown, rebuild_setup. repeat constructor.
Qed.

Lemma no_queue_work_flush frame l :
  Forall (fun e => is_queue_work e = false) (map (EvFlushUBOBuffer frame) l).
Proof. apply Forall_forall. intros e He. apply list_elem_of_fmap in He as (? & -> & _). done. Qed.

Lemma frame_counted_count env r :
  swapchainImageCount (frame_counted env r) = swapchainImageCount r
  /\ scImageIndex (frame_counted env r) = scImageIndex r.
Proof. unfold frame_counted. cbv zeta. by destruct (double_ge _ _). Qed.

Lemma acquire_ok_count env r r' :
  swapchainImageCount r' = swapchainImageCount r -> acquire_ok env r' = acquire_ok env r.
Proof. intros H. unfold acquire_ok. by rewrite H. Qed.

(** X1.  One frame on a renderer whose arrays have their sizes runs to
    its end.  The frame slot's fence is waited on first and is the fence
    the submission signals; the semaphore the acquisition signals is the
    one the submission waits on, and the semaphore the submission signals
    is the one the presentation of the acquired image waits on.  The frame
    hands nothing else to the queue.  Unless the swapchain is rebuilt, the
    fence is left as the last user of the acquired image. *)
Theorem frame_hands_over_in_order g r clear senv eenv :
  gRenderer g = Some r -> procedStartFrame r = false ->
  renderer_ok r = true -> acquire_ok senv r = true ->
  exists g2 r2 fence available finished cb opened closed,
    frame clear senv eenv g = Ok g2
    /\ gRenderer g2 = Some r2
    /\ rd (inFlightFences r) (currentFrame r) = Ok fence
    /\ rd (imageAvailableSemaphores r) (currentFrame r) = Ok available
    /\ rd (renderFinishedSemaphores r) (currentFrame r) = Ok finished
    /\ rd (commandBuffer r) (acquired senv r) = Ok cb
    /\ gTrace g2
       = gTrace g
         ++ [EvWaitForFences fence;
             EvAcquireNextImage (swapchain r) available (seAcquireResult senv)]
         ++ opened
         ++ [EvResetFences fence;
             EvQueueSubmit (ldQueue (ld r)) cb available finished fence]
         ++ vk2dErrorCheck (eeSubmitResult eenv)
         ++ [EvQueuePresent (ldQueue (ld r)) (swapchain r) (acquired senv r) finished]
         ++ closed
    /\ Forall (fun e => is_queue_work e = false) (opened ++ closed)
    /\ (must_rebuild (eeResult eenv) (eeQueueRes eenv) (resetSwapchain r) = false ->
          rd (imagesInFlight r2) (acquired senv r) = Ok fence).
Proof.
  intros Hr Hp Hok Ha.
  destruct (startFrame_total g r clear senv Hr Hp Hok Ha) as [g1 Hg1].
  destruct (startFrame_ok _ _ _ _ _ Hr Hp Hok Ha Hg1) as (r1 & Hr1 & Hok1 & Hp1 & _).
  destruct (startFrame_inv _ _ _ _ _ Hr Hp Hg1)
    as (fence & available & user & users & framebuffer & image & camera0 & uboSet
        & cams & flushes & cb & Hfence & Hav & _ & Hwr & _ & _ & _ & _ & Hflush & Hcb & Hg1').
  destruct (frame_started_fields r (seCounter senv) (acquired senv r) users framebuffer
              image uboSet cams)
    as ((_ & Hi & Hu & _) & (H1 & H2 & H3 & H4 & _ & _ & _ & H8) & (H9 & H10 & H11 & _)).
  cbv zeta in *.
  set (rs := frame_started r (seCounter senv) (acquired senv r) users framebuffer image
               uboSet cams) in *.
  clearbody rs.
  assert (Hrs : gRenderer g1 = Some rs) by (by rewrite Hg1').
  rewrite Hrs in Hr1. injection Hr1 as <-.
  destruct (endFrame_total g1 rs eenv Hrs Hok1) as [g2 Hg2].
  destruct (endFrame_inv _ _ _ _ Hrs Hp1 Hg2)
    as (cb' & finished & available' & fence' & Hcb' & Hfi & Hav' & Hfe' & Hg2').
  rewrite Hg1' in Hg2'. cbn [gTextures gTrace] in Hg2'. clear Hrs Hg1'.
  rewrite H8, Hi in Hcb'. rewrite H4, H1 in Hfi. rewrite H3, H1 in Hav'.
  rewrite H2, H1 in Hfe'.
  rewrite Hcb in Hcb'. injection Hcb' as <-.
  rewrite Hav in Hav'. injection Hav' as <-.
  rewrite Hfence in Hfe'. injection Hfe' as <-.
  apply flush_cameras_spec in Hflush as [_ ->].
  eexists g2, _, fence, available, finished, cb,
    ((if is_null user then [] else [EvWaitForFences user])
     ++ [EvResetBoundPointers]
     ++ map (EvFlushUBOBuffer (acquired senv r)) (normal_cameras 0 (cameras r))
     ++ [EvResetCommandBuffer cb; EvBeginCommandBuffer cb]
     ++ vk2dErrorCheck (seBeginResult senv)
     ++ [EvCmdBeginRenderPass cb (renderPass r) framebuffer
           (surfaceWidth r) (surfaceHeight r) (Some clear)]
     ++ [EvCmdEndRenderPass cb; EvEndCommandBuffer cb]
     ++ vk2dErrorCheck (eeEndResult eenv)), _.
  split. { unfold frame. rewrite Hg1. exact Hg2. }
  subst g2. cbn [gRenderer gTrace gTextures].
  split; [reflexivity|]. do 4 (split; [done|]).
  split.
  { unfold submit_events. rewrite H9, H10, Hi, H11.
    repeat first [rewrite <- app_assoc | progress cbn [app]]. reflexivity. }
  split.
  { apply Forall_app. split.
    - repeat (apply Forall_app; split);
        try apply no_queue_work_errorCheck; try apply no_queue_work_flush;
        try (destruct (is_null user)); repeat constructor.
    - destruct (must_rebuild (eeResult eenv) (eeQueueRes eenv) (resetSwapchain r)).
      + apply no_queue_work_rebuild.
      + apply Forall_app; split; apply no_queue_work_errorCheck. }
  intros Hm. rewrite <- H11 in Hm. rewrite Hm.
  destruct (frame_counted_fields eenv (set_procedStartFrame false rs))
    as (_ & _ & _ & _ & _ & -> & _).
  destruct (set_procedStartFrame_fields false rs) as (-> & _).
  rewrite Hu. by eapply rd_wr.
Qed.

(** A frame that rebuilds nothing. *)
Lemma frame_quiet g r clear senv eenv :
  gRenderer g = Some r -> procedStartFrame r = false -> resetSwapchain r = false ->
  renderer_ok r = true -> acquire_ok senv r = true -> quiet eenv = true ->
  exists g2 r2,
    frame clear senv eenv g = Ok g2 /\ gRenderer g2 = Some r2
    /\ procedStartFrame r2 = false /\ resetSwapchain r2 = false
    /\ renderer_ok r2 = true
    /\ swapchainImageCount r2 = swapchainImageCount r
    /\ currentFrame r2 = (currentFrame r + 1) mod VK2D_MAX_FRAMES_IN_FLIGHT.
Proof.
  intros Hr Hp Hflag Hok Ha Hq.
  destruct (startFrame_total g r clear senv Hr Hp Hok Ha) as [g1 Hg1].
  destruct (startFrame_ok _ _ _ _ _ Hr Hp Hok Ha Hg1)
    as (r1 & Hr1 & Hok1 & Hp1 & Hc1 & Hf1 & Hn1).
  destruct (endFrame_total _ r1 eenv Hr1 Hok1) as [g2 Hg2].
  destruct (endFrame_inv _ _ _ _ Hr1 Hp1 Hg2) as (? & ? & ? & ? & _ & _ & _ & _ & Hg2').
  rewrite Hf1, Hflag in Hg2'. unfold quiet in Hq. apply negb_true_iff in Hq.
  rewrite Hq in Hg2'. subst g2.
  eexists _, _. split. { unfold frame. rewrite Hg1. exact Hg2. }
  cbn [gRenderer]. split; [reflexivity|].
  destruct (frame_counted_fields eenv (set_procedStartFrame false r1))
    as (-> & _ & _ & -> & -> & _).
  rewrite (proj1 (frame_counted_count _ _)).
  split; [done|]. split; [by rewrite <- Hflag, <- Hf1|].
  split; [by apply frame_counted_ok, ended_ok|].
  split; [done|].
  change (currentFrame (set_procedStartFrame false r1)) with (currentFrame r1).
  rewrite Hc1. apply renderer_ok_spec in Hok as (Hcf & Hmax & _).
  rewrite wrap32_small by lia. done.
Qed.

(** X2.  Any number of frames in a row, none of them rebuilding the
    swapchain, all run to their end on a renderer whose arrays have their
    sizes, leave it so, and move the frame slot round the ring by their
    number. *)
Theorem frames_advance_ring envs : forall g r,
  gRenderer g = Some r -> procedStartFrame r = false -> resetSwapchain r = false ->
  renderer_ok r = true ->
  Forall (fun e => acquire_ok (snd (fst e)) r = true /\ quiet (snd e) = true) envs ->
  exists g' r',
    frames envs g = Ok g' /\ gRenderer g' = Some r'
    /\ procedStartFrame r' = false /\ resetSwapchain r' = false
    /\ renderer_ok r' = true
    /\ currentFrame r'
       = (currentFrame r + Z.of_nat (length envs)) mod VK2D_MAX_FRAMES_IN_FLIGHT.
Proof.
  induction envs as [|[[clear senv] eenv] envs IH]; intros g r Hr Hp Hflag Hok Henv.
  - exists g, r. cbn [frames length]. do 4 (split; [done|]). split; [done|].
    apply renderer_ok_spec in Hok as (Hcf & _).
    rewrite Z.add_0_r, Z.mod_small; done.
  - apply Forall_cons in Henv as [[Ha Hq] Henv]. cbn [fst snd] in Ha, Hq.
    destruct (frame_quiet g r clear senv eenv Hr Hp Hflag Hok Ha Hq)
      as (g1 & r1 & Hg1 & Hr1 & Hp1 & Hflag1 & Hok1 & Hn1 & Hc1).
    destruct (IH g1 r1 Hr1 Hp1 Hflag1 Hok1) as (g' & r' & Hg' & Hr' & Hp' & Hflag' & Hok' & Hc').
    { eapply Forall_impl; [exact Henv|]. intros e [He1 He2]. split; [|done].
      by rewrite (acquire_ok_count _ r r1). }
    exists g', r'. cbn [frames]. rewrite Hg1. cbn [obind].
    do 5 (split; [done|]).
    rewrite Hc', Hc1. cbn [length]. rewrite Zplus_mod_idemp_l. f_equal. lia.
Qed.

Lemma startFrame_stale_index g r clear env :
  gRenderer g = Some r -> procedStartFrame r = false ->
  seAcquiredImage env = None ->
  ~ (0 <= scImageIndex r < Z.of_nat (length (imagesInFlight r))) ->
  vk2dRendererStartFrame clear env g = Fault.
Proof.
  intros Hr Hp Hnone Hidx. unfold vk2dRendererStartFrame. rewrite Hr, Hp, Hnone.
  cbv zeta. simpl_renderer.
  destruct (rd_cases (inFlightFences r) (currentFrame r)) as [->|[fence ->]]; [done|].
  cbn [obind].
  destruct (rd_cases (imageAvailableSemaphores r) (currentFrame r)) as [->|[av ->]]; [done|].
  cbn [obind]. simpl_renderer. by rewrite rd_out_of_range.
Qed.

(** X3.  The image index survives a rebuild.  When the rebuilt
    swapchain has no image of that index and the next acquisition stores
    none, the next frame indexes the per-image arrays out of range. *)
Theorem stale_image_index_after_rebuild g r eenv clear senv :
  gRenderer g = Some r -> procedStartFrame r = true -> renderer_ok r = true ->
  must_rebuild (eeResult eenv) (eeQueueRes eenv) (resetSwapchain r) = true ->
  Z.of_nat (reImageCount (eeRebuild eenv)) <= scImageIndex r ->
  seAcquiredImage senv = None ->
  exists g1,
    vk2dRendererEndFrame eenv g = Ok g1
    /\ vk2dRendererStartFrame clear senv g1 = Fault.
Proof.
  intros Hr Hp Hok Hm Hidx Hnone.
  destruct (endFrame_total g r eenv Hr Hok) as [g1 Hg1].
  destruct (endFrame_inv _ _ _ _ Hr Hp Hg1) as (? & ? & ? & ? & _ & _ & _ & _ & Hg1').
  rewrite Hm in Hg1'.
  pose proof (resetSwapchain_fields (eeRebuild eenv) (set_procedStartFrame false r)) as Hrb.
  cbv zeta in Hrb. destruct Hrb as (_ & _ & _ & Hrp & _ & Hsi & _ & _ & Hri).
  set (rebuilt := fst (_vk2dRendererResetSwapchain (eeRebuild eenv)
                         (set_procedStartFrame false r))) in *.
  clearbody rebuilt.
  exists g1. split; [done|]. subst g1.
  eapply startFrame_stale_index; [reflexivity| | done |].
  - destruct (frame_counted_fields eenv (set_resetSwapchain false rebuilt))
      as (_ & _ & _ & _ & -> & _).
    destruct (config_set_resetSwapchain false rebuilt) as [_ ->].
    rewrite Hrp. reflexivity.
  - destruct (frame_counted_fields eenv (set_resetSwapchain false rebuilt))
      as (_ & _ & _ & _ & _ & -> & _).
    rewrite (proj2 (frame_counted_count _ _)).
    destruct (set_resetSwapchain_fields false rebuilt) as (-> & -> & _).
    rewrite Hri, Hsi, length_replicate.
    destruct (set_procedStartFrame_fields false r) as (_ & _ & ->). lia.
Qed.

(** *** Targets and frames *)

Lemma target_switched_fields r X pass framebuffer image buffer :
  let r' := target_switched r X pass framebuffer image buffer in
  (target r' = X /\ targetRenderPass r' = pass /\ targetFrameBuffer r' = framebuffer
   /\ targetImage r' = image /\ targetUBOSet r' = buffer)
  /\ (commandBuffer r' = commandBuffer r /\ scImageIndex r' = scImageIndex r
      /\ framebuffers r' = framebuffers r /\ swapchainImages r' = swapchainImages r
      /\ cameras r' = cameras r /\ surfaceWidth r' = surfaceWidth r
      /\ surfaceHeight r' = surfaceHeight r
      /\ midFrameSwapRenderPass r' = midFrameSwapRenderPass r
      /\ externalTargetRenderPass r' = externalTargetRenderPass r)
  /\ renderer_ok r' = renderer_ok r.
Proof. done. Qed.

(** X4.  Drawing to a texture and back.  From the screen,
    [vk2dRendererSetTarget X] for a texture [X] followed by
    [vk2dRendererSetTarget VK2D_TARGET_SCREEN] moves the texture's image to
    the colour-attachment layout and back to the shader-read layout, never
    touches the layout of the swapchain image, and leaves the screen as the
    target again, with its framebuffer and image, under the mid-frame
    render pass. *)
Theorem setTarget_there_and_back g r X t :
  gRenderer g = Some r -> renderer_ok r = true ->
  target r = VK2D_TARGET_SCREEN -> X <> VK2D_TARGET_SCREEN ->
  gTextures g X = Some t ->
  exists g1 g2 r2 cb framebuffer image,
    vk2dRendererSetTarget X g = Ok g1
    /\ vk2dRendererSetTarget VK2D_TARGET_SCREEN g1 = Ok g2
    /\ gRenderer g2 = Some r2
    /\ rd (commandBuffer r) (scImageIndex r) = Ok cb
    /\ rd (framebuffers r) (scImageIndex r) = Ok framebuffer
    /\ rd (swapchainImages r) (scImageIndex r) = Ok image
    /\ gTrace g2
       = gTrace g
         ++ [EvCmdEndRenderPass cb;
             EvTransitionImageLayout (imgImg (texImg t))
               VK_IMAGE_LAYOUT_SHADER_READ_ONLY_OPTIMAL
               VK_IMAGE_LAYOUT_COLOR_ATTACHMENT_OPTIMAL;
             EvCmdBeginRenderPass cb (externalTargetRenderPass r) (texFbo t)
               (imgWidth (texImg t)) (imgHeight (texImg t)) None;
             EvResetBoundPointers;
             EvCmdEndRenderPass cb;
             EvTransitionImageLayout (imgImg (texImg t))
               VK_IMAGE_LAYOUT_COLOR_ATTACHMENT_OPTIMAL
               VK_IMAGE_LAYOUT_SHADER_READ_ONLY_OPTIMAL;
             EvCmdBeginRenderPass cb (midFrameSwapRenderPass r) framebuffer
               (surfaceWidth r) (surfaceHeight r) None;
             EvResetBoundPointers]
    /\ target r2 = VK2D_TARGET_SCREEN
    /\ targetFrameBuffer r2 = framebuffer
    /\ targetImage r2 = image
    /\ targetRenderPass r2 = midFrameSwapRenderPass r.
Proof.
  intros Hr Hok Hscreen HX Ht.
  assert (Hne : X <> target r) by congruence.
  destruct (setTarget_total g r X Hr Hok (or_intror (ex_intro _ t Ht))) as [g1 Hg1].
  destruct (setTarget_inv _ _ _ _ Hr Hne Hg1)
    as (cb & pass & fb1 & img1 & buf1 & w1 & h1 & tr1 & Hcb & Hcase & Hg1').
  destruct (Nat.eqb_spec X VK2D_TARGET_SCREEN) as [|_]; [done|].
  destruct Hcase as (t' & Ht' & -> & -> & -> & -> & -> & -> & ->).
  rewrite Ht in Ht'. injection Ht' as <-.
  destruct (target_switched_fields r X (externalTargetRenderPass r) (texFbo t)
              (imgImg (texImg t)) (texUboSet t))
    as ((T1 & _ & _ & T4 & _) & (F1 & F2 & F3 & F4 & F5 & F6 & F7 & F8 & _) & Hok1).
  cbv zeta in *.
  set (r1 := target_switched r X (externalTargetRenderPass r) (texFbo t)
               (imgImg (texImg t)) (texUboSet t)) in *.
  clearbody r1. rewrite Hok in Hok1.
  assert (Hr1 : gRenderer g1 = Some r1) by (by rewrite Hg1').
  assert (Hne1 : VK2D_TARGET_SCREEN <> target r1) by (rewrite T1; congruence).
  destruct (setTarget_total g1 r1 VK2D_TARGET_SCREEN Hr1 Hok1 (or_introl eq_refl))
    as [g2 Hg2].
  destruct (setTarget_inv _ _ _ _ Hr1 Hne1 Hg2)
    as (cb' & pass' & framebuffer & image & buffer & w2 & h2 & tr2 & Hcb' & Hcase & Hg2').
  rewrite Nat.eqb_refl in Hcase.
  destruct Hcase as (-> & Hfb & Him & _ & -> & -> & ->).
  rewrite F1, F2 in Hcb'. rewrite Hcb in Hcb'. injection Hcb' as <-.
  rewrite F3, F2 in Hfb. rewrite F4, F2 in Him.
  rewrite Hg1' in Hg2'. cbn [gTextures gTrace] in Hg2'.
  destruct (target_switched_fields r1 VK2D_TARGET_SCREEN (midFrameSwapRenderPass r1)
              framebuffer image buffer)
    as ((U1 & U2 & U3 & U4 & _) & _).
  exists g1, g2, (target_switched r1 VK2D_TARGET_SCREEN (midFrameSwapRenderPass r1)
                    framebuffer image buffer), cb, framebuffer, image.
  split; [done|]. split; [done|]. subst g2. cbn [gRenderer gTrace].
  split; [done|]. do 3 (split; [done|]).
  split. { rewrite T4, F6, F7, F8, <- app_assoc. reflexivity. }
  rewrite U1, U2, U3, U4, F8. done.
Qed.

Lemma no_transition_errorCheck res :
  Forall (fun e => is_transition e = false) (vk2dErrorCheck res).
Proof.
  unfold vk2dErrorCheck. destruct (VkResult_eqb res VK_SUCCESS); repeat constructor.
Qed.

Lemma no_transition_rebuild env r :
  Forall (fun e => is_transition e = false) (rebuild_events env r).
Proof.
  unfold rebuild_events. apply Forall_app. split.
  - apply Forall_forall. intros e He. apply elem_of_replicate in He as [-> _]. done.
  - unfold rebuild_teardown, rebuild_setup. repeat constructor.
Qed.

(** X5.  The frame boundary does not put image layouts back.  A call of
    [vk2dRendererEndFrame] that closes a frame leaves the target whatever
    it was when no rebuild takes place, and a call of
    [vk2dRendererStartFrame] that opens one makes the screen the target;
    neither makes a layout transition.  So a texture that is the target
    when the frame ends stays in the colour-attachment layout. *)
Theorem frame_boundary_keeps_layouts g r :
  gRenderer g = Some r ->
  (forall env g' r',
     procedStartFrame r = true ->
     vk2dRendererEndFrame env g = Ok g' -> gRenderer g' = Some r' ->
     Forall (fun e => is_transition e = false) (drop (length (gTrace g)) (gTrace g'))
     /\ (must_rebuild (eeResult env) (eeQueueRes env) (resetSwapchain r) = false ->
           target r' = target r /\ targetImage r' = targetImage r))
  /\ (forall clear env g' r',
        procedStartFrame r = false ->
        vk2dRendererStartFrame clear env g = Ok g' -> gRenderer g' = Some r' ->
        Forall (fun e => is_transition e = false) (drop (length (gTrace g)) (gTrace g'))
        /\ target r' = VK2D_TARGET_SCREEN).
Proof.
  intros Hr. split.
  - intros env g' r' Hp Hg Hr'.
    destruct (endFrame_inv _ _ _ _ Hr Hp Hg) as (cb & fi & av & fe & _ & _ & _ & _ & ->).
    cbn [gRenderer gTrace] in *. injection Hr' as <-.
    rewrite drop_app_length. split.
    + apply Forall_app. split.
      * unfold submit_events.
        repeat (apply Forall_app; split); try apply no_transition_errorCheck;
          repeat constructor.
      * destruct (must_rebuild _ _ _).
        -- apply no_transition_rebuild.
        -- apply Forall_app; split; apply no_transition_errorCheck.
    + intros ->.
      assert (Hfc : forall x, target (frame_counted env x) = target x
                              /\ targetImage (frame_counted env x) = targetImage x).
      { intros x. unfold frame_counted. cbv zeta. by destruct (double_ge _ _). }
      destruct (Hfc (set_procedStartFrame false r)) as [-> ->]. done.
  - intros clear env g' r' Hp Hg Hr'.
    destruct (startFrame_inv _ _ _ _ _ Hr Hp Hg)
      as (fence & available & user & users & framebuffer & image & camera0 & uboSet
          & cams & flushes & cb & _ & _ & _ & _ & _ & _ & _ & _ & Hflush & _ & ->).
    cbn [gRenderer gTrace] in *. injection Hr' as <-.
    rewrite drop_app_length. split; [|done].
    apply flush_cameras_spec in Hflush as [_ ->].
    assert (Hfl : Forall (fun e => is_transition e = false)
                    (map (EvFlushUBOBuffer (acquired env r))
                       (normal_cameras 0 (cameras r)))).
    { apply Forall_forall. intros e He.
      apply list_elem_of_fmap in He as (? & -> & _). done. }
    repeat (apply Forall_app; split); try apply no_transition_errorCheck;
      try exact Hfl; try (destruct (is_null user)); repeat constructor.
Qed.

(** *** Fields and their readers *)

(** X6.  [vk2dRendererGetCamera] does not read what
    [vk2dRendererSetCamera] wrote: it returns the renderer's default
    camera specification, which [vk2dRendererSetCamera] leaves alone. *)
Theorem getCamera_ignores_setCamera g r s g' :
  gRenderer g = Some r -> vk2dRendererSetCamera s g = Ok g' ->
  vk2dRendererGetCamera g' = (g', defaultCameraSpec r)
  /\ snd (vk2dRendererGetCamera g') = snd (vk2dRendererGetCamera g).
Proof.
  intros Hr H. unfold vk2dRendererSetCamera in H. rewrite Hr in H.
  destruct (rd (cameras r) VK2D_DEFAULT_CAMERA) as [cam| |]; try done.
  cbn [obind] in H. cbv zeta in H.
  destruct (wr (cameras r) VK2D_DEFAULT_CAMERA _) as [cams| |]; try done.
  cbn [obind] in H. injection H as <-.
  unfold vk2dRendererGetCamera. cbn [gRenderer set_gRenderer]. rewrite Hr. done.
Qed.

(** X7.  The colour modifier, the blend mode and the viewport rectangle
    are read back as they were set, the reader leaving the process alone;
    setting the viewport keeps its depth range; and unlocking the cameras
    after locking them leaves no camera locked. *)
Theorem setters_read_back g r :
  gRenderer g = Some r ->
  (forall v, vk2dRendererGetColourMod (vk2dRendererSetColourMod v g)
             = (vk2dRendererSetColourMod v g, Some v))
  /\ (forall b, vk2dRendererGetBlendMode (vk2dRendererSetBlendMode b g)
                = (vk2dRendererSetBlendMode b g, b))
  /\ (forall x y w h,
        vk2dRendererGetViewport (vk2dRendererSetViewport x y w h g)
        = (vk2dRendererSetViewport x y w h g, Some (x, y, w, h))
        /\ exists r', gRenderer (vk2dRendererSetViewport x y w h g) = Some r'
             /\ minDepth (viewport r') = minDepth (viewport r)
             /\ maxDepth (viewport r') = maxDepth (viewport r))
  /\ (forall cam, exists r',
        gRenderer (vk2dRendererUnlockCameras (vk2dRendererLockCameras cam g)) = Some r'
        /\ cameraLocked r' = VK2D_INVALID_CAMERA
        /\ r' = set_cameraLocked VK2D_INVALID_CAMERA r).
Proof.
  intros Hr. split; [|split; [|split]].
  - intros v. unfold vk2dRendererGetColourMod, vk2dRendererSetColourMod. by rewrite Hr.
  - intros b. unfold vk2dRendererGetBlendMode, vk2dRendererSetBlendMode. by rewrite Hr.
  - intros x y w h. unfold vk2dRendererGetViewport, vk2dRendererSetViewport.
    rewrite Hr. split; [done|]. eexists. split; [reflexivity|]. done.
  - intros cam. unfold vk2dRendererUnlockCameras, vk2dRendererLockCameras.
    rewrite Hr. eexists. split; [reflexivity|]. split; [done|].
    destruct r; reflexivity.
Qed.

(** *** The staged configuration at the frame's end *)

Lemma must_rebuild_requested x y : must_rebuild x y true = true.
Proof.
  unfold must_rebuild.
  destruct (VkResult_eqb x VK_ERROR_OUT_OF_DATE_KHR), (VkResult_eqb x VK_SUBOPTIMAL_KHR);
    done.
Qed.

Lemma staged_fields c r :
  let r1 := set_resetSwapchain true (set_newConfig c r) in
  resetSwapchain r1 = true /\ newConfig r1 = c /\ config r1 = config r
  /\ procedStartFrame r1 = procedStartFrame r /\ renderer_ok r1 = renderer_ok r
  /\ presentModes r1 = presentModes r /\ ld r1 = ld r.
Proof. done. Qed.

Lemma ended_staged_fields r :
  newConfig (set_procedStartFrame false r) = newConfig r
  /\ presentModes (set_procedStartFrame false r) = presentModes r
  /\ ld (set_procedStartFrame false r) = ld r.
Proof. done. Qed.

(** X8.  A configuration requested inside a frame is not what
    [vk2dRendererGetConfig] returns until the frame ends.  The
    [vk2dRendererEndFrame] that closes the frame then rebuilds the
    swapchain whatever the presentation reported, and after it
    [vk2dRendererGetConfig] returns the requested configuration, its
    multisample level cut down to the device's maximum and its screen mode
    replaced by FIFO when the surface does not list it. *)
Theorem config_applies_at_frame_end g r c env :
  gRenderer g = Some r -> procedStartFrame r = true -> renderer_ok r = true ->
  snd (vk2dRendererGetConfig (vk2dRendererSetConfig c g)) = config r
  /\ exists g2 before,
       vk2dRendererEndFrame env (vk2dRendererSetConfig c g) = Ok g2
       /\ gTrace g2 = before ++ rebuild_events (eeRebuild env) r
       /\ snd (vk2dRendererGetConfig g2)
          = mkConfig (Z.min (msaa c) (pdMaxMSAA (pd r)))
                     (_vk2dRendererGetPresentMode r (screenMode c))
                     (filterMode c).
Proof.
  intros Hr Hp Hok. rewrite (setConfig_stages g r c Hr).
  set (staged := mkConfig (if pdMaxMSAA (pd r) >=? msaa c then msaa c else pdMaxMSAA (pd r))
                          (screenMode c) (filterMode c)).
  destruct (staged_fields staged r) as (Hflag & Hnew & Hcfg & Hp1 & Hok1 & Hpm & Hld).
  cbv zeta in *.
  set (r1 := set_resetSwapchain true (set_newConfig staged r)) in *.
  clearbody r1. rewrite Hp in Hp1. rewrite Hok in Hok1.
  set (g1 := mkGlobal (Some r1) (gTextures g) (gTrace g)).
  split. { unfold vk2dRendererGetConfig. cbn [gRenderer g1]. by rewrite <- Hcfg. }
  destruct (endFrame_total g1 r1 env eq_refl Hok1) as [g2 Hg2].
  destruct (endFrame_inv g1 r1 env g2 eq_refl Hp1 Hg2)
    as (cb & fi & av & fe & _ & _ & _ & _ & Hg2').
  rewrite Hflag, must_rebuild_requested in Hg2'.
  pose proof (resetSwapchain_fields (eeRebuild env) (set_procedStartFrame false r1)) as Hrb.
  cbv zeta in Hrb. destruct Hrb as (Hc & _).
  destruct (ended_staged_fields r1) as (E1 & E2 & E3).
  rewrite E1, Hnew in Hc. unfold _vk2dRendererGetPresentMode in Hc. rewrite E2, Hpm in Hc.
  set (rebuilt := fst (_vk2dRendererResetSwapchain (eeRebuild env)
                         (set_procedStartFrame false r1))) in *.
  clearbody rebuilt.
  exists g2, (gTrace g ++ submit_events env r1 cb fi av fe).
  split; [done|]. subst g2. cbn [gTrace g1].
  split.
  { rewrite <- app_assoc. do 2 f_equal. unfold rebuild_events. by rewrite Hld. }
  unfold vk2dRendererGetConfig. cbn [gRenderer snd].
  destruct (frame_counted_fields env (set_resetSwapchain false rebuilt))
    as (_ & -> & _).
  destruct (config_set_resetSwapchain false rebuilt) as [-> _].
  rewrite Hc. unfold staged, _vk2dRendererGetPresentMode. cbn [msaa screenMode filterMode].
  f_equal. destruct (Z.geb_spec (pdMaxMSAA (pd r)) (msaa c)); lia.
Qed.

(** *** After shutdown *)

Lemma run_on_null (op : Op) (g : Global) :
  gRenderer g = None ->
  exists g',
    run op g = Ok (g', neutral op)
    /\ gRenderer g' = None
    /\ exists n, gTrace g' = gTrace g ++ replicate n (EvLogMessage "Renderer is not initialized").
Proof.
  intros Hn. destruct g as [r tex tr]. simpl in Hn. subst r.
  destruct op; eexists; (split; [reflexivity|]); (split; [reflexivity|]);
    first [ by exists 1%nat | exists 0%nat; simpl; by rewrite app_nil_r ].
Qed.

Lemma runs_on_null ops : forall g,
  gRenderer g = None ->
  exists g',
    runs ops g = Ok (g', map neutral ops)
    /\ gRenderer g' = None
    /\ exists n, gTrace g' = gTrace g ++ replicate n (EvLogMessage "Renderer is not initialized").
Proof.
  induction ops as [|op ops IH]; intros g Hn.
  - exists g. split; [done|]. split; [done|]. exists 0%nat. by rewrite app_nil_r.
  - destruct (run_on_null op g Hn) as (g1 & Hrun & Hn1 & n1 & Ht1).
    destruct (IH g1 Hn1) as (g2 & Hruns & Hn2 & n2 & Ht2).
    exists g2. cbn [runs map]. rewrite Hrun. cbn [obind]. rewrite Hruns. cbn [obind].
    split; [done|]. split; [done|]. exists (n1 + n2)%nat.
    by rewrite Ht2, Ht1, <- app_assoc, replicate_add.
Qed.


(** *** The present mode *)

(** X10.  [_vk2dRendererGetPresentMode] answers the mode asked for when
    the surface lists it and FIFO when it does not; asking again for its
    answer changes nothing; and the screen mode a swapchain rebuild applies
    is its answer for the staged one. *)
Theorem presentMode_falls_back r m env :
  (In m (presentModes r) -> _vk2dRendererGetPresentMode r m = m)
  /\ (~ In m (presentModes r) ->
        _vk2dRendererGetPresentMode r m = VK_PRESENT_MODE_FIFO_KHR)
  /\ _vk2dRendererGetPresentMode r (_vk2dRendererGetPresentMode r m)
     = _vk2dRendererGetPresentMode r m
  /\ screenMode (config (fst (_vk2dRendererResetSwapchain env r)))
     = _vk2dRendererGetPresentMode r (screenMode (newConfig r)).
Proof.
  assert (Hex : forall x, existsb (Z.eqb x) (presentModes r) = true <-> In x (presentModes r)).
  { intros x. rewrite existsb_exists. split.
    - intros (y & Hy & ->%Z.eqb_eq). done.
    - intros Hx. exists x. split; [done|]. apply Z.eqb_refl. }
  split; [|split; [|split]].
  - intros Hin. unfold _vk2dRendererGetPresentMode.
    apply Hex in Hin. by rewrite Hin.
  - intros Hnin. unfold _vk2dRendererGetPresentMode.
    destruct (existsb (Z.eqb m) (presentModes r)) eqn:E; [|done].
    apply Hex in E. done.
  - unfold _vk2dRendererGetPresentMode.
    destruct (existsb (Z.eqb m) (presentModes r)) eqn:E.
    + by rewrite E.
    + by destruct (existsb (Z.eqb VK_PRESENT_MODE_FIFO_KHR) (presentModes r)).
  - destruct (resetSwapchain_fields env r) as (-> & _). done.
Qed.

(** *** Cameras *)

(** X11.  The camera loop of [vk2dRendererStartFrame].  A call that
    opens a frame leaves every camera its state, its specification and its
    descriptor sets.  A camera in the normal state has its specification
    written to its uniform buffer of the acquired image, the buffers of the
    other images staying as they were; any other camera is not touched.
    One flush is made per camera in the normal state, in slot order, and
    no other. *)
Theorem startFrame_flushes_normal_cameras g r clear env g' r' :
  gRenderer g = Some r -> procedStartFrame r = false ->
  vk2dRendererStartFrame clear env g = Ok g' -> gRenderer g' = Some r' ->
  Forall2 (fun c c' =>
             state c' = state c /\ spec c' = spec c /\ uboSets c' = uboSets c
             /\ (state c = cs_Normal ->
                   ubos c' = <[Z.to_nat (acquired env r) := Some (spec c)]> (ubos c))
             /\ (state c <> cs_Normal -> ubos c' = ubos c))
          (cameras r) (cameras r')
  /\ exists before after,
       gTrace g' = gTrace g ++ before
                     ++ map (EvFlushUBOBuffer (acquired env r))
                          (normal_cameras 0 (cameras r))
                     ++ after
       /\ Forall (fun e => forall f i, e <> EvFlushUBOBuffer f i) (before ++ after).
Proof.
  intros Hr Hp Hg Hr'.
  destruct (startFrame_inv _ _ _ _ _ Hr Hp Hg)
    as (fence & available & user & users & framebuffer & image & camera0 & uboSet
        & cams & flushes & cb & _ & _ & _ & _ & _ & _ & _ & _ & Hflush & _ & ->).
  cbn [gRenderer gTrace] in *. injection Hr' as <-.
  apply flush_cameras_spec in Hflush as [-> ->].
  destruct (frame_started_fields r (seCounter env) (acquired env r) users framebuffer
              image uboSet (map (flushed (acquired env r)) (cameras r)))
    as ((_ & _ & _ & -> & _) & _).
  split.
  - generalize (cameras r). intros l. induction l as [|c l IH]; cbn [map]; constructor.
    + unfold flushed. destruct (Z.eqb_spec (state c) cs_Normal); cbn [state spec ubos uboSets];
        done.
    + exact IH.
  - exists (([EvWaitForFences fence;
              EvAcquireNextImage (swapchain r) available (seAcquireResult env)]
             ++ (if is_null user then [] else [EvWaitForFences user]))
            ++ [EvResetBoundPointers]),
      ([EvResetCommandBuffer cb; EvBeginCommandBuffer cb]
       ++ vk2dErrorCheck (seBeginResult env)
       ++ [EvCmdBeginRenderPass cb (renderPass r) framebuffer
             (surfaceWidth r) (surfaceHeight r) (Some clear)]).
    split.
    + by rewrite <- !app_assoc.
    + apply Forall_app. split.
      * repeat (apply Forall_app; split); try (destruct (is_null user));
          repeat constructor; done.
      * assert (He : Forall (fun e => forall f i, e <> EvFlushUBOBuffer f i)
                       (vk2dErrorCheck (seBeginResult env))).
        { unfold vk2dErrorCheck. destruct (VkResult_eqb _ _); repeat constructor; done. }
        repeat (apply Forall_app; split); try exact He; repeat constructor; done.
Qed.

(** X12.  What [vk2dRendererSetCamera] stores reaches the uniform
    buffer at the next frame: when the default camera is in the normal
    state, the frame that opens after [vk2dRendererSetCamera s] writes, for
    the acquired image, the view of [s] with the placement the setter put
    in its place. *)
Theorem setCamera_reaches_the_buffer g r s g1 clear env g2 r2 :
  gRenderer g = Some r -> procedStartFrame r = false ->
  (exists cam, rd (cameras r) VK2D_DEFAULT_CAMERA = Ok cam /\ state cam = cs_Normal
               /\ 0 <= acquired env r < Z.of_nat (length (ubos cam))) ->
  vk2dRendererSetCamera s g = Ok g1 ->
  vk2dRendererStartFrame clear env g1 = Ok g2 -> gRenderer g2 = Some r2 ->
  exists cam2,
    rd (cameras r2) VK2D_DEFAULT_CAMERA = Ok cam2
    /\ rd (ubos cam2) (acquired env r)
       = Ok (Some (mkCameraSpec (cameraView s) float_zero float_zero
                     (float_of_u32 (surfaceWidth r)) (float_of_u32 (surfaceHeight r)))).
Proof.
  intros Hr Hp (cam & Hcam & Hst & Hidx) Hset Hg Hr2.
  unfold vk2dRendererSetCamera in Hset. rewrite Hr, Hcam in Hset.
  cbn [obind] in Hset. cbv zeta in Hset.
  cbn [cameraView xOnScreen yOnScreen wOnScreen hOnScreen] in Hset.
  destruct (wr (cameras r) VK2D_DEFAULT_CAMERA _) as [cams| |] eqn:Hw; try done.
  cbn [obind] in Hset. injection Hset as <-.
  assert (Hr1 : gRenderer (set_gRenderer (Some (set_cameras cams r)) g)
                = Some (set_cameras cams r)) by done.
  assert (Hp1 : procedStartFrame (set_cameras cams r) = false) by exact Hp.
  destruct (startFrame_inv _ _ _ _ _ Hr1 Hp1 Hg)
    as (fence & available & user & users & framebuffer & image & camera0 & uboSet
        & cams' & flushes & cb & _ & _ & _ & _ & _ & _ & _ & _ & Hflush & _ & ->).
  cbn [gRenderer] in Hr2. injection Hr2 as <-.
  assert (Hacq : acquired env (set_cameras cams r) = acquired env r) by done.
  rewrite Hacq in *.
  apply flush_cameras_spec in Hflush as [-> _].
  destruct (frame_started_fields (set_cameras cams r) (seCounter env) (acquired env r)
              users framebuffer image uboSet
              (map (flushed (acquired env r)) (cameras (set_cameras cams r))))
    as ((_ & _ & _ & -> & _) & _).
  cbn [cameras set_cameras].
  pose proof (rd_wr _ _ _ _ Hw) as Hnew. apply rd_Ok in Hnew as [Hd Hnew].
  eexists. split.
  - apply rd_Ok. split; [done|]. rewrite list_lookup_fmap, Hnew. reflexivity.
  - unfold flushed. cbn [state spec ubos uboSets]. rewrite Hst, Z.eqb_refl.
    cbn [ubos]. apply rd_Ok. split; [lia|].
    apply list_lookup_insert_eq. lia.
Qed.

(** *** The arrays after a rebuild *)

Lemma rebuilt_sizes env r :
  let r' := fst (_vk2dRendererResetSwapchain env r) in
  swapchainImageCount r' = Z.of_nat (reImageCount env)
  /\ length (swapchainImages r') = reImageCount env
  /\ length (framebuffers r') = reImageCount env
  /\ length (commandBuffer r') = reImageCount env
  /\ imagesInFlight r' = replicate (reImageCount env) VK_NULL_HANDLE
  /\ length (inFlightFences r') = Z.to_nat VK2D_MAX_FRAMES_IN_FLIGHT
  /\ length (imageAvailableSemaphores r') = Z.to_nat VK2D_MAX_FRAMES_IN_FLIGHT
  /\ length (renderFinishedSemaphores r') = Z.to_nat VK2D_MAX_FRAMES_IN_FLIGHT
  /\ cameras r' = cameras r
  /\ currentFrame r' = currentFrame r
  /\ procedStartFrame r' = procedStartFrame r.
Proof.
  unfold _vk2dRendererResetSwapchain, _vk2dRendererCreateSynchronization,
    _vk2dRendererCreateFrameBuffer, _vk2dRendererCreateRenderPass,
    _vk2dRendererCreateSwapchain, _vk2dRendererGetSurfaceSize,
    _vk2dRendererGetPresentMode, per_index.
  cbv zeta. cbn [fst]. simpl_renderer.
  destruct (_ || _); simpl_renderer;
    rewrite ?Nat2Z.id, ?length_map, ?length_seq; done.
Qed.

(** The renderer a rebuilding [vk2dRendererEndFrame] leaves, with the
    image index [i], has its arrays in their sizes when [i] is an image of
    the new swapchain and the cameras have a buffer for each. *)
Lemma rebuilt_ok env r rebuilt i :
  renderer_ok r = true ->
  swapchainImageCount rebuilt = Z.of_nat (reImageCount (eeRebuild env)) ->
  length (swapchainImages rebuilt) = reImageCount (eeRebuild env) ->
  length (framebuffers rebuilt) = reImageCount (eeRebuild env) ->
  length (commandBuffer rebuilt) = reImageCount (eeRebuild env) ->
  imagesInFlight rebuilt = replicate (reImageCount (eeRebuild env)) VK_NULL_HANDLE ->
  length (inFlightFences rebuilt) = Z.to_nat VK2D_MAX_FRAMES_IN_FLIGHT ->
  length (imageAvailableSemaphores rebuilt) = Z.to_nat VK2D_MAX_FRAMES_IN_FLIGHT ->
  length (renderFinishedSemaphores rebuilt) = Z.to_nat VK2D_MAX_FRAMES_IN_FLIGHT ->
  cameras rebuilt = cameras r ->
  currentFrame rebuilt = currentFrame r ->
  Z.of_nat (reImageCount (eeRebuild env)) = swapchainImageCount r ->
  0 <= i < Z.of_nat (reImageCount (eeRebuild env)) ->
  renderer_ok (set_scImageIndex i (frame_counted env (set_resetSwapchain false rebuilt)))
  = true.
Proof.
  intros Hok Hn H1 H2 H3 H4 H5 H6 H7 H8 H9 Hsame Hi.
  apply renderer_ok_spec in Hok
    as (Hcf & Hmax & _ & _ & _ & _ & _ & _ & _ & _ & Hcam & Hcams).
  assert (0 <= wrap32 (currentFrame rebuilt + 1) mod VK2D_MAX_FRAMES_IN_FLIGHT
          < VK2D_MAX_FRAMES_IN_FLIGHT) by (apply Z.mod_pos_bound; lia).
  rewrite <- Hsame, Nat2Z.id in Hcams.
  unfold frame_counted. cbv zeta.
  destruct (double_ge _ _); apply renderer_ok_intro; simpl_renderer;
    rewrite ?Hn, ?H1, ?H2, ?H3, ?H4, ?H5, ?H6, ?H7, ?H8, ?length_replicate, ?Nat2Z.id;
    try done; lia.
Qed.

(** X13.  After a rebuild that keeps the number of images, the arrays
    have their sizes again and no image has a last user: the next frame
    opens for whatever image the swapchain hands out, and waits on the
    fence of its frame slot only. *)
Theorem rebuild_restores_arrays g r eenv clear senv i :
  gRenderer g = Some r -> procedStartFrame r = true -> renderer_ok r = true ->
  must_rebuild (eeResult eenv) (eeQueueRes eenv) (resetSwapchain r) = true ->
  Z.of_nat (reImageCount (eeRebuild eenv)) = swapchainImageCount r ->
  seAcquiredImage senv = Some i -> 0 <= i < Z.of_nat (reImageCount (eeRebuild eenv)) ->
  exists g1 r1 g2,
    vk2dRendererEndFrame eenv g = Ok g1
    /\ gRenderer g1 = Some r1
    /\ imagesInFlight r1 = replicate (reImageCount (eeRebuild eenv)) VK_NULL_HANDLE
    /\ vk2dRendererStartFrame clear senv g1 = Ok g2
    /\ List.filter is_fence_wait (drop (length (gTrace g1)) (gTrace g2))
       = [EvWaitForFences (nth (Z.to_nat (currentFrame r1)) (inFlightFences r1)
                             VK_NULL_HANDLE)].
Proof.
  intros Hr Hp Hok Hm Hsame Hacq Hi.
  destruct (endFrame_total g r eenv Hr Hok) as [g1 Hg1].
  destruct (endFrame_inv _ _ _ _ Hr Hp Hg1) as (? & ? & ? & ? & _ & _ & _ & _ & Hg1').
  rewrite Hm in Hg1'.
  pose proof (rebuilt_sizes (eeRebuild eenv) (set_procedStartFrame false r)) as Hrb.
  cbv zeta in Hrb.
  destruct Hrb as (Hn & H1 & H2 & H3 & H4 & H5 & H6 & H7 & H8 & H9 & H10).
  destruct (set_procedStartFrame_fields false r) as (_ & Hcf & _).
  rewrite Hcf in H9.
  assert (H8' : cameras (fst (_vk2dRendererResetSwapchain (eeRebuild eenv)
                                (set_procedStartFrame false r))) = cameras r)
    by (rewrite H8; done).
  assert (H10' : procedStartFrame (fst (_vk2dRendererResetSwapchain (eeRebuild eenv)
                                (set_procedStartFrame false r))) = false)
    by (rewrite H10; done).
  clear H8 H10.
  set (rebuilt := fst (_vk2dRendererResetSwapchain (eeRebuild eenv)
                         (set_procedStartFrame false r))) in *.
  clearbody rebuilt.
  pose proof (rebuilt_ok eenv r rebuilt i Hok Hn H1 H2 H3 H4 H5 H6 H7 H8' H9 Hsame Hi)
    as Hok1.
  set (r1 := frame_counted eenv (set_resetSwapchain false rebuilt)) in *.
  assert (Hin : imagesInFlight r1
                = replicate (reImageCount (eeRebuild eenv)) VK_NULL_HANDLE).
  { unfold r1.
    destruct (frame_counted_fields eenv (set_resetSwapchain false rebuilt))
      as (_ & _ & _ & _ & _ & -> & _).
    destruct (set_resetSwapchain_fields false rebuilt) as (-> & _). exact H4. }
  assert (Hp1 : procedStartFrame r1 = false).
  { unfold r1.
    destruct (frame_counted_fields eenv (set_resetSwapchain false rebuilt))
      as (_ & _ & _ & _ & -> & _).
    destruct (config_set_resetSwapchain false rebuilt) as [_ ->]. exact H10'. }
  clearbody r1.
  assert (Hr1 : gRenderer g1 = Some r1) by (by rewrite Hg1').
  assert (Hacq' : acquired senv r1 = i) by (unfold acquired; by rewrite Hacq).
  rewrite <- Hacq' in Hok1.
  destruct (startFrame_total_gen g1 r1 clear senv Hr1 Hp1 Hok1) as [g2 Hg2].
  exists g1, r1, g2. do 4 (split; [done|]).
  destruct (startFrame_inv _ _ _ _ _ Hr1 Hp1 Hg2)
    as (fence & available & user & users & framebuffer & image & camera0 & uboSet
        & cams & flushes & cb & Hfence & _ & Huser & _ & _ & _ & _ & _ & Hflush & _ & ->).
  cbn [gTrace]. rewrite drop_app_length.
  rewrite Hin, Hacq' in Huser. apply rd_Ok in Huser as [_ Huser].
  apply lookup_replicate in Huser as [-> _].
  apply flush_cameras_spec in Hflush as [_ ->].
  apply rd_Ok in Hfence as [_ Hfence].
  rewrite (nth_lookup_Some _ _ _ _ Hfence).
  cbn [is_null VK_NULL_HANDLE Nat.eqb app List.filter is_fence_wait].
  f_equal. rewrite !List.filter_app.
  assert (Hfl : forall l, List.filter is_fence_wait
                            (map (EvFlushUBOBuffer (acquired senv r1)) l) = []).
  { intros l. induction l as [|z l IHl]; [done|]. exact IHl. }
  rewrite Hfl. unfold vk2dErrorCheck.
  destruct (VkResult_eqb (seBeginResult senv) VK_SUCCESS); reflexivity.
Qed.

End WithParameters.

(** *** The statements on the example build *)

#[local] Existing Instance example_parameters.



Lemma frame_calls_are_idempotent_witness :
  vk2dRendererStartFrame (P := example_parameters) (1, 1, 1, 1)
    Example.start_env Example.active = Ok Example.active
  /\ vk2dRendererEndFrame (P := example_parameters) Example.end_env Example.idle
     = Ok Example.idle.
Proof.
  split.
  - refine (proj1 (frame_calls_are_idempotent (P := example_parameters)
                     Example.active _ eq_refl) _ _ _).
    reflexivity.
  - refine (proj1 (proj2 (frame_calls_are_idempotent (P := example_parameters)
                            Example.idle _ eq_refl)) _ _).
    reflexivity.
Defined.






Lemma setCamera_overrides_placement_witness :
  exists r' cam',
    vk2dRendererSetCamera (P := example_parameters) (mkCameraSpec 5 10 20 30 40)
      Example.idle = Ok (mkGlobal (Some r') Example.textures [])
    /\ rd (cameras r') 0 = Ok cam'
    /\ spec cam' = mkCameraSpec 5 0 0 800 600.
Proof.
  destruct (setCamera_overrides_placement (P := example_parameters) Example.idle
              Example.renderer (mkCameraSpec (P := example_parameters) 5 10 20 30 40)
              Example.camera
              eq_refl eq_refl)
    as (r' & cam' & Hset & _ & Hrd & Hv & Hx & Hy & Hw & Hh & _).
  exists r', cam'. split; [exact Hset|]. split; [exact Hrd|].
  destruct cam' as [st [v x y w h] u us]. simpl in *. congruence.
Defined.

Lemma frame_hands_over_in_order_witness :
  exists g2 r2,
    frame (P := example_parameters) (1, 1, 1, 1) Example.start_env Example.end_env
      Example.idle = Ok g2
    /\ gRenderer g2 = Some r2
    /\ rd (imagesInFlight r2) 1 = Ok 81%nat.
Proof.
  destruct (frame_hands_over_in_order (P := example_parameters) Example.idle
              Example.renderer (1, 1, 1, 1) Example.start_env Example.end_env
              eq_refl eq_refl eq_refl eq_refl)
    as (g2 & r2 & fence & av & fi & cb & opened & closed
        & Hf & Hr2 & Hfence & _ & _ & _ & _ & _ & Hlast).
  exists g2, r2. split; [exact Hf|]. split; [exact Hr2|].
  vm_compute in Hfence. injection Hfence as <-. exact (Hlast eq_refl).
Defined.

Lemma frames_advance_ring_witness :
  exists g' r',
    frames (P := example_parameters)
      [((1, 1, 1, 1), Example.start_env, Example.end_env);
       ((0, 0, 0, 1), Example.start_env, Example.end_env)] Example.idle = Ok g'
    /\ gRenderer g' = Some r'
    /\ currentFrame r' = 0.
Proof.
  destruct (frames_advance_ring (P := example_parameters)
              [((1, 1, 1, 1), Example.start_env, Example.end_env);
               ((0, 0, 0, 1), Example.start_env, Example.end_env)]
              Example.idle Example.renderer eq_refl eq_refl eq_refl eq_refl)
    as (g' & r' & Hf & Hr' & _ & _ & _ & Hc).
  - repeat constructor.
  - exists g', r'. split; [exact Hf|]. split; [exact Hr'|exact Hc].
Defined.

Lemma stale_image_index_after_rebuild_witness :
  exists g1,
    vk2dRendererEndFrame (P := example_parameters) Example.shrunk_end_env Example.active
    = Ok g1
    /\ vk2dRendererStartFrame (P := example_parameters) (1, 1, 1, 1)
         Example.failed_start_env g1 = Fault.
Proof.
  refine (stale_image_index_after_rebuild (P := example_parameters) Example.active _
            Example.shrunk_end_env (1, 1, 1, 1) Example.failed_start_env
            eq_refl eq_refl eq_refl eq_refl _ eq_refl).
  vm_compute. discriminate.
Defined.

Lemma setTarget_there_and_back_witness :
  exists g1 g2 r2,
    vk2dRendererSetTarget (P := example_parameters) 1%nat Example.active = Ok g1
    /\ vk2dRendererSetTarget (P := example_parameters) 0%nat g1 = Ok g2
    /\ gRenderer g2 = Some r2
    /\ target r2 = 0%nat.
Proof.
  destruct (setTarget_there_and_back (P := example_parameters) Example.active _ 1%nat
              Example.texture eq_refl eq_refl eq_refl)
    as (g1 & g2 & r2 & cb & fb & im & H1 & H2 & Hr2 & _ & _ & _ & _ & Ht & _).
  - vm_compute. discriminate.
  - reflexivity.
  - exists g1, g2, r2. split; [exact H1|]. split; [exact H2|]. split; [exact Hr2|exact Ht].
Defined.

Lemma frame_boundary_keeps_layouts_witness :
  exists r', gRenderer Example.active = Some r' /\ target r' = 0%nat.
Proof.
  eexists. split; [reflexivity|].
  refine (proj2 (proj2 (frame_boundary_keeps_layouts (P := example_parameters)
                          Example.idle Example.renderer eq_refl)
                   (1, 1, 1, 1) Example.start_env Example.active _ eq_refl _ eq_refl)).
  vm_compute. reflexivity.
Defined.

Lemma getCamera_ignores_setCamera_witness :
  exists g',
    vk2dRendererSetCamera (P := example_parameters) (mkCameraSpec 5 10 20 30 40)
      Example.idle = Ok g'
    /\ snd (vk2dRendererGetCamera g') = mkCameraSpec 0 0 0 800 600.
Proof.
  destruct (vk2dRendererSetCamera (P := example_parameters)
              (mkCameraSpec (P := example_parameters) 5 10 20 30 40) Example.idle)
    as [g'| |] eqn:E; [|vm_compute in E; discriminate E..].
  exists g'. split; [reflexivity|].
  destruct (getCamera_ignores_setCamera (P := example_parameters) Example.idle
              Example.renderer _ g' eq_refl E) as [H _].
  rewrite H. reflexivity.
Defined.

Lemma setters_read_back_witness :
  vk2dRendererGetBlendMode (P := example_parameters)
    (vk2dRendererSetBlendMode 3 Example.idle)
  = (vk2dRendererSetBlendMode 3 Example.idle, 3).
Proof.
  exact (proj1 (proj2 (setters_read_back (P := example_parameters) Example.idle
                         Example.renderer eq_refl)) 3).
Defined.

Lemma config_applies_at_frame_end_witness :
  exists g2,
    vk2dRendererEndFrame (P := example_parameters) Example.end_env
      (vk2dRendererSetConfig (mkConfig 16 0 1) Example.active) = Ok g2
    /\ snd (vk2dRendererGetConfig g2) = mkConfig 8 2 1.
Proof.
  destruct (proj2 (config_applies_at_frame_end (P := example_parameters) Example.active _
                     (mkConfig 16 0 1) Example.end_env eq_refl eq_refl eq_refl))
    as (g2 & before & Hg & _ & Hc).
  exists g2. split; [exact Hg|exact Hc].
Defined.


Lemma startFrame_flushes_normal_cameras_witness :
  exists r',
    gRenderer Example.active = Some r'
    /\ Forall2 (fun c c' => spec c' = spec c /\ ubos c' = [None; Some (spec c); None])
         (cameras Example.renderer) (cameras r').
Proof.
  eexists. split; [reflexivity|].
  destruct (startFrame_flushes_normal_cameras (P := example_parameters) Example.idle
              Example.renderer (1, 1, 1, 1) Example.start_env Example.active _
              eq_refl eq_refl ltac:(vm_compute; reflexivity) eq_refl) as [HF _].
  vm_compute. repeat constructor.
Defined.

Lemma setCamera_reaches_the_buffer_witness :
  exists r2 cam2,
    vk2dRendererSetCamera (P := example_parameters) (mkCameraSpec 5 10 20 30 40)
      Example.idle = Ok Example.viewed
    /\ vk2dRendererStartFrame (P := example_parameters) (1, 1, 1, 1)
         Example.start_env Example.viewed = Ok Example.viewed_active
    /\ gRenderer Example.viewed_active = Some r2
    /\ rd (cameras r2) 0 = Ok cam2
    /\ rd (ubos cam2) 1 = Ok (Some (mkCameraSpec 5 0 0 800 600)).
Proof.
  assert (E1 : vk2dRendererSetCamera (P := example_parameters)
                 (mkCameraSpec (P := example_parameters) 5 10 20 30 40) Example.idle
               = Ok Example.viewed) by (vm_compute; reflexivity).
  assert (E2 : vk2dRendererStartFrame (P := example_parameters) (1, 1, 1, 1)
                 Example.start_env Example.viewed = Ok Example.viewed_active)
    by (vm_compute; reflexivity).
  destruct (gRenderer Example.viewed_active) as [r2|] eqn:E3;
    [|vm_compute in E3; discriminate E3].
  destruct (setCamera_reaches_the_buffer (P := example_parameters) Example.idle
              Example.renderer (mkCameraSpec (P := example_parameters) 5 10 20 30 40)
              Example.viewed (1, 1, 1, 1) Example.start_env Example.viewed_active r2
              eq_refl eq_refl) as (cam2 & Hc & Hu).
  - exists Example.camera. split; [reflexivity|]. split; [reflexivity|].
    vm_compute. split; discriminate || reflexivity.
  - exact E1.
  - exact E2.
  - exact E3.
  - exists r2, cam2. split; [exact E1|]. split; [exact E2|].
    split; [reflexivity|]. split; [exact Hc|exact Hu].
Defined.

Lemma rebuild_restores_arrays_witness :
  exists g1 r1 g2,
    vk2dRendererEndFrame (P := example_parameters) Example.refreshed_end_env
      Example.active = Ok g1
    /\ gRenderer g1 = Some r1
    /\ imagesInFlight r1 = [0; 0; 0]%nat
    /\ vk2dRendererStartFrame (P := example_parameters) (1, 1, 1, 1)
         Example.start_env g1 = Ok g2.
Proof.
  destruct (rebuild_restores_arrays (P := example_parameters) Example.active _
              Example.refreshed_end_env (1, 1, 1, 1) Example.start_env 1
              eq_refl eq_refl eq_refl eq_refl eq_refl eq_refl)
    as (g1 & r1 & g2 & H1 & Hr1 & Hi & H2 & _).
  - vm_compute. split; discriminate || reflexivity.
  - exists g1, r1, g2. split; [exact H1|]. split; [exact Hr1|]. split; [exact Hi|exact H2].
Defined.

End RendererFacts.
